(** * A shallow embedding of the twitter-data REST back end

    The development follows the layers of the program:
    - [JsString]: JavaScript strings as sequences of UTF-16 code units, with
      the string methods the controllers call ([startsWith], [trim],
      [split] on [/\s+/], [join]);
    - the entities of [models.ts] ([User], [Tweet], [Comment], [Like],
      [Follow]) and the store [DB] behind [AppDataSource];
    - a small state-and-response monad [Handler] in which the repository
      operations and the controller methods are written;
    - the controllers [TweetController], [UserController] and
      [InteractionController];
    - the properties of the handlers.

    Modelling conventions.  A handler runs to completion before the next one
    starts: requests are served one at a time, with no interleaving at
    [await].  Identifiers and timestamps are integers; a table is the list of
    its rows in insertion order; a primary key comes from a per-table
    sequence kept in the store, and an insert that the database rejects has
    already drawn its key, so the sequence stays advanced.

    A number of a request (a path or query parameter that the router
    validated as a [double]) is a [JsNumber].  It enters a query on an
    [integer] column through [column]: the query fails, and the handler ends
    in an exception, unless the number is an integer of the column's range.
    The user id of a verified token is the id of a user row, a value of that
    column.

    A [ManyToOne] relation with a [JoinColumn] is a foreign key on the named
    column: the insert fails when the row it refers to is missing, and
    [relations: [...]] loads the row the column refers to, [null] when there
    is none.  The two relations of [Follow] have no [JoinColumn]: they are
    not joined through [follower_id] and [followed_id], which are plain
    columns, and load as [null].

    Which rows a query with [order: { createdAt: "DESC" }], [take] and
    [skip] returns is the database's answer ([Database]); the handlers are
    written for any database, and their properties are proved for every
    database that answers as [Orderly] says.  Object storage, the full-text
    matcher of the database and the request's current user are parameters of
    the handlers that use them.  The text of a message that is produced
    outside the program (by the database or by the JavaScript engine) is not
    modelled: such a message is a [Raised] error. *)

From Stdlib Require Import String Ascii DecimalString.
From Stdlib Require Import ZArith NArith List Bool Lia.
From Stdlib Require Import Sorted Permutation.
Import ListNotations.
Open Scope Z_scope.

(** ** JavaScript strings *)

(** A JavaScript string is a sequence of 16-bit code units. *)
Definition JsString := list N.

(** The code units of an ASCII literal of the source. *)
Definition js (s : string) : JsString :=
  map N_of_ascii (list_ascii_of_string s).

(** [!s] for a string [s]: only the empty string is falsy. *)
Definition falsy (s : JsString) : bool :=
  match s with [] => true | _ :: _ => false end.

(** [s.startsWith(p)]. *)
Fixpoint startsWith (s p : JsString) : bool :=
  match p, s with
  | [], _ => true
  | _ :: _, [] => false
  | b :: p', a :: s' => N.eqb a b && startsWith s' p'
  end.

(** The rest of [s] after the literal prefix [p], when [s] starts with it. *)
Fixpoint stripPrefix (p s : JsString) : option JsString :=
  match p, s with
  | [], _ => Some s
  | _ :: _, [] => None
  | b :: p', a :: s' => if N.eqb a b then stripPrefix p' s' else None
  end.

Definition inRange (lo hi c : N) : bool := N.leb lo c && N.leb c hi.

(** ECMAScript WhiteSpace and LineTerminator code points: the characters
    removed by [trim] and matched by [\s]. *)
Definition isWhiteSpace (c : N) : bool :=
  inRange 9 13 c || N.eqb c 32 || N.eqb c 160 || N.eqb c 5760
  || inRange 8192 8202 c || N.eqb c 8232 || N.eqb c 8233
  || N.eqb c 8239 || N.eqb c 8287 || N.eqb c 12288 || N.eqb c 65279.

(** The regular expression class [\w]: [A-Za-z0-9_]. *)
Definition isWordChar (c : N) : bool :=
  inRange 65 90 c || inRange 97 122 c || inRange 48 57 c || N.eqb c 95.

Fixpoint dropWhile {A} (p : A -> bool) (l : list A) : list A :=
  match l with
  | [] => []
  | a :: r => if p a then dropWhile p r else l
  end.

Fixpoint takeWhile {A} (p : A -> bool) (l : list A) : list A :=
  match l with
  | [] => []
  | a :: r => if p a then a :: takeWhile p r else []
  end.

Definition trimStart (s : JsString) : JsString := dropWhile isWhiteSpace s.
Definition trimEnd (s : JsString) : JsString :=
  rev (dropWhile isWhiteSpace (rev s)).

(** [s.trim()]. *)
Definition trim (s : JsString) : JsString := trimEnd (trimStart s).

(** [s.split(/\s+/)], scanning left to right.  [insep] tells that the scan is
    inside a separator (a run of white space); [cur] holds the piece under
    construction, reversed.  As in JavaScript, a separator at either end of
    the string yields an empty piece there, and the empty string splits into
    one empty piece. *)
Fixpoint splitWs (insep : bool) (cur s : JsString) : list JsString :=
  match s with
  | [] => [rev cur]
  | c :: r =>
      if isWhiteSpace c
      then if insep then splitWs true cur r
           else rev cur :: splitWs true [] r
      else splitWs false (c :: cur) r
  end.

Definition split_ws (s : JsString) : list JsString := splitWs false [] s.

(** [pieces.join(sep)]. *)
Fixpoint join (sep : JsString) (pieces : list JsString) : JsString :=
  match pieces with
  | [] => []
  | [p] => p
  | p :: rest => p ++ sep ++ join sep rest
  end.

(** [v || d] for a nullable string [v]: [null], [undefined] and the empty
    string all give [d]. *)
Definition orElse (v : option JsString) (d : option JsString) : option JsString :=
  match v with
  | Some (_ :: _) => v
  | _ => d
  end.

(** [v || d] where [d] is a string. *)
Definition orString (v : option JsString) (d : JsString) : JsString :=
  match v with
  | Some ((_ :: _) as s) => s
  | _ => d
  end.

(** ** Entities (models.ts) *)

Definition Id := Z.
Definition Timestamp := Z.

(** ** Numbers of a request *)

(** A path or query parameter declared as [number]: the router accepts every
    [double], an integer or a number with a fractional part. *)
Inductive JsNumber : Type :=
| Integer (z : Z)
| Fraction.

Coercion Integer : Z >-> JsNumber.

(** The number of a count. *)
Definition ofNat (n : nat) : JsNumber := Integer (Z.of_nat n).

(** The values of an [integer] column of the database (32 bits). *)
Definition int4 (z : Z) : bool := (-2147483648 <=? z) && (z <=? 2147483647).

(** The value a number has as a parameter of a query on an [integer]
    column, when it has one. *)
Definition columnValue (n : JsNumber) : option Id :=
  match n with
  | Integer z => if int4 z then Some z else None
  | Fraction => None
  end.

(** [a === n] for an identifier [a]. *)
Definition sameNumber (a : Id) (n : JsNumber) : bool :=
  match n with
  | Integer z => a =? z
  | Fraction => false
  end.

Module User.
Record t := mk {
  id : Id;
  username : JsString;
  email : JsString;
  passwordHash : JsString;
  bio : option JsString;
  avatarUrl : option JsString;
  createdAt : Timestamp
}.
End User.

Module Tweet.
(** [imageUrl] is a [text] column that is not nullable; [tweetText] is
    nullable. *)
Record t := mk {
  id : Id;
  imageUrl : JsString;
  tweetText : option JsString;
  createdAt : Timestamp;
  userId : Id
}.
End Tweet.

Module Comment.
Record t := mk {
  id : Id;
  content : JsString;
  createdAt : Timestamp;
  userId : Id;
  tweetId : Id
}.
End Comment.

Module Like.
Record t := mk {
  id : Id;
  createdAt : Timestamp;
  userId : Id;
  tweetId : Id
}.
End Like.

Module Follow.
Record t := mk {
  id : Id;
  followerId : Id;
  followedId : Id;
  createdAt : Timestamp
}.
End Follow.

(** The store behind [AppDataSource]: the five tables and the sequences of
    the generated primary keys of the tables the handlers insert into. *)
Record DB := mkDB {
  users : list User.t;
  tweets : list Tweet.t;
  comments : list Comment.t;
  likes : list Like.t;
  follows : list Follow.t;
  tweet_seq : Id;
  comment_seq : Id;
  like_seq : Id;
  follow_seq : Id
}.

Definition emptyDB : DB := mkDB [] [] [] [] [] 1 1 1 1.

(** ** The handler monad *)

(** An error raised outside the program: by the database for a parameter it
    cannot use ([QueryFailed]) or for an insert that refers to a missing row
    ([ForeignKeyViolation]), by the JavaScript engine for a call of
    [undefined] ([NotAFunction]) or for a property read from [undefined]
    ([NoSuchProperty]). *)
Inductive Raised : Type :=
| QueryFailed
| ForeignKeyViolation
| NotAFunction
| NoSuchProperty.

(** The message of a response or of an exception: a text of the program, or
    the message of a raised error. *)
Inductive Message : Type :=
| Text (s : JsString)
| MessageOf (e : Raised).

Coercion Text : JsString >-> Message.

(** [m || d] for the message [m] of a caught error: the message of a raised
    error is not empty. *)
Definition orMessage (m : Message) (d : JsString) : Message :=
  match m with
  | Text [] => Text d
  | _ => m
  end.

(** How a controller method ends: it returns a value (after an optional
    [this.setStatus(s)]), it returns one of its [TsoaResponse] responders
    with a status and a message, or an exception leaves it. *)
Inductive Outcome (A : Type) : Type :=
| Return (status : option Z) (a : A)
| Respond (status : Z) (message : Message)
| Throw (message : Message).
Arguments Return {A} status a.
Arguments Respond {A} status message.
Arguments Throw {A} message.

(** A handler reads and updates the store. *)
Definition Handler (A : Type) : Type := DB -> Outcome A * DB.

Definition ret {A} (a : A) : Handler A := fun db => (Return None a, db).

Definition bind {A B} (m : Handler A) (k : A -> Handler B) : Handler B :=
  fun db =>
    match m db with
    | (Return s a, db') =>
        match k a db' with
        | (Return s' b, db'') =>
            (Return (match s' with Some _ => s' | None => s end) b, db'')
        | other => other
        end
    | (Respond st msg, db') => (Respond st msg, db')
    | (Throw msg, db') => (Throw msg, db')
    end.

Declare Scope handler_scope.
Delimit Scope handler_scope with handler.
Notation "x <- c ;; k" := (bind c (fun x => k))
  (at level 100, c at next level, right associativity) : handler_scope.
Notation "c ;;; k" := (bind c (fun _ => k))
  (at level 100, right associativity) : handler_scope.
Open Scope handler_scope.

(** [return res(status, { message })]. *)
Definition respond {A} (status : Z) (message : Message) : Handler A :=
  fun db => (Respond status message, db).

(** [throw new Error(message)]. *)
Definition throw {A} (message : Message) : Handler A :=
  fun db => (Throw message, db).

(** [this.setStatus(s)]. *)
Definition setStatus (s : Z) : Handler unit :=
  fun db => (Return (Some s) tt, db).

(** A query: reads the store and leaves it as it is. *)
Definition query {A} (f : DB -> A) : Handler A :=
  fun db => (Return None (f db), db).

(** A query that the database may reject. *)
Definition select {A} (f : DB -> option A) : Handler A :=
  fun db =>
    match f db with
    | Some a => (Return None a, db)
    | None => (Throw (MessageOf QueryFailed), db)
    end.

(** A number of the request as the parameter of a query on an [integer]
    column: the query fails when the number has no value there. *)
Definition column (n : JsNumber) : Handler Id :=
  select (fun _ => columnValue n).

(** A [TsoaResponse] argument of a controller method.  The router builds it
    from the argument list of the route; an argument that the list does not
    declare is [undefined]. *)
Inductive Responder : Type := responder.

(** [return res(status, { message })] for a responder argument [res]. *)
Definition respondWith {A} (res : option Responder) (status : Z)
    (message : Message) : Handler A :=
  match res with
  | Some _ => respond status message
  | None => throw (MessageOf NotAFunction)
  end.

(** [try { body } catch (error) { handler(error.message) }]: what [body]
    wrote before it threw stays written. *)
Definition tryCatch {A} (body : Handler A) (handler : Message -> Handler A)
  : Handler A :=
  fun db =>
    match body db with
    | (Throw msg, db') => handler msg db'
    | other => other
    end.

(** The status the generated router sends: the responder's status, else the
    status set by the controller, else the route's [successStatus], else
    200; an exception that leaves the handler goes to the error middleware
    (500). *)
Definition httpStatus {A} (successStatus : option Z) (o : Outcome A) : Z :=
  match o with
  | Return (Some s) _ => s
  | Return None _ => match successStatus with Some s => s | None => 200 end
  | Respond s _ => s
  | Throw _ => 500
  end.

(** ** Repositories: the operations of the object-relational mapper *)

(** What the database answers to a query with
    [order: { createdAt: "DESC" }], [take] and [skip] (find options or query
    builder) over the rows that satisfy the query's condition: the rows it
    returns, in the order it returns them, or [None] when it rejects the
    query.  The mapper hands [take] and [skip] to the database as they are;
    the order among rows created at the same time, which rows of equal time a
    page holds, and the answer to a [take] or [skip] that is not a count are
    the database's. *)
Class Database : Type := {
  newestFirst :
    forall A : Type, (A -> Timestamp) -> JsNumber -> JsNumber -> list A ->
                     option (list A)
}.
Arguments newestFirst {_} {A} createdAt take skip rows.

Definition findUser (i : Id) (l : list User.t) : option User.t :=
  find (fun u => User.id u =? i) l.

Definition findTweet (i : Id) (l : list Tweet.t) : option Tweet.t :=
  find (fun t => Tweet.id t =? i) l.

Module UserRepo.
(** [getRepository(User).findOneBy({ id })] for a value [i] of the column. *)
Definition findOneBy_id (i : Id) : Handler (option User.t) :=
  query (fun db => findUser i (users db)).
End UserRepo.

Module TweetRepo.
(** A tweet loaded with [relations: ["user"]]: the joined user is [null]
    when no user row has the tweet's [userId]. *)
Definition withUser (db : DB) (t : Tweet.t) : Tweet.t * option User.t :=
  (t, findUser (Tweet.userId t) (users db)).

(** [findOneBy({ id })] for a value [i] of the column. *)
Definition findOneBy_id (i : Id) : Handler (option Tweet.t) :=
  query (fun db => findTweet i (tweets db)).

(** [findOne({ where: { id }, relations: ["user"] })] for a value [i] of the
    column. *)
Definition findOne_withUser (i : Id)
  : Handler (option (Tweet.t * option User.t)) :=
  query (fun db => option_map (withUser db) (findTweet i (tweets db))).

(** [find({ relations: ["user"], order: { createdAt: "DESC" }, take, skip })]. *)
Definition find_newestFirst {D : Database} (take skip : JsNumber)
  : Handler (list (Tweet.t * option User.t)) :=
  select (fun db =>
    option_map (map (withUser db))
               (newestFirst Tweet.createdAt take skip (tweets db))).

(** The query builder of [searchTweets]: left join of the user, the
    full-text condition [matches] on [tweet_text], newest first, [take] and
    [skip]. *)
Definition search {D : Database} (matches : option JsString -> bool)
    (take skip : JsNumber) : Handler (list (Tweet.t * option User.t)) :=
  select (fun db =>
    option_map (map (withUser db))
               (newestFirst Tweet.createdAt take skip
                  (filter (fun t => matches (Tweet.tweetText t)) (tweets db)))).

(** [save(create({ userId, imageUrl, tweetText }))]: the row gets the next
    primary key and the current timestamp; [user_id] is a foreign key, so
    the insert fails when the user is missing, after the key was drawn. *)
Definition save (now : Timestamp) (userId : Id) (imageUrl : JsString)
    (tweetText : option JsString) : Handler Tweet.t :=
  fun db =>
    match findUser userId (users db) with
    | None =>
        (Throw (MessageOf ForeignKeyViolation),
         mkDB (users db) (tweets db) (comments db) (likes db) (follows db)
              (tweet_seq db + 1) (comment_seq db) (like_seq db)
              (follow_seq db))
    | Some _ =>
        let row := Tweet.mk (tweet_seq db) imageUrl tweetText now userId in
        (Return None row,
         mkDB (users db) (tweets db ++ [row]) (comments db) (likes db)
              (follows db) (tweet_seq db + 1) (comment_seq db) (like_seq db)
              (follow_seq db))
    end.
End TweetRepo.

Module LikeRepo.
(** [find({ where: { userId, tweetId: In(ids) } })]. *)
Definition find_byUser_tweetIn (userId : Id) (ids : list Id)
  : Handler (list Like.t) :=
  query (fun db =>
    filter (fun l => (Like.userId l =? userId)
                     && existsb (Z.eqb (Like.tweetId l)) ids) (likes db)).

(** [find({ where: { userId, tweetId } })]. *)
Definition find_byUser_tweet (userId tweetId : Id) : Handler (list Like.t) :=
  query (fun db =>
    filter (fun l => (Like.userId l =? userId)
                     && (Like.tweetId l =? tweetId)) (likes db)).

(** [find({ where: { userId }, relations: ["user", "tweet"] })]. *)
Definition find_byUser_withUserTweet (userId : Id)
  : Handler (list (Like.t * option User.t * option Tweet.t)) :=
  query (fun db =>
    map (fun l => (l, findUser (Like.userId l) (users db),
                   findTweet (Like.tweetId l) (tweets db)))
        (filter (fun l => Like.userId l =? userId) (likes db))).

(** [Like.create({ tweet, user, tweetId, userId }).save()]: the entity has
    two foreign keys and no uniqueness constraint. *)
Definition save (now : Timestamp) (userId tweetId : Id) : Handler Like.t :=
  fun db =>
    match findUser userId (users db), findTweet tweetId (tweets db) with
    | Some _, Some _ =>
        let row := Like.mk (like_seq db) now userId tweetId in
        (Return None row,
         mkDB (users db) (tweets db) (comments db) (likes db ++ [row])
              (follows db) (tweet_seq db) (comment_seq db) (like_seq db + 1)
              (follow_seq db))
    | _, _ =>
        (Throw (MessageOf ForeignKeyViolation),
         mkDB (users db) (tweets db) (comments db) (likes db) (follows db)
              (tweet_seq db) (comment_seq db) (like_seq db + 1)
              (follow_seq db))
    end.

(** [delete({ tweetId, userId })]. *)
Definition delete (tweetId userId : Id) : Handler unit :=
  fun db =>
    (Return None tt,
     mkDB (users db) (tweets db) (comments db)
          (filter (fun l => negb ((Like.tweetId l =? tweetId)
                                  && (Like.userId l =? userId))) (likes db))
          (follows db) (tweet_seq db) (comment_seq db) (like_seq db)
          (follow_seq db)).
End LikeRepo.

Module CommentRepo.
(** [find({ where: { tweetId }, relations: ["user"],
           order: { createdAt: "DESC" }, take, skip })]. *)
Definition find_byTweet {D : Database} (tweetId : Id) (take skip : JsNumber)
  : Handler (list (Comment.t * option User.t)) :=
  select (fun db =>
    option_map (map (fun c => (c, findUser (Comment.userId c) (users db))))
               (newestFirst Comment.createdAt take skip
                  (filter (fun c => Comment.tweetId c =? tweetId)
                          (comments db)))).

(** [Comment.create({ tweet, user, tweetId, userId, content }).save()]. *)
Definition save (now : Timestamp) (userId tweetId : Id) (content : JsString)
  : Handler Comment.t :=
  fun db =>
    match findUser userId (users db), findTweet tweetId (tweets db) with
    | Some _, Some _ =>
        let row := Comment.mk (comment_seq db) content now userId tweetId in
        (Return None row,
         mkDB (users db) (tweets db) (comments db ++ [row]) (likes db)
              (follows db) (tweet_seq db) (comment_seq db + 1) (like_seq db)
              (follow_seq db))
    | _, _ =>
        (Throw (MessageOf ForeignKeyViolation),
         mkDB (users db) (tweets db) (comments db) (likes db) (follows db)
              (tweet_seq db) (comment_seq db + 1) (like_seq db)
              (follow_seq db))
    end.
End CommentRepo.

Module FollowRepo.
Definition isPair (followerId followedId : Id) (f : Follow.t) : bool :=
  (Follow.followerId f =? followerId) && (Follow.followedId f =? followedId).

(** [findOneBy({ followerId, followedId })]. *)
Definition findOneBy_pair (followerId followedId : Id)
  : Handler (option Follow.t) :=
  query (fun db => find (isPair followerId followedId) (follows db)).

(** [count({ where: { followedId } })]. *)
Definition count_followed (followedId : Id) : Handler Z :=
  query (fun db =>
    Z.of_nat (length (filter (fun f => Follow.followedId f =? followedId)
                             (follows db)))).

(** [count({ where: { followerId } })]. *)
Definition count_follower (followerId : Id) : Handler Z :=
  query (fun db =>
    Z.of_nat (length (filter (fun f => Follow.followerId f =? followerId)
                             (follows db)))).

(** [find({ where: { followedId }, relations: ["follower"] })]: each row
    comes with its loaded [follower].  The relation has no [JoinColumn]: the
    mapper joins it through a column of its own, which
    [create({ followerId, followedId })] leaves [null], and not through
    [follower_id]; so the loaded user is [null] for every row. *)
Definition find_followed_withFollower (followedId : Id)
  : Handler (list (Follow.t * option User.t)) :=
  query (fun db =>
    map (fun f => (f, @None User.t))
        (filter (fun f => Follow.followedId f =? followedId) (follows db))).

(** [find({ where: { followerId }, relations: ["followed"] })]: the loaded
    [followed] is [null] for every row, as the loaded [follower] above. *)
Definition find_follower_withFollowed (followerId : Id)
  : Handler (list (Follow.t * option User.t)) :=
  query (fun db =>
    map (fun f => (f, @None User.t))
        (filter (fun f => Follow.followerId f =? followerId) (follows db))).

(** [save(create({ followerId, followedId }))]: [follower_id] and
    [followed_id] are plain columns and the entity declares no check and
    no uniqueness, so every pair of identifiers is accepted. *)
Definition save (now : Timestamp) (followerId followedId : Id)
  : Handler Follow.t :=
  fun db =>
    let row := Follow.mk (follow_seq db) followerId followedId now in
    (Return None row,
     mkDB (users db) (tweets db) (comments db) (likes db)
          (follows db ++ [row]) (tweet_seq db) (comment_seq db) (like_seq db)
          (follow_seq db + 1)).

(** [delete({ followerId, followedId })]: returns [result.affected]. *)
Definition delete (followerId followedId : Id) : Handler nat :=
  fun db =>
    (Return None (length (filter (isPair followerId followedId) (follows db))),
     mkDB (users db) (tweets db) (comments db) (likes db)
          (filter (fun f => negb (isPair followerId followedId f))
                  (follows db))
          (tweet_seq db) (comment_seq db) (like_seq db) (follow_seq db)).
End FollowRepo.

(** ** Requests and responses *)

Module JwtPayload.
(** The authenticated user of a request ([req.user]); the handlers read
    its [userId] only. *)
Record t := mk { userId : Id }.
End JwtPayload.

Module CreateTweetBase64Input.
(** [tweetText] may be [undefined] when the body carries no such field. *)
Record t := mk {
  imageBase64 : JsString;
  imageFileType : JsString;
  tweetText : option JsString
}.
End CreateTweetBase64Input.

Module TweetResponse.
Record t := mk {
  id : Id;
  imageUrl : JsString;
  tweetText : option JsString;
  createdAt : Timestamp;
  userId : Id;
  username : JsString;
  avatarUrl : option JsString;
  hasLiked : bool
}.
End TweetResponse.

Module UserProfileResponse.
Record t := mk {
  id : Id;
  username : JsString;
  bio : option JsString;
  avatarUrl : option JsString;
  createdAt : Timestamp;
  followers : Z;
  following : Z
}.
End UserProfileResponse.

Module CommentResponse.
Record t := mk {
  id : Id;
  text : JsString;
  userId : Id;
  tweetId : Id;
  username : JsString;
  avatarUrl : option JsString;
  createdAt : Timestamp
}.
End CommentResponse.

(** The decimal text of an integer in a template literal. *)
Definition numberToString (n : Z) : JsString :=
  js (NilZero.string_of_int (Z.to_int n)).

(** [currentUser.userId] where [currentUser] is [req.user]: a [TypeError]
    when the request carries no user. *)
Definition currentUserId (req_user : option JwtPayload.t) : Handler Id :=
  match req_user with
  | Some cu => ret (JwtPayload.userId cu)
  | None => throw (MessageOf NoSuchProperty)
  end.

(** [currentUser && currentUser.userId]: the user id when it is truthy. *)
Definition truthyUserId (req_user : option JwtPayload.t) : option Id :=
  match req_user with
  | Some cu => if JwtPayload.userId cu =? 0 then None
               else Some (JwtPayload.userId cu)
  | None => None
  end.

(** [like.userId === currentUser?.userId]. *)
Definition isCurrentUser (req_user : option JwtPayload.t) (uid : Id) : bool :=
  match req_user with
  | Some cu => uid =? JwtPayload.userId cu
  | None => false
  end.

(** [likes.some((like) => like.tweetId === id && like.userId === currentUser?.userId)]. *)
Definition someLike (req_user : option JwtPayload.t) (likes : list Like.t)
    (id : Id) : bool :=
  existsb (fun like => (Like.tweetId like =? id)
                       && isCurrentUser req_user (Like.userId like)) likes.

Definition isSome {A} (o : option A) : bool :=
  match o with Some _ => true | None => false end.

Definition defaultTo {A} (d : A) (o : option A) : A :=
  match o with Some a => a | None => d end.

(** ** TweetController (tweet.controller.ts) *)

(** The outcome of [uploadBase64ToObjectStorage]: the [objectUrl] of the
    stored image, or the message of the exception it throws. *)
Inductive UploadResult : Type :=
| Uploaded (objectUrl : JsString)
| UploadFailed (message : JsString).

(** [imageBase64] without a leading match of
    [/^data:(image\/\w+);base64,/], when there is one. *)
Definition stripDataUrl (s : JsString) : JsString :=
  match stripPrefix (js "data:image/") s with
  | Some r =>
      match takeWhile isWordChar r,
            stripPrefix (js ";base64,") (dropWhile isWordChar r) with
      | _ :: _, Some rest => rest
      | _, _ => s
      end
  | None => s
  end.

(** The fields every tweet response takes from a tweet loaded with its
    user. *)
Definition tweetResponse (req_user : option JwtPayload.t) (likes : list Like.t)
    (tu : Tweet.t * option User.t) : TweetResponse.t :=
  let (tweet, user) := tu in
  TweetResponse.mk (Tweet.id tweet) (Tweet.imageUrl tweet)
    (Tweet.tweetText tweet) (Tweet.createdAt tweet) (Tweet.userId tweet)
    (orString (option_map User.username user) (js "unknown"))
    (orElse (match user with Some u => User.avatarUrl u | None => None end) None)
    (someLike req_user likes (Tweet.id tweet)).

(** The likes of the current user among the tweets [ids], or [[]] when the
    request has no (truthy) user id. *)
Definition currentUserLikes (req_user : option JwtPayload.t) (ids : list Id)
  : Handler (list Like.t) :=
  match truthyUserId req_user with
  | Some uid => LikeRepo.find_byUser_tweetIn uid ids
  | None => ret []
  end.

Section TweetController.

(** Object storage and the full-text matcher
    [to_tsvector(tweet_text) @@ plainto_tsquery(query)] of the database
    are outside the program. *)
Variable uploadBase64ToObjectStorage : JsString -> JsString -> UploadResult.
Variable tsMatch : JsString -> option JsString -> bool.
Context {D : Database}.

Definition upload (base64Data fileType : JsString) : Handler JsString :=
  match uploadBase64ToObjectStorage base64Data fileType with
  | Uploaded url => ret url
  | UploadFailed msg => throw (Text msg)
  end.

Definition createTweet (req_user : option JwtPayload.t)
    (body : CreateTweetBase64Input.t) (now : Timestamp)
  : Handler TweetResponse.t :=
  if falsy (CreateTweetBase64Input.imageBase64 body)
     || negb (startsWith (CreateTweetBase64Input.imageFileType body)
                         (js "image/"))
  then respond 400 (js "imageBase64 and a valid imageFileType are required.")
  else
    let base64Data := stripDataUrl (CreateTweetBase64Input.imageBase64 body) in
    tryCatch
      (objectUrl <- upload base64Data
                      (CreateTweetBase64Input.imageFileType body) ;;
       userId <- currentUserId req_user ;;
       savedTweet <- TweetRepo.save now userId objectUrl
                       (orElse (CreateTweetBase64Input.tweetText body) None) ;;
       user <- UserRepo.findOneBy_id userId ;;
       setStatus 200 ;;;
       ret (TweetResponse.mk (Tweet.id savedTweet) (Tweet.imageUrl savedTweet)
              (Tweet.tweetText savedTweet) (Tweet.createdAt savedTweet)
              (Tweet.userId savedTweet)
              (orString (option_map User.username user) (js "unknown"))
              (orElse (match user with
                       | Some u => User.avatarUrl u
                       | None => None
                       end) None)
              false))
      (fun message =>
         respond 500 (orMessage message (js "Failed to create tweet."))).

(** [limit] and [offset] are [None] when the query parameter is omitted. *)
Definition getFeedTweets (req_user : option JwtPayload.t)
    (limit offset : option JsNumber) : Handler (list TweetResponse.t) :=
  let limit := defaultTo (Integer 10) limit in
  let offset := defaultTo (Integer 0) offset in
  tweets <- TweetRepo.find_newestFirst limit offset ;;
  likes <- currentUserLikes req_user
             (map (fun t => Tweet.id (fst t)) tweets) ;;
  ret (map (tweetResponse req_user likes)
           (* [tweet.imageUrl !== null] holds of every string *)
           (filter (fun t => isSome (snd t) && true) tweets)).

(** [query.trim().split(/\s+/).join(" & ")]. *)
Definition searchTerm (query : JsString) : JsString :=
  join (js " & ") (split_ws (trim query)).

Definition searchTweets (req_user : option JwtPayload.t) (query : JsString)
    (limit offset : option JsNumber) : Handler (list TweetResponse.t) :=
  let limit := defaultTo (Integer 10) limit in
  let offset := defaultTo (Integer 0) offset in
  if falsy (trim query)
  then respond 400 (js "Search query cannot be empty")
  else
    tweets <- TweetRepo.search (tsMatch (searchTerm query)) limit offset ;;
    likes <- currentUserLikes req_user
               (map (fun t => Tweet.id (fst t)) tweets) ;;
    ret (map (tweetResponse req_user likes) tweets).

Definition getTweetById (req_user : option JwtPayload.t) (tweetId : JsNumber)
  : Handler TweetResponse.t :=
  id <- column tweetId ;;
  found <- TweetRepo.findOne_withUser id ;;
  match found with
  | None => respond 404 (js "Tweet not found")
  | Some tweet =>
      likes <- match truthyUserId req_user with
               | Some uid =>
                   LikeRepo.find_byUser_tweet uid (Tweet.id (fst tweet))
               | None => ret []
               end ;;
      ret (tweetResponse req_user likes tweet)
  end.

End TweetController.

(** ** UserController (user.controller.ts) *)

Definition followUser (req_user : option JwtPayload.t)
    (userIdToFollow : JsNumber) (now : Timestamp) : Handler JsString :=
  userId <- currentUserId req_user ;;
  if sameNumber userId userIdToFollow
  then respond 400 (js "You cannot follow yourself.")
  else
    followedId <- column userIdToFollow ;;
    userToFollow <- UserRepo.findOneBy_id followedId ;;
    match userToFollow with
    | None => respond 404 (js "User to follow not found.")
    | Some _ =>
        exists_ <- FollowRepo.findOneBy_pair userId followedId ;;
        match exists_ with
        | Some _ => respond 409 (js "You are already following this user.")
        | None =>
            FollowRepo.save now userId followedId ;;;
            setStatus 200 ;;;
            ret (js "Successfully followed user "
                 ++ numberToString followedId)
        end
    end.

Definition unfollowUser (req_user : option JwtPayload.t)
    (userIdToUnfollow : JsNumber) : Handler JsString :=
  userId <- currentUserId req_user ;;
  followedId <- column userIdToUnfollow ;;
  affected <- FollowRepo.delete userId followedId ;;
  if Nat.eqb affected 0
  then respond 404 (js "Follow relationship not found.")
  else ret (js "Successfully unfollowed user "
            ++ numberToString followedId).

Definition getUserProfile (userId : JsNumber)
  : Handler UserProfileResponse.t :=
  id <- column userId ;;
  found <- UserRepo.findOneBy_id id ;;
  match found with
  | None => respond 404 (js "User not found")
  | Some user =>
      followers <- FollowRepo.count_followed id ;;
      following <- FollowRepo.count_follower id ;;
      ret (UserProfileResponse.mk (User.id user) (User.username user)
             (User.bio user) (User.avatarUrl user) (User.createdAt user)
             followers following)
  end.

(** The profile listed for a follower or a followed user: the counts are
    not computed in this context and are reported as 0. *)
Definition listedProfile (user : User.t) : UserProfileResponse.t :=
  UserProfileResponse.mk (User.id user) (User.username user) (User.bio user)
    (User.avatarUrl user) (User.createdAt user) 0 0.

(** [rows.filter((follow) => follow.x !== null && follow.x.id !== null)
        .map((follow) => ({ ... }))] for the loaded relation [x]. *)
Fixpoint listedProfiles (rows : list (Follow.t * option User.t))
  : list UserProfileResponse.t :=
  match rows with
  | [] => []
  | (_, Some user) :: r => listedProfile user :: listedProfiles r
  | (_, None) :: r => listedProfiles r
  end.

Definition getUserFollowers (userId : JsNumber) (notFound : option Responder)
  : Handler (list UserProfileResponse.t) :=
  id <- column userId ;;
  followers <- FollowRepo.find_followed_withFollower id ;;
  if Nat.eqb (length followers) 0
  then respondWith notFound 404 (js "No followers found for this user.")
  else ret (listedProfiles followers).

Definition getUserFollowing (userId : JsNumber) (notFound : option Responder)
  : Handler (list UserProfileResponse.t) :=
  id <- column userId ;;
  following <- FollowRepo.find_follower_withFollowed id ;;
  if Nat.eqb (length following) 0
  then respondWith notFound 404 (js "No following found for this user.")
  else ret (listedProfiles following).

(** The response built by [getUserLikes] from a like loaded with its user
    and tweet; the response's [id] is the like's. *)
Definition likedTweetResponse (req_user : option JwtPayload.t)
    (likedTweets : list Like.t) (like : Like.t) (user : User.t)
    (tweet : Tweet.t) : TweetResponse.t :=
  TweetResponse.mk (Like.id like) (Tweet.imageUrl tweet)
    (Tweet.tweetText tweet) (Like.createdAt like) (Like.userId like)
    (orString (Some (User.username user)) (js "unknown"))
    (orElse (User.avatarUrl user) None)
    (someLike req_user likedTweets (Like.id like)).

Fixpoint likedTweetResponses (req_user : option JwtPayload.t)
    (likedTweets : list Like.t)
    (rows : list (Like.t * option User.t * option Tweet.t))
  : list TweetResponse.t :=
  match rows with
  | [] => []
  | (like, Some user, Some tweet) :: r =>
      likedTweetResponse req_user likedTweets like user tweet
      :: likedTweetResponses req_user likedTweets r
  | _ :: r => likedTweetResponses req_user likedTweets r
  end.

Definition getUserLikes (req_user : option JwtPayload.t) (userId : JsNumber)
  : Handler (list TweetResponse.t) :=
  id <- column userId ;;
  found <- UserRepo.findOneBy_id id ;;
  match found with
  | None => respond 404 (js "User not found")
  | Some _ =>
      tweets <- LikeRepo.find_byUser_withUserTweet id ;;
      if Nat.eqb (length tweets) 0
      then respond 404 (js "No liked tweets found for this user.")
      else
        likedTweets <- currentUserLikes req_user
                         (map (fun t => Like.id (fst (fst t))) tweets) ;;
        ret (likedTweetResponses req_user likedTweets tweets)
  end.

(** ** InteractionController (interaction.controller.ts) *)

Section InteractionController.

(** [getCurrentUser()] of the authentication middleware. *)
Variable getCurrentUser : JwtPayload.t.

Definition likeTweet (tweetId : JsNumber) (now : Timestamp)
  : Handler JsString :=
  let currentUser := getCurrentUser in
  id <- column tweetId ;;
  tweet <- TweetRepo.findOneBy_id id ;;
  match tweet with
  | None => respond 404 (js "Tweet not found.")
  | Some _ =>
      user <- UserRepo.findOneBy_id (JwtPayload.userId currentUser) ;;
      match user with
      | None => throw (js "User not found")
      | Some user =>
          LikeRepo.save now (User.id user) id ;;;
          ret (js "Tweet liked successfully")
      end
  end.

Definition unlikeTweet (tweetId : JsNumber) : Handler JsString :=
  let currentUser := getCurrentUser in
  id <- column tweetId ;;
  LikeRepo.delete id (JwtPayload.userId currentUser) ;;;
  ret (js "Tweet unliked successfully").

Definition createComment (tweetId : JsNumber) (text : JsString)
    (now : Timestamp) : Handler CommentResponse.t :=
  let currentUser := getCurrentUser in
  id <- column tweetId ;;
  tweet <- TweetRepo.findOneBy_id id ;;
  match tweet with
  | None => respond 404 (js "Tweet not found.")
  | Some _ =>
      user <- UserRepo.findOneBy_id (JwtPayload.userId currentUser) ;;
      match user with
      | None => throw (js "User not found")
      | Some user =>
          saved <- CommentRepo.save now (User.id user) id text ;;
          ret (CommentResponse.mk (Comment.id saved) (Comment.content saved)
                 (Comment.userId saved) (Comment.tweetId saved)
                 (User.username user) (User.avatarUrl user)
                 (Comment.createdAt saved))
      end
  end.

End InteractionController.

Definition getComments {D : Database} (tweetId : JsNumber)
    (limit offset : option JsNumber) : Handler (list CommentResponse.t) :=
  let limit := defaultTo (Integer 10) limit in
  let offset := defaultTo (Integer 0) offset in
  id <- column tweetId ;;
  tweet <- TweetRepo.findOneBy_id id ;;
  match tweet with
  | None => respond 404 (js "Tweet not found.")
  | Some _ =>
      comments <- CommentRepo.find_byTweet id limit offset ;;
      ret (map (fun cu : Comment.t * option User.t =>
                  let (c, user) := cu in
                  CommentResponse.mk (Comment.id c) (Comment.content c)
                    (Comment.userId c) (Comment.tweetId c)
                    (orString (option_map User.username user) (js "unknown"))
                    (orElse (match user with
                             | Some u => User.avatarUrl u
                             | None => None
                             end) None)
                    (Comment.createdAt c))
               comments)
  end.

(** ** The generated router (routes.ts) *)

(** One constructor per route registered by [RegisterRoutes], with the
    validated arguments of the controller method. *)
Inductive Request : Type :=
| CreateTweet (req_user : option JwtPayload.t) (body : CreateTweetBase64Input.t)
| GetFeedTweets (req_user : option JwtPayload.t)
    (limit offset : option JsNumber)
| SearchTweets (req_user : option JwtPayload.t) (query : JsString)
    (limit offset : option JsNumber)
| GetTweetById (req_user : option JwtPayload.t) (tweetId : JsNumber)
| FollowUser (req_user : option JwtPayload.t) (userIdToFollow : JsNumber)
| UnfollowUser (req_user : option JwtPayload.t) (userIdToUnfollow : JsNumber)
| GetUserProfile (userId : JsNumber)
| GetUserFollowers (userId : JsNumber)
| GetUserFollowing (userId : JsNumber)
| GetUserLikes (req_user : option JwtPayload.t) (userId : JsNumber)
| LikeTweet (currentUser : JwtPayload.t) (tweetId : JsNumber)
| UnlikeTweet (currentUser : JwtPayload.t) (tweetId : JsNumber)
| CreateComment (currentUser : JwtPayload.t) (tweetId : JsNumber)
    (text : JsString)
| GetComments (tweetId : JsNumber) (limit offset : option JsNumber).

(** The two routes whose handlers delete rows. *)
Definition isDelete (r : Request) : bool :=
  match r with
  | UnfollowUser _ _ | UnlikeTweet _ _ => true
  | _ => false
  end.

(** [templateService.apiHandler]: runs the method and sends the status. *)
Definition apiHandler {A} (successStatus : option Z) (h : Handler A)
  : DB -> Z * DB :=
  fun db => (httpStatus successStatus (fst (h db)), snd (h db)).

Section Router.

Variable uploadBase64ToObjectStorage : JsString -> JsString -> UploadResult.
Variable tsMatch : JsString -> option JsString -> bool.
Context {D : Database}.

(** The dispatch of [RegisterRoutes], with each route's [successStatus];
    [now] is the clock of the database while the request is served.  The
    argument lists of the followers and following routes declare the path
    parameter only: their handlers get no [notFound] responder. *)
Definition RegisterRoutes (r : Request) (now : Timestamp) : DB -> Z * DB :=
  match r with
  | CreateTweet u body =>
      apiHandler (Some 200) (createTweet uploadBase64ToObjectStorage u body now)
  | GetFeedTweets u limit offset =>
      apiHandler None (getFeedTweets u limit offset)
  | SearchTweets u q limit offset =>
      apiHandler None (searchTweets tsMatch u q limit offset)
  | GetTweetById u i => apiHandler None (getTweetById u i)
  | FollowUser u i => apiHandler (Some 200) (followUser u i now)
  | UnfollowUser u i => apiHandler (Some 200) (unfollowUser u i)
  | GetUserProfile i => apiHandler None (getUserProfile i)
  | GetUserFollowers i => apiHandler None (getUserFollowers i None)
  | GetUserFollowing i => apiHandler None (getUserFollowing i None)
  | GetUserLikes u i => apiHandler None (getUserLikes u i)
  | LikeTweet cu i => apiHandler (Some 201) (likeTweet cu i now)
  | UnlikeTweet cu i => apiHandler (Some 200) (unlikeTweet cu i)
  | CreateComment cu i text =>
      apiHandler (Some 201) (createComment cu i text now)
  | GetComments i limit offset => apiHandler None (getComments i limit offset)
  end.

End Router.


(** ** Notions used in the statements *)

(** Newest first: every row is at least as recent as the rows after it. *)
Definition descending {A} (key : A -> Z) : list A -> Prop :=
  StronglySorted (fun a b => key b <= key a).

(** The part of a list that [take] and [skip] select when both are counts:
    the rows after the first [skip], and of these the first [take]; a [take]
    of 0 puts no limit on the query. *)
Definition slice {A} (take skip : nat) (l : list A) : list A :=
  match take with
  | O => skipn skip l
  | S _ => firstn take (skipn skip l)
  end.

(** What the properties below ask of the database.  Every answer is newest
    first and holds rows of the queried ones, each at most as often as it
    was queried.  When [take] and [skip] are counts the query is answered,
    and the answer holds the rows that [take] and [skip] select from some
    newest-first order of the queried rows.  The order among rows of equal
    time is left open, and so is whether two pages are parts of the same
    order. *)
Class Orderly (D : Database) : Prop := {
  newestFirst_rows :
    forall (A : Type) (createdAt : A -> Timestamp) (take skip : JsNumber)
           (rows page : list A),
      newestFirst createdAt take skip rows = Some page ->
      descending createdAt page /\
      exists rest, Permutation (page ++ rest) rows;
  newestFirst_counts :
    forall (A : Type) (createdAt : A -> Timestamp) (take skip : nat)
           (rows : list A),
      exists page ordered,
        newestFirst createdAt (ofNat take) (ofNat skip) rows = Some page /\
        Permutation ordered rows /\
        descending createdAt ordered /\
        Permutation page (slice take skip ordered)
}.

(** A sample database: it keeps rows of equal time in table order (a stable
    insertion sort), cuts every page out of that order, and rejects a [take]
    or [skip] that is not a count. *)
Fixpoint insertDesc {A} (key : A -> Z) (x : A) (l : list A) : list A :=
  match l with
  | [] => [x]
  | y :: r => if key y <=? key x then x :: y :: r
              else y :: insertDesc key x r
  end.

Fixpoint sortDescBy {A} (key : A -> Z) (l : list A) : list A :=
  match l with
  | [] => []
  | x :: r => insertDesc key x (sortDescBy key r)
  end.

Definition countOf (n : JsNumber) : option nat :=
  match n with
  | Integer z => if 0 <=? z then Some (Z.to_nat z) else None
  | Fraction => None
  end.

Definition tableOrder : Database :=
  {| newestFirst := fun A createdAt take skip rows =>
       match countOf take, countOf skip with
       | Some t, Some s => Some (slice t s (sortDescBy createdAt rows))
       | _, _ => None
       end |}.

(** The tweet a response was built from. *)
Definition tweetOf (r : TweetResponse.t) : Tweet.t :=
  Tweet.mk (TweetResponse.id r) (TweetResponse.imageUrl r)
    (TweetResponse.tweetText r) (TweetResponse.createdAt r)
    (TweetResponse.userId r).

(** The tweet's user row exists. *)
Definition hasUser (db : DB) (t : Tweet.t) : bool :=
  isSome (findUser (Tweet.userId t) (users db)).

(** The number of Like rows of a (user, tweet) pair. *)
Definition countLikes (userId tweetId : Id) (l : list Like.t) : nat :=
  length (filter (fun k => (Like.userId k =? userId)
                           && (Like.tweetId k =? tweetId)) l).

(** The Follow rows that point to a user, and those that start from it. *)
Definition followersOf (db : DB) (uid : Id) : list Follow.t :=
  filter (fun f => Follow.followedId f =? uid) (follows db).

Definition followingOf (db : DB) (uid : Id) : list Follow.t :=
  filter (fun f => Follow.followerId f =? uid) (follows db).

Definition followPair (f : Follow.t) : Id * Id :=
  (Follow.followerId f, Follow.followedId f).

(** Every row of [db] is still in [db'], in place: each table of [db'] is the
    table of [db] followed by the rows inserted since. *)
Definition persists (db db' : DB) : Prop :=
  (exists l, users db' = users db ++ l) /\
  (exists l, tweets db' = tweets db ++ l) /\
  (exists l, comments db' = comments db ++ l) /\
  (exists l, likes db' = likes db ++ l) /\
  (exists l, follows db' = follows db ++ l).

(** The string is empty or holds white space only. *)
Definition blank (s : JsString) : bool := forallb isWhiteSpace s.

(** A string with each maximal run of white space replaced by [sep]. *)
Fixpoint replaceRuns (sep : JsString) (insep : bool) (s : JsString) : JsString :=
  match s with
  | [] => []
  | c :: r =>
      if isWhiteSpace c
      then if insep then replaceRuns sep true r
           else sep ++ replaceRuns sep true r
      else c :: replaceRuns sep false r
  end.

(** The words of a string: its maximal runs of characters that are not
    white space. *)
Fixpoint wordsFrom (cur s : JsString) : list JsString :=
  match s with
  | [] => match cur with [] => [] | _ :: _ => [rev cur] end
  | c :: r =>
      if isWhiteSpace c
      then match cur with
           | [] => wordsFrom [] r
           | _ :: _ => rev cur :: wordsFrom [] r
           end
      else wordsFrom (c :: cur) r
  end.

Definition words (s : JsString) : list JsString := wordsFrom [] s.

(** ** Sample stores *)

Definition alice : User.t :=
  User.mk 1 (js "alice") (js "alice@example.org") (js "hash") None None 100.
Definition bob : User.t :=
  User.mk 2 (js "bob") (js "bob@example.org") (js "hash") None None 101.

Definition aliceJwt : JwtPayload.t := JwtPayload.mk 1.
Definition bobJwt : JwtPayload.t := JwtPayload.mk 2.

(** Two users, three tweets of different ages, one like of alice on tweet 1
    and one follow from bob to alice. *)
Definition sampleDB : DB :=
  mkDB [alice; bob]
       [Tweet.mk 1 (js "https://img/1") (Some (js "first")) 200 1;
        Tweet.mk 2 (js "https://img/2") None 300 2;
        Tweet.mk 3 (js "https://img/3") (Some (js "third one")) 250 1]
       [Comment.mk 1 (js "nice") 260 2 1]
       [Like.mk 1 210 1 1]
       [Follow.mk 1 2 1 150]
       4 2 2 2.

(** A store in which alice follows herself: the row was inserted through
    the repository, not through [followUser]. *)
Definition selfFollowDB : DB :=
  mkDB [alice; bob] [] [] [] [Follow.mk 1 1 1 150] 1 1 1 2.

(** A store in which alice follows user 7, who has no user row. *)
Definition danglingFollowDB : DB :=
  mkDB [alice; bob] [] [] [] [Follow.mk 1 1 7 150] 1 1 1 2.

(** A store with the two users and nothing else. *)
Definition usersOnlyDB : DB := mkDB [alice; bob] [] [] [] [] 1 1 1 1.

(** [sampleDB] after alice has followed bob at time 400. *)
Definition sampleDB_alice_follows_bob : DB :=
  snd (followUser (Some aliceJwt) 2 400 sampleDB).

(** A listed profile reports no followers and no following. *)
Definition zeroCounts (p : UserProfileResponse.t) : Prop :=
  UserProfileResponse.followers p = 0 /\ UserProfileResponse.following p = 0.

(** An object storage that stores every image under one URL, and sample
    request bodies. *)
Definition sampleUpload (base64Data fileType : JsString) : UploadResult :=
  Uploaded (js "https://storage/object").

Definition bodyWithoutText : CreateTweetBase64Input.t :=
  CreateTweetBase64Input.mk (js "data:image/png;base64,iVBOR") (js "image/png")
    None.
Definition bodyWithEmptyText : CreateTweetBase64Input.t :=
  CreateTweetBase64Input.mk (js "iVBOR") (js "image/png") (Some []).
Definition bodyWithText : CreateTweetBase64Input.t :=
  CreateTweetBase64Input.mk (js "iVBOR") (js "image/png") (Some (js "hello")).
Definition bodyWithoutImage : CreateTweetBase64Input.t :=
  CreateTweetBase64Input.mk [] (js "image/png") (Some (js "hello")).
Definition bodyWithPdf : CreateTweetBase64Input.t :=
  CreateTweetBase64Input.mk (js "JVBERi0") (js "application/pdf")
    (Some (js "hello")).

(** The text stored for a request's [tweetText]: [null] when it is absent
    or empty, the text itself otherwise. *)
Definition storedText (tweetText : option JsString) : option JsString :=
  match tweetText with
  | None => None
  | Some [] => None
  | Some (c :: s) => Some (c :: s)
  end.

(** A handler that leaves the store as it found it. *)
Definition readOnly {A} (h : Handler A) : Prop :=
  forall db, snd (h db) = db.

(** A handler whose final store is related by [R] to the store it
    started from. *)
Definition respects {A} (R : DB -> DB -> Prop) (h : Handler A) : Prop :=
  forall db, R db (snd (h db)).

(** A handler that removes no row. *)
Definition growing {A} (h : Handler A) : Prop := respects persists h.

(** The user and Follow tables are as they were. *)
Definition keepsFollows (db db' : DB) : Prop :=
  users db' = users db /\ follows db' = follows db.

(** Every Follow row joins two different users and points to a user that
    has a row, by an id of the column's range. *)
Definition followsWellFormed (db : DB) : Prop :=
  Forall (fun f => Follow.followerId f <> Follow.followedId f /\
                   int4 (Follow.followedId f) = true /\
                   findUser (Follow.followedId f) (users db) <> None)
         (follows db).

(** The stores reached from [db0] by serving requests, one at a time. *)
Inductive served {D : Database}
    (uploadBase64ToObjectStorage : JsString -> JsString -> UploadResult)
    (tsMatch : JsString -> option JsString -> bool) (db0 : DB) : DB -> Prop :=
| served_start : served uploadBase64ToObjectStorage tsMatch db0 db0
| served_request db r now :
    served uploadBase64ToObjectStorage tsMatch db0 db ->
    served uploadBase64ToObjectStorage tsMatch db0
      (snd (RegisterRoutes uploadBase64ToObjectStorage tsMatch r now db)).

(** The five tables are as they were. *)
Definition sameTables (db db' : DB) : Prop :=
  users db' = users db /\ tweets db' = tweets db /\
  comments db' = comments db /\ likes db' = likes db /\
  follows db' = follows db.

(** The store with [l] as its tweets. *)
Definition withTweets (db : DB) (l : list Tweet.t) : DB :=
  mkDB (users db) l (comments db) (likes db) (follows db) (tweet_seq db)
       (comment_seq db) (like_seq db) (follow_seq db).

(** Rows are removed from the Follow table only, and only rows from
    [followerId] to [followedId]; no row is added. *)
Definition deletesFollowsOnly (followerId followedId : Id) (db db' : DB)
  : Prop :=
  users db' = users db /\ tweets db' = tweets db /\
  comments db' = comments db /\ likes db' = likes db /\
  follows db'
  = filter (fun f => negb (FollowRepo.isPair followerId followedId f))
           (follows db).

(** Rows are removed from the Like table only, and only the likes of
    [userId] on [tweetId]; no row is added. *)
Definition deletesLikesOnly (userId tweetId : Id) (db db' : DB) : Prop :=
  users db' = users db /\ tweets db' = tweets db /\
  comments db' = comments db /\ follows db' = follows db /\
  likes db'
  = filter (fun l => negb ((Like.tweetId l =? tweetId)
                           && (Like.userId l =? userId))) (likes db).

(** The string does not end in white space. *)
Fixpoint endsInWord (s : JsString) : bool :=
  match s with
  | [] => true
  | c :: r =>
      match r with
      | [] => negb (isWhiteSpace c)
      | _ :: _ => endsInWord r
      end
  end.

(** A matcher that accepts every tweet that has a text. *)
Definition sampleMatch (term : JsString) (text : option JsString) : bool :=
  isSome text.


(** ** Notions used in the further properties *)

(** The requester has a Like row on the tweet.  A request without a user,
    or whose user id is 0 (falsy), has none for the handlers. *)
Definition likedBy (req_user : option JwtPayload.t) (db : DB) (tweetId : Id)
  : bool :=
  match truthyUserId req_user with
  | Some uid =>
      existsb (fun l => (Like.userId l =? uid) && (Like.tweetId l =? tweetId))
              (likes db)
  | None => false
  end.

(** How a tweet is shown to a requester: its own fields, its author's name
    and avatar (["unknown"] and [null] without an author row or with empty
    values), and whether the requester likes it. *)
Definition tweetView (req_user : option JwtPayload.t) (db : DB) (t : Tweet.t)
  : TweetResponse.t :=
  let user := findUser (Tweet.userId t) (users db) in
  TweetResponse.mk (Tweet.id t) (Tweet.imageUrl t) (Tweet.tweetText t)
    (Tweet.createdAt t) (Tweet.userId t)
    (orString (option_map User.username user) (js "unknown"))
    (orElse (match user with Some u => User.avatarUrl u | None => None end) None)
    (likedBy req_user db (Tweet.id t)).

(** A property of the store that a step from [db] to [db'] keeps. *)
Definition preserves (P : DB -> Prop) (db db' : DB) : Prop := P db -> P db'.

(** Primary keys: in the four tables the handlers insert into, every key is
    below the table's sequence and no key occurs twice. *)
Definition keysWellFormed (db : DB) : Prop :=
  (Forall (fun t => Tweet.id t < tweet_seq db) (tweets db) /\
   NoDup (map Tweet.id (tweets db))) /\
  (Forall (fun c => Comment.id c < comment_seq db) (comments db) /\
   NoDup (map Comment.id (comments db))) /\
  (Forall (fun l => Like.id l < like_seq db) (likes db) /\
   NoDup (map Like.id (likes db))) /\
  (Forall (fun f => Follow.id f < follow_seq db) (follows db) /\
   NoDup (map Follow.id (follows db))).

(** Foreign keys: every tweet has its user row, every comment and every
    like has its user row and its tweet row. *)
Definition referencesResolve (db : DB) : Prop :=
  Forall (fun t => findUser (Tweet.userId t) (users db) <> None) (tweets db) /\
  Forall (fun c => findUser (Comment.userId c) (users db) <> None /\
                   findTweet (Comment.tweetId c) (tweets db) <> None)
         (comments db) /\
  Forall (fun l => findUser (Like.userId l) (users db) <> None /\
                   findTweet (Like.tweetId l) (tweets db) <> None)
         (likes db).

(** The comment a response was built from. *)
Definition commentOf (r : CommentResponse.t) : Comment.t :=
  Comment.mk (CommentResponse.id r) (CommentResponse.text r)
    (CommentResponse.createdAt r) (CommentResponse.userId r)
    (CommentResponse.tweetId r).

(** The comments of a tweet, in table order. *)
Definition commentsOf (db : DB) (tweetId : Id) : list Comment.t :=
  filter (fun c => Comment.tweetId c =? tweetId) (comments db).

(** How a comment is listed: its own fields and its author's name and
    avatar (["unknown"] and [null] without an author row or with empty
    values). *)
Definition commentView (db : DB) (c : Comment.t) : CommentResponse.t :=
  let user := findUser (Comment.userId c) (users db) in
  CommentResponse.mk (Comment.id c) (Comment.content c) (Comment.userId c)
    (Comment.tweetId c)
    (orString (option_map User.username user) (js "unknown"))
    (orElse (match user with Some u => User.avatarUrl u | None => None end) None)
    (Comment.createdAt c).

(** The Like rows of a user, in table order. *)
Definition likesOfUser (db : DB) (userId : Id) : list Like.t :=
  filter (fun l => Like.userId l =? userId) (likes db).

(** What [getUserLikes] shows of a like of [userId]: the response takes its
    [id], [createdAt] and [userId] from the Like row and its image and text
    from the liked tweet. *)
Definition showsLike (db : DB) (userId : Id) (r : TweetResponse.t) : Prop :=
  TweetResponse.userId r = userId /\
  exists like tweet,
    In like (likes db) /\ Like.userId like = userId /\
    findTweet (Like.tweetId like) (tweets db) = Some tweet /\
    TweetResponse.id r = Like.id like /\
    TweetResponse.createdAt r = Like.createdAt like /\
    TweetResponse.imageUrl r = Tweet.imageUrl tweet /\
    TweetResponse.tweetText r = Tweet.tweetText tweet.

(** * Properties *)

(** ** The model on concrete inputs *)

Example split_ws_inner : split_ws (js "a  b") = [js "a"; js "b"].
Proof. reflexivity. Qed.

Example split_ws_edges : split_ws (js " a ") = [[]; js "a"; []].
Proof. reflexivity. Qed.

Example split_ws_empty : split_ws [] = [[]].
Proof. reflexivity. Qed.

Example trim_tab_newline : trim ([9; 32] ++ js "a b" ++ [10; 160])%N = js "a b".
Proof. reflexivity. Qed.

Example zero_width_space_is_kept : isWhiteSpace 8203 = false.
Proof. reflexivity. Qed.

Example searchTerm_words :
  searchTerm (js "  cats   and dogs ") = js "cats & and & dogs".
Proof. reflexivity. Qed.

Example stripDataUrl_prefix :
  stripDataUrl (js "data:image/png;base64,iVBOR") = js "iVBOR".
Proof. reflexivity. Qed.

Example stripDataUrl_no_subtype :
  stripDataUrl (js "data:image/;base64,iVBOR")
  = js "data:image/;base64,iVBOR".
Proof. reflexivity. Qed.

Example stripDataUrl_plain : stripDataUrl (js "iVBOR") = js "iVBOR".
Proof. reflexivity. Qed.

Example followed_message :
  js "Successfully followed user " ++ numberToString 42
  = js "Successfully followed user 42".
Proof. reflexivity. Qed.

Example feed_of_sampleDB :
  map TweetResponse.id
      (match fst (getFeedTweets (D := tableOrder) (Some aliceJwt) None None
                    sampleDB) with
       | Return _ rs => rs
       | _ => []
       end) = [2; 3; 1].
Proof. reflexivity. Qed.

Example feed_second_page :
  map TweetResponse.id
      (match fst (getFeedTweets (D := tableOrder) None (Some (ofNat 1))
                    (Some (ofNat 1)) sampleDB) with
       | Return _ rs => rs
       | _ => []
       end) = [3].
Proof. reflexivity. Qed.

Example feed_without_limit :
  map TweetResponse.id
      (match fst (getFeedTweets (D := tableOrder) None (Some (ofNat 0))
                    (Some (ofNat 1)) sampleDB) with
       | Return _ rs => rs
       | _ => []
       end) = [3; 1].
Proof. reflexivity. Qed.

Example feed_of_emptyDB :
  getFeedTweets (D := tableOrder) None None None emptyDB
  = (Return None [], emptyDB).
Proof. reflexivity. Qed.

Example getTweetById_out_of_range :
  getTweetById (Some aliceJwt) 2147483648 sampleDB
  = (Throw (MessageOf QueryFailed), sampleDB) /\
  getTweetById (Some aliceJwt) Fraction sampleDB
  = (Throw (MessageOf QueryFailed), sampleDB) /\
  getTweetById (Some aliceJwt) 2147483647 sampleDB
  = (Respond 404 (js "Tweet not found"), sampleDB).
Proof. repeat split; reflexivity. Qed.

Example followers_route_has_no_responder :
  fst (RegisterRoutes (D := tableOrder) sampleUpload sampleMatch
         (GetUserFollowers 2) 400 sampleDB) = 500 /\
  fst (RegisterRoutes (D := tableOrder) sampleUpload sampleMatch
         (GetUserFollowers 1) 400 sampleDB) = 200 /\
  getUserFollowers 1 None sampleDB = (Return None [], sampleDB).
Proof. repeat split; reflexivity. Qed.

Example createTweet_empty_text :
  map Tweet.tweetText
      (tweets (snd (createTweet sampleUpload (Some aliceJwt) bodyWithEmptyText
                      400 sampleDB)))
  = [Some (js "first"); None; Some (js "third one"); None].
Proof. reflexivity. Qed.

Example createTweet_unknown_user :
  fst (createTweet sampleUpload (Some (JwtPayload.mk 9)) bodyWithText 400
         sampleDB) = Respond 500 (MessageOf ForeignKeyViolation) /\
  tweets (snd (createTweet sampleUpload (Some (JwtPayload.mk 9)) bodyWithText
                 400 sampleDB)) = tweets sampleDB /\
  tweet_seq (snd (createTweet sampleUpload (Some (JwtPayload.mk 9))
                    bodyWithText 400 sampleDB)) = 5.
Proof. repeat split; reflexivity. Qed.

Example unfollow_then_not_found :
  httpStatus (Some 200) (fst (unfollowUser (Some aliceJwt) 2 sampleDB)) = 404 /\
  httpStatus (Some 200) (fst (unfollowUser (Some bobJwt) 1 sampleDB)) = 200 /\
  follows (snd (unfollowUser (Some bobJwt) 1 sampleDB)) = [].
Proof. repeat split; reflexivity. Qed.

(** ** Lists: ordering and the rows of a page *)

Section Ordering.

Context {A : Type} (key : A -> Z).

Lemma insertDesc_perm x l : Permutation (insertDesc key x l) (x :: l).
Proof.
  induction l as [|y r IH]; simpl.
  - apply Permutation_refl.
  - destruct (key y <=? key x).
    + apply Permutation_refl.
    + eapply perm_trans; [apply perm_skip, IH | apply perm_swap].
Qed.

Lemma sortDescBy_perm l : Permutation (sortDescBy key l) l.
Proof.
  induction l as [|x r IH]; simpl.
  - constructor.
  - eapply perm_trans; [apply insertDesc_perm | now apply perm_skip].
Qed.

Lemma insertDesc_descending x l :
  descending key l -> descending key (insertDesc key x l).
Proof.
  unfold descending.
  induction l as [|y r IH]; simpl; intros Hs.
  - constructor; constructor.
  - inversion Hs as [|? ? Hr Hall]; subst.
    destruct (key y <=? key x) eqn:E.
    + apply Z.leb_le in E.
      constructor; [assumption|].
      constructor; [assumption|].
      eapply Forall_impl; [|exact Hall].
      intros b Hb; simpl in Hb; lia.
    + apply Z.leb_gt in E.
      constructor; [now apply IH|].
      apply Forall_forall. intros b Hb.
      apply (Permutation_in _ (insertDesc_perm x r)) in Hb.
      destruct Hb as [<-|Hb]; [lia|].
      rewrite Forall_forall in Hall. now apply Hall.
Qed.

Lemma sortDescBy_descending l : descending key (sortDescBy key l).
Proof.
  induction l as [|x r IH]; simpl.
  - constructor.
  - now apply insertDesc_descending.
Qed.

(** A row that is newer than every other row of a newest-first list is its
    first row. *)
Lemma descending_head x l :
  descending key l -> In x l ->
  (forall y, In y l -> y = x \/ key y < key x) ->
  exists rest, l = x :: rest.
Proof.
  intros Hs Hin Hnew. destruct l as [|h t]; [contradiction|].
  destruct (Hnew h (or_introl eq_refl)) as [-> | Hlt]; [now exists t|].
  destruct Hin as [-> | Hin]; [now exists t|].
  inversion Hs as [|? ? _ Hall]; subst.
  rewrite Forall_forall in Hall. specialize (Hall x Hin). simpl in Hall. lia.
Qed.

(** Rows whose times are all different have one newest-first order. *)
Lemma descending_unique l l' :
  NoDup (map key l) -> Permutation l l' ->
  descending key l -> descending key l' -> l = l'.
Proof.
  revert l'. induction l as [|x r IH]; intros l' Hnd Hp Hs Hs'.
  - apply Permutation_nil in Hp. now subst.
  - inversion Hnd as [|? ? Hnin Hnd']; subst.
    inversion Hs as [|? ? Hr Hall]; subst.
    assert (Hnew : forall y, In y l' -> y = x \/ key y < key x).
    { intros y Hy. apply (Permutation_in _ (Permutation_sym Hp)) in Hy.
      destruct Hy as [-> | Hy]; [now left|]. right.
      rewrite Forall_forall in Hall. specialize (Hall y Hy). simpl in Hall.
      assert (key y <> key x).
      { intros E. apply Hnin. rewrite <- E. now apply in_map. }
      lia. }
    destruct (descending_head x l' Hs'
                (Permutation_in _ Hp (or_introl eq_refl)) Hnew) as [rest ->].
    f_equal. apply IH.
    + exact Hnd'.
    + now apply Permutation_cons_inv in Hp.
    + exact Hr.
    + now inversion Hs'.
Qed.

End Ordering.

Section Sublists.

Context {A : Type} (R : A -> A -> Prop).

Lemma StronglySorted_skipn n l :
  StronglySorted R l -> StronglySorted R (skipn n l).
Proof.
  revert l. induction n as [|n IH]; intros [|x r] Hs; simpl; auto.
  inversion Hs; subst. now apply IH.
Qed.

Lemma StronglySorted_firstn n l :
  StronglySorted R l -> StronglySorted R (firstn n l).
Proof.
  revert l. induction n as [|n IH]; intros [|x r] Hs; simpl;
    try constructor.
  - inversion Hs; subst. now apply IH.
  - inversion Hs as [|? ? _ Hall]; subst.
    apply Forall_forall. intros b Hb.
    rewrite Forall_forall in Hall. apply Hall.
    rewrite <- (firstn_skipn n r). apply in_or_app. now left.
Qed.

Lemma StronglySorted_filter p l :
  StronglySorted R l -> StronglySorted R (filter p l).
Proof.
  induction 1 as [|x r Hr IH Hall]; simpl; [constructor|].
  destruct (p x); [|assumption].
  constructor; [assumption|].
  apply Forall_forall. intros b Hb. apply filter_In in Hb.
  rewrite Forall_forall in Hall. now apply Hall.
Qed.

Lemma StronglySorted_slice take skip l :
  StronglySorted R l -> StronglySorted R (slice take skip l).
Proof.
  intros Hs. destruct take; unfold slice.
  - now apply StronglySorted_skipn.
  - now apply StronglySorted_firstn, StronglySorted_skipn.
Qed.

End Sublists.

Lemma descending_map {A B} (f : A -> B) (keyA : A -> Z) (keyB : B -> Z) l :
  (forall a, keyB (f a) = keyA a) ->
  descending keyA l -> descending keyB (map f l).
Proof.
  intros Hk. unfold descending.
  induction 1 as [|x r Hr IH Hall]; simpl; constructor; auto.
  apply Forall_forall. intros b Hb. apply in_map_iff in Hb.
  destruct Hb as (a & <- & Ha).
  rewrite Forall_forall in Hall. rewrite !Hk. now apply Hall.
Qed.

Lemma filter_length_le {A} (p : A -> bool) l :
  (length (filter p l) <= length l)%nat.
Proof.
  induction l as [|x r IH]; simpl; [lia|].
  destruct (p x); simpl; lia.
Qed.

Lemma filter_all {A} (p : A -> bool) l :
  (forall x, In x l -> p x = true) -> filter p l = l.
Proof.
  induction l as [|x r IH]; simpl; intros H; [reflexivity|].
  rewrite (H x (or_introl eq_refl)), IH; auto.
Qed.

Section Slices.

Context {A : Type}.

Lemma slice_positive take skip (l : list A) :
  take <> 0%nat -> slice take skip l = firstn take (skipn skip l).
Proof. destruct take; [congruence | reflexivity]. Qed.

Lemma slice_length take skip (l : list A) :
  length (slice take skip l)
  = match take with
    | O => (length l - skip)%nat
    | S _ => Nat.min take (length l - skip)
    end.
Proof.
  destruct take; unfold slice.
  - apply length_skipn.
  - now rewrite length_firstn, length_skipn.
Qed.

Lemma slice_length_le take skip (l : list A) :
  take <> 0%nat -> (length (slice take skip l) <= take)%nat.
Proof. intros H. rewrite slice_length. destruct take; [congruence | lia]. Qed.

Lemma slice_rest take skip (l : list A) :
  exists rest, Permutation (slice take skip l ++ rest) l.
Proof.
  destruct take.
  - exists (firstn skip l). unfold slice.
    rewrite <- (firstn_skipn skip l) at 3. apply Permutation_app_comm.
  - exists (skipn (S take) (skipn skip l) ++ firstn skip l).
    unfold slice. rewrite app_assoc, firstn_skipn.
    rewrite <- (firstn_skipn skip l) at 3. apply Permutation_app_comm.
Qed.

Lemma slice_incl take skip (l : list A) : incl (slice take skip l) l.
Proof.
  intros x Hx. destruct (slice_rest take skip l) as [rest Hp].
  apply (Permutation_in _ Hp). apply in_or_app. now left.
Qed.

Lemma slice_all take (l : list A) :
  (length l <= take)%nat -> slice take 0 l = l.
Proof.
  intros H. destruct take; [reflexivity|].
  unfold slice. simpl skipn. now apply firstn_all2.
Qed.

End Slices.

(** ** The sample database *)

Lemma countOf_ofNat n : countOf (ofNat n) = Some n.
Proof.
  unfold countOf, ofNat.
  destruct (0 <=? Z.of_nat n) eqn:E.
  - now rewrite Nat2Z.id.
  - apply Z.leb_gt in E. lia.
Qed.

Lemma tableOrder_orderly : Orderly tableOrder.
Proof.
  constructor.
  - intros A createdAt take skip rows page. simpl.
    destruct (countOf take) as [t|]; [|discriminate].
    destruct (countOf skip) as [s|]; [|discriminate].
    intros H. injection H as <-. split.
    + apply StronglySorted_slice, sortDescBy_descending.
    + destruct (slice_rest t s (sortDescBy createdAt rows)) as [rest Hp].
      exists rest. eapply perm_trans; [exact Hp | apply sortDescBy_perm].
  - intros A createdAt take skip rows.
    exists (slice take skip (sortDescBy createdAt rows)),
      (sortDescBy createdAt rows).
    cbn [newestFirst tableOrder]. rewrite !countOf_ofNat.
    split; [reflexivity|]. split; [apply sortDescBy_perm|].
    split; [apply sortDescBy_descending | apply Permutation_refl].
Qed.

(** ** The pages of an orderly database *)

Lemma defaultTo_ofNat (d : nat) (o : option nat) :
  defaultTo (ofNat d) (option_map ofNat o)
  = ofNat (match o with Some n => n | None => d end).
Proof. now destruct o. Qed.

Section Pages.

Context {D : Database} {HD : Orderly D}.
Context {A : Type} (createdAt : A -> Timestamp).

(** The answer to a query whose [take] and [skip] are counts. *)
Lemma newestFirst_page (take skip : nat) (rows : list A) :
  exists page ordered,
    newestFirst createdAt (ofNat take) (ofNat skip) rows = Some page /\
    Permutation ordered rows /\
    descending createdAt ordered /\
    Permutation page (slice take skip ordered) /\
    descending createdAt page /\
    incl page rows.
Proof.
  destruct (newestFirst_counts A createdAt take skip rows)
    as (page & ordered & Hq & Hperm & Hord & Hslice).
  exists page, ordered.
  split; [exact Hq|]. split; [exact Hperm|]. split; [exact Hord|].
  split; [exact Hslice|].
  split; [exact (proj1 (newestFirst_rows A createdAt _ _ _ _ Hq))|].
  intros x Hx. apply (Permutation_in _ Hperm).
  apply (slice_incl take skip). now apply (Permutation_in _ Hslice).
Qed.

(** Every answer holds queried rows only. *)
Lemma newestFirst_incl take skip (rows page : list A) :
  newestFirst createdAt take skip rows = Some page -> incl page rows.
Proof.
  intros Hq x Hx.
  destruct (newestFirst_rows A createdAt _ _ _ _ Hq) as (_ & rest & Hp).
  apply (Permutation_in _ Hp). apply in_or_app. now left.
Qed.

(** With all times different, the answer is the part that [take] and [skip]
    select from the one newest-first order. *)
Lemma newestFirst_distinct (take skip : nat) (rows : list A) :
  NoDup (map createdAt rows) ->
  newestFirst createdAt (ofNat take) (ofNat skip) rows
  = Some (slice take skip (sortDescBy createdAt rows)).
Proof.
  intros Hnd.
  destruct (newestFirst_page take skip rows)
    as (page & ordered & Hq & Hperm & Hord & Hslice & Hdesc & _).
  rewrite Hq. f_equal.
  assert (Hnd' : NoDup (map createdAt ordered)).
  { eapply Permutation_NoDup; [|exact Hnd].
    apply Permutation_map, Permutation_sym, Hperm. }
  assert (E : ordered = sortDescBy createdAt rows).
  { apply (descending_unique createdAt); [exact Hnd'| |exact Hord|].
    - eapply perm_trans; [exact Hperm|].
      apply Permutation_sym, sortDescBy_perm.
    - apply sortDescBy_descending. }
  subst ordered.
  symmetry. apply (descending_unique createdAt).
  - destruct (slice_rest take skip (sortDescBy createdAt rows))
      as [rest Hrest].
    assert (Hall : NoDup (map createdAt
                            (slice take skip (sortDescBy createdAt rows)
                             ++ rest))).
    { eapply Permutation_NoDup; [|exact Hnd'].
      apply Permutation_map, Permutation_sym, Hrest. }
    rewrite map_app in Hall. now apply NoDup_app_remove_r in Hall.
  - now apply Permutation_sym.
  - apply StronglySorted_slice, sortDescBy_descending.
  - exact Hdesc.
Qed.

End Pages.

(** ** Handlers that only query *)

Lemma currentUserLikes_reads req_user ids db :
  exists likes, currentUserLikes req_user ids db = (Return None likes, db).
Proof.
  unfold currentUserLikes.
  destruct (truthyUserId req_user); eexists; reflexivity.
Qed.

Lemma filter_withUser db l :
  filter (fun t : Tweet.t * option User.t => isSome (snd t) && true)
         (map (TweetRepo.withUser db) l)
  = map (TweetRepo.withUser db) (filter (hasUser db) l).
Proof.
  induction l as [|t r IH]; simpl; [reflexivity|].
  unfold hasUser at 1. rewrite andb_true_r.
  destruct (isSome (findUser (Tweet.userId t) (users db))); simpl;
    now rewrite IH.
Qed.

(** ** What a requester sees of a tweet *)

Lemma existsb_filter {A} (p q : A -> bool) l :
  existsb q (filter p l) = existsb (fun x => p x && q x) l.
Proof.
  induction l as [|x r IH]; simpl; [reflexivity|].
  destruct (p x); simpl; now rewrite IH.
Qed.

Lemma existsb_ext_in {A} (p q : A -> bool) l :
  (forall x, In x l -> p x = q x) -> existsb p l = existsb q l.
Proof.
  induction l as [|x r IH]; simpl; intros H; [reflexivity|].
  rewrite (H x (or_introl eq_refl)), IH; auto.
Qed.

Lemma existsb_eqb_In (i : Id) ids : In i ids -> existsb (Z.eqb i) ids = true.
Proof.
  intros H. apply existsb_exists. exists i. split; [exact H|apply Z.eqb_refl].
Qed.

(** The likes fetched for a page answer, for every tweet of the page,
    whether the requester likes it. *)
Lemma someLike_currentUserLikes req_user ids db likes id :
  currentUserLikes req_user ids db = (Return None likes, db) ->
  In id ids ->
  someLike req_user likes id = likedBy req_user db id.
Proof.
  unfold currentUserLikes, likedBy, someLike.
  destruct req_user as [cu|]; simpl.
  - destruct (JwtPayload.userId cu =? 0).
    + intros H _. injection H as <-. reflexivity.
    + unfold LikeRepo.find_byUser_tweetIn, query.
      intros H Hin. injection H as <-.
      rewrite existsb_filter. apply existsb_ext_in. intros l _.
      destruct (Like.tweetId l =? id) eqn:E.
      * apply Z.eqb_eq in E.
        rewrite E, (existsb_eqb_In _ _ Hin). simpl.
        now destruct (Like.userId l =? JwtPayload.userId cu).
      * simpl. now rewrite !andb_false_r.
  - intros H _. injection H as <-. reflexivity.
Qed.

Lemma tweetResponse_tweetView req_user likes db t :
  someLike req_user likes (Tweet.id t) = likedBy req_user db (Tweet.id t) ->
  tweetResponse req_user likes (TweetRepo.withUser db t)
  = tweetView req_user db t.
Proof. intros H. unfold tweetResponse, tweetView. simpl. now rewrite H. Qed.

Lemma tweetResponses_tweetViews req_user ids db likes l :
  currentUserLikes req_user ids db = (Return None likes, db) ->
  incl (map Tweet.id l) ids ->
  map (tweetResponse req_user likes) (map (TweetRepo.withUser db) l)
  = map (tweetView req_user db) l.
Proof.
  intros Hl Hin. rewrite map_map. apply map_ext_in. intros t Ht.
  apply tweetResponse_tweetView.
  apply (someLike_currentUserLikes _ _ _ _ _ Hl).
  apply Hin. now apply in_map.
Qed.

Lemma map_id_withUser db l :
  map (fun t : Tweet.t * option User.t => Tweet.id (fst t))
      (map (TweetRepo.withUser db) l) = map Tweet.id l.
Proof. rewrite map_map. reflexivity. Qed.

Lemma incl_map_filter {A B} (f : A -> B) p l :
  incl (map f (filter p l)) (map f l).
Proof.
  intros b Hb. apply in_map_iff in Hb. destruct Hb as (a & <- & Ha).
  apply filter_In in Ha. apply in_map. tauto.
Qed.

Lemma tweetOf_tweetView req_user db l :
  map tweetOf (map (tweetView req_user db) l) = l.
Proof.
  induction l as [|t r IH]; simpl; [reflexivity|].
  rewrite IH. now destruct t.
Qed.

Lemma descending_tweetViews req_user db l :
  descending Tweet.createdAt l ->
  descending TweetResponse.createdAt (map (tweetView req_user db) l).
Proof.
  intros Hl. eapply descending_map; [|exact Hl].
  intros t. reflexivity.
Qed.

(** The whole answer of the feed, entry by entry, for the page that the
    database returns. *)
Lemma getFeedTweets_views {D : Database} req_user limit offset db :
  getFeedTweets req_user limit offset db
  = match newestFirst Tweet.createdAt (defaultTo (Integer 10) limit)
            (defaultTo (Integer 0) offset) (tweets db) with
    | Some page =>
        (Return None
           (map (tweetView req_user db) (filter (hasUser db) page)), db)
    | None => (Throw (MessageOf QueryFailed), db)
    end.
Proof.
  unfold getFeedTweets, bind, TweetRepo.find_newestFirst, select, ret.
  destruct (newestFirst _ _ _ _) as [page|]; [|reflexivity].
  cbn [option_map].
  destruct (currentUserLikes_reads req_user
              (map (fun t => Tweet.id (fst t))
                   (map (TweetRepo.withUser db) page)) db) as [likes Hl].
  rewrite Hl, filter_withUser.
  rewrite (tweetResponses_tweetViews _ _ _ _ _ Hl); [reflexivity|].
  rewrite map_id_withUser. apply incl_map_filter.
Qed.

(** ** The feed *)

Section Feed.

Context {D : Database} {HD : Orderly D}.

(** The feed for a [limit] and an [offset] that are counts or omitted. *)
Lemma getFeedTweets_counts req_user (limit offset : option nat) db :
  let take := match limit with Some n => n | None => 10%nat end in
  let skip := match offset with Some n => n | None => 0%nat end in
  exists page ordered,
    getFeedTweets req_user (option_map ofNat limit) (option_map ofNat offset)
      db
    = (Return None (map (tweetView req_user db) (filter (hasUser db) page)),
       db) /\
    newestFirst Tweet.createdAt (ofNat take) (ofNat skip) (tweets db)
    = Some page /\
    Permutation ordered (tweets db) /\
    descending Tweet.createdAt ordered /\
    Permutation page (slice take skip ordered) /\
    descending Tweet.createdAt page /\
    incl page (tweets db).
Proof.
  intros take skip.
  destruct (newestFirst_page Tweet.createdAt take skip (tweets db))
    as (page & ordered & Hq & Hrest).
  exists page, ordered. split; [|split; [exact Hq | exact Hrest]].
  rewrite getFeedTweets_views.
  change (Integer 10) with (ofNat 10). change (Integer 0) with (ofNat 0).
  rewrite !defaultTo_ofNat. fold take skip. now rewrite Hq.
Qed.

(** C1, amended.  Whatever [limit] and [offset] a feed request carries, the
    tweets that [getFeedTweets] returns are stored tweets, newest first, and
    the store is left as it was.  For a [limit] and an [offset] that are
    counts, or are omitted and then stand for 10 and 0, it returns the
    tweets of a page whose user row exists.  The page holds the tweets left
    after skipping [offset] tweets of a newest-first order of all tweets
    ([ordered]) and, when [limit] is not 0, after taking the first [limit]
    of these; the answer has then at most [limit] entries.  A [limit] of 0
    takes every tweet after the skipped ones. *)
Theorem getFeedTweets_newest_first
    (req_user : option JwtPayload.t) (db : DB) :
  (forall (limit offset : option JsNumber) status rs db',
      getFeedTweets req_user limit offset db = (Return status rs, db') ->
      db' = db /\
      descending TweetResponse.createdAt rs /\
      incl (map tweetOf rs) (tweets db)) /\
  (forall limit offset : option nat,
      let take := match limit with Some n => n | None => 10%nat end in
      let skip := match offset with Some n => n | None => 0%nat end in
      exists rs ordered page,
        getFeedTweets req_user (option_map ofNat limit)
          (option_map ofNat offset) db
        = (Return None rs, db) /\
        Permutation ordered (tweets db) /\
        descending Tweet.createdAt ordered /\
        (take <> 0%nat ->
         Permutation page (firstn take (skipn skip ordered))) /\
        (take = 0%nat -> Permutation page (skipn skip ordered)) /\
        map tweetOf rs = filter (hasUser db) page /\
        descending TweetResponse.createdAt rs /\
        (take <> 0%nat -> (length rs <= take)%nat)).
Proof.
  split.
  - intros limit offset status rs db'. rewrite getFeedTweets_views.
    destruct (newestFirst _ _ _ _) as [page|] eqn:Hq; [|discriminate].
    intros H. injection H as _ <- <-.
    destruct (newestFirst_rows _ _ _ _ _ _ Hq) as (Hdesc & _).
    split; [reflexivity|].
    split; [apply descending_tweetViews; now apply StronglySorted_filter|].
    rewrite tweetOf_tweetView. intros t Ht. apply filter_In in Ht.
    exact (newestFirst_incl _ _ _ _ _ Hq t (proj1 Ht)).
  - intros limit offset take skip.
    destruct (getFeedTweets_counts req_user limit offset db)
      as (page & ordered & Hrun & _ & Hperm & Hord & Hslice & Hdesc & _).
    fold take skip in Hslice.
    eexists. exists ordered, page.
    split; [exact Hrun|]. split; [exact Hperm|]. split; [exact Hord|].
    split; [intros Hpos; now rewrite <- (slice_positive take skip)|].
    split; [intros Hzero; now rewrite Hzero in Hslice|].
    split; [apply tweetOf_tweetView|].
    split.
    + apply descending_tweetViews. now apply StronglySorted_filter.
    + intros Hpos. rewrite length_map.
      eapply Nat.le_trans; [apply filter_length_le|].
      rewrite (Permutation_length Hslice). now apply slice_length_le.
Qed.

End Feed.

Lemma getFeedTweets_newest_first_witness :
  exists rs page,
    getFeedTweets (D := tableOrder) (Some aliceJwt) (Some (ofNat 2))
      (Some (ofNat 1)) sampleDB
    = (Return None rs, sampleDB) /\
    map tweetOf rs = filter (hasUser sampleDB) page /\
    descending TweetResponse.createdAt rs /\
    (length rs <= 2)%nat.
Proof.
  destruct (getFeedTweets_newest_first (HD := tableOrder_orderly)
              (Some aliceJwt) sampleDB) as (_ & Hcounts).
  destruct (Hcounts (Some 2%nat) (Some 1%nat))
    as (rs & ordered & page & Hrun & _ & _ & _ & _ & Hrs & Hdesc & Hlen).
  exists rs, page. split; [exact Hrun|]. split; [exact Hrs|].
  split; [exact Hdesc|]. apply Hlen. discriminate.
Defined.

(** C1, as stated, fails for a [limit] of 0: the database is asked for the
    tweets without a limit, and the feed of the sample store, which holds
    three tweets, has three entries, whatever the database's order. *)
Lemma getFeedTweets_limit_0_returns_all :
  (forall D : Database, Orderly D ->
     exists rs,
       getFeedTweets (D := D) None (Some (Integer 0)) None sampleDB
       = (Return None rs, sampleDB) /\
       length rs = 3%nat) /\
  ~ (forall D : Database, Orderly D ->
     forall req_user (limit offset : nat) db rs,
       getFeedTweets (D := D) req_user (Some (ofNat limit))
         (Some (ofNat offset)) db
       = (Return None rs, db) ->
       (length rs <= limit)%nat).
Proof.
  split.
  - intros D HD.
    destruct (getFeedTweets_counts None (Some 0%nat) None sampleDB)
      as (page & ordered & Hrun & _ & Hperm & _ & Hslice & _ & Hincl).
    eexists. split; [exact Hrun|].
    rewrite length_map, filter_all.
    + rewrite (Permutation_length Hslice). simpl slice.
      now rewrite (Permutation_length Hperm).
    + intros t Ht. apply Hincl in Ht. simpl in Ht.
      destruct Ht as [<- | [<- | [<- | []]]]; reflexivity.
  - intros H.
    specialize (H tableOrder tableOrder_orderly None 0%nat 0%nat sampleDB _
                  eq_refl).
    vm_compute in H. lia.
Qed.

(** ** Lookups *)

Lemma findUser_id i l u : findUser i l = Some u -> User.id u = i.
Proof.
  unfold findUser. intros H. apply find_some in H.
  destruct H as [_ H]. now apply Z.eqb_eq in H.
Qed.

Lemma findTweet_id i l t : findTweet i l = Some t -> Tweet.id t = i.
Proof.
  unfold findTweet. intros H. apply find_some in H.
  destruct H as [_ H]. now apply Z.eqb_eq in H.
Qed.

Lemma find_none_filter {A} (p : A -> bool) l :
  find p l = None <-> filter p l = [].
Proof.
  induction l as [|x r IH]; simpl; [tauto|].
  destruct (p x); [split; discriminate | exact IH].
Qed.

Lemma filter_snoc {A} (p : A -> bool) l x :
  filter p (l ++ [x]) = filter p l ++ (if p x then [x] else []).
Proof. rewrite filter_app. reflexivity. Qed.

(** ** Numbers of a request in a query *)

Lemma columnValue_Integer (z : Z) :
  int4 z = true -> columnValue (Integer z) = Some z.
Proof. intros H. simpl. now rewrite H. Qed.

Lemma columnValue_Some n i :
  columnValue n = Some i -> n = Integer i /\ int4 i = true.
Proof.
  destruct n as [z|]; simpl; [|discriminate].
  destruct (int4 z) eqn:E; [|discriminate].
  intros H. injection H as <-. now split.
Qed.

Lemma column_run n db :
  column n db
  = match columnValue n with
    | Some i => (Return None i, db)
    | None => (Throw (MessageOf QueryFailed), db)
    end.
Proof. reflexivity. Qed.

(** A handler that starts by using a number of the request in a query. *)
Lemma bind_column {A} n (k : Id -> Handler A) db :
  bind (column n) k db
  = match columnValue n with
    | Some i => k i db
    | None => (Throw (MessageOf QueryFailed), db)
    end.
Proof.
  unfold bind. rewrite column_run.
  destruct (columnValue n) as [i|]; [|reflexivity].
  now destruct (k i db) as [[[s|] b|st msg|msg] db'].
Qed.

(** ** Likes *)

Lemma countLikes_snoc u t l k :
  countLikes u t (l ++ [k])
  = Nat.add (countLikes u t l)
            (if (Like.userId k =? u) && (Like.tweetId k =? t)
             then 1%nat else 0%nat).
Proof.
  unfold countLikes. rewrite filter_snoc, length_app.
  now destruct ((Like.userId k =? u) && (Like.tweetId k =? t)).
Qed.

Lemma likeTweet_store cu (tweetId : Id) now db t u :
  int4 tweetId = true ->
  findTweet tweetId (tweets db) = Some t ->
  findUser (JwtPayload.userId cu) (users db) = Some u ->
  likeTweet cu tweetId now db
  = (Return None (js "Tweet liked successfully"),
     mkDB (users db) (tweets db) (comments db)
          (likes db ++ [Like.mk (like_seq db) now (JwtPayload.userId cu) tweetId])
          (follows db) (tweet_seq db) (comment_seq db) (like_seq db + 1)
          (follow_seq db)).
Proof.
  intros Hi Ht Hu. pose proof (findUser_id _ _ _ Hu) as Hid.
  unfold likeTweet. rewrite bind_column, (columnValue_Integer _ Hi).
  unfold bind, TweetRepo.findOneBy_id, UserRepo.findOneBy_id,
    query, LikeRepo.save, ret.
  now rewrite Ht, Hu, Hid, Hu, Ht.
Qed.

(** C2.  Neither [LikeRepo.save] nor [likeTweet] looks for an existing like:
    whenever the tweet (named by an id of the column's range) and the
    current user exist, [likeTweet] succeeds (status 201) and appends one
    more Like row for that (user, tweet) pair, whatever rows the pair
    already has.  From a store with one such row the call leaves two. *)
Theorem likeTweet_adds_a_row_each_time
    (currentUser : JwtPayload.t) (tweetId : Id) (now : Timestamp) (db : DB)
    (tweet : Tweet.t) (user : User.t) :
  findTweet tweetId (tweets db) = Some tweet ->
  findUser (JwtPayload.userId currentUser) (users db) = Some user ->
  int4 tweetId = true ->
  exists row db',
    likeTweet currentUser tweetId now db
    = (Return None (js "Tweet liked successfully"), db') /\
    httpStatus (Some 201) (fst (likeTweet currentUser tweetId now db)) = 201 /\
    likes db' = likes db ++ [row] /\
    Like.userId row = JwtPayload.userId currentUser /\
    Like.tweetId row = tweetId /\
    countLikes (JwtPayload.userId currentUser) tweetId (likes db')
    = S (countLikes (JwtPayload.userId currentUser) tweetId (likes db)).
Proof.
  intros Ht Hu Hi.
  rewrite (likeTweet_store _ _ now _ _ _ Hi Ht Hu).
  do 2 eexists. split; [reflexivity|].
  split; [reflexivity|].
  split; [reflexivity|].
  split; [reflexivity|].
  split; [reflexivity|].
  cbn [likes]. rewrite countLikes_snoc.
  cbn [Like.userId Like.tweetId]. rewrite !Z.eqb_refl. simpl. lia.
Qed.

Lemma likeTweet_adds_a_row_each_time_witness :
  findTweet 1 (tweets sampleDB) = Some (Tweet.mk 1 (js "https://img/1") (Some (js "first")) 200 1) /\
  findUser (JwtPayload.userId aliceJwt) (users sampleDB) = Some alice /\
  int4 1 = true /\
  countLikes 1 1 (likes sampleDB) = 1%nat /\
  exists row db',
    likeTweet aliceJwt 1 400 sampleDB
    = (Return None (js "Tweet liked successfully"), db') /\
    httpStatus (Some 201) (fst (likeTweet aliceJwt 1 400 sampleDB)) = 201 /\
    likes db' = likes sampleDB ++ [row] /\
    Like.userId row = JwtPayload.userId aliceJwt /\
    Like.tweetId row = 1 /\
    countLikes (JwtPayload.userId aliceJwt) 1 (likes db')
    = S (countLikes (JwtPayload.userId aliceJwt) 1 (likes sampleDB)).
Proof.
  split; [reflexivity|].
  split; [reflexivity|].
  split; [reflexivity|].
  split; [reflexivity|].
  apply (likeTweet_adds_a_row_each_time aliceJwt 1 400 sampleDB
           (Tweet.mk 1 (js "https://img/1") (Some (js "first")) 200 1) alice);
    reflexivity.
Defined.

(** ** Follows *)

(** The ways [followUser] ends for an authenticated request. *)
Lemma followUser_run (cu : JwtPayload.t) (target : JsNumber) (now : Timestamp)
    (db : DB) :
  followUser (Some cu) target now db =
  if sameNumber (JwtPayload.userId cu) target
  then (Respond 400 (js "You cannot follow yourself."), db)
  else match columnValue target with
       | None => (Throw (MessageOf QueryFailed), db)
       | Some followed =>
           match findUser followed (users db) with
           | None => (Respond 404 (js "User to follow not found."), db)
           | Some _ =>
               match find (FollowRepo.isPair (JwtPayload.userId cu) followed)
                          (follows db) with
               | Some _ =>
                   (Respond 409 (js "You are already following this user."),
                    db)
               | None =>
                   (Return (Some 200)
                      (js "Successfully followed user "
                       ++ numberToString followed),
                    snd (FollowRepo.save now (JwtPayload.userId cu) followed
                           db))
               end
           end
       end.
Proof.
  unfold followUser, currentUserId. unfold bind at 1. unfold ret at 1.
  destruct (sameNumber (JwtPayload.userId cu) target); [reflexivity|].
  rewrite bind_column.
  destruct (columnValue target) as [followed|]; [|reflexivity].
  unfold bind, ret, UserRepo.findOneBy_id, FollowRepo.findOneBy_pair, query,
    respond, setStatus, FollowRepo.save.
  destruct (findUser followed (users db)); [|reflexivity].
  destruct (find _ (follows db)); reflexivity.
Qed.

(** The same for a target that is an integer. *)
Lemma followUser_cases (cu : JwtPayload.t) (target : Id) (now : Timestamp)
    (db : DB) :
  followUser (Some cu) target now db =
  if JwtPayload.userId cu =? target
  then (Respond 400 (js "You cannot follow yourself."), db)
  else if int4 target
       then match findUser target (users db) with
            | None => (Respond 404 (js "User to follow not found."), db)
            | Some _ =>
                match find (FollowRepo.isPair (JwtPayload.userId cu) target)
                           (follows db) with
                | Some _ =>
                    (Respond 409 (js "You are already following this user."),
                     db)
                | None =>
                    (Return (Some 200)
                       (js "Successfully followed user "
                        ++ numberToString target),
                     snd (FollowRepo.save now (JwtPayload.userId cu) target
                            db))
                end
            end
       else (Throw (MessageOf QueryFailed), db).
Proof.
  rewrite followUser_run. cbn [sameNumber columnValue].
  now destruct (int4 target).
Qed.

(** C3.  For every authenticated user, [followUser] on the user's own id
    answers 400 and leaves the store (so the Follow table) as it was; the
    check is the handler's: [FollowRepo.save] accepts a row whose follower
    and followed ids are equal and appends it. *)
Theorem followUser_rejects_self_follow
    (currentUser : JwtPayload.t) (now : Timestamp) (db : DB) :
  let self := JwtPayload.userId currentUser in
  followUser (Some currentUser) self now db
  = (Respond 400 (js "You cannot follow yourself."), db) /\
  httpStatus (Some 200) (fst (followUser (Some currentUser) self now db)) = 400 /\
  follows (snd (followUser (Some currentUser) self now db)) = follows db /\
  exists row,
    fst (FollowRepo.save now self self db) = Return None row /\
    Follow.followerId row = self /\ Follow.followedId row = self /\
    follows (snd (FollowRepo.save now self self db)) = follows db ++ [row].
Proof.
  intros self. rewrite followUser_cases. subst self.
  rewrite Z.eqb_refl. simpl.
  repeat split; try reflexivity.
  eexists. repeat split; reflexivity.
Qed.

Lemma followUser_success (cu : JwtPayload.t) (target : Id) (now : Timestamp)
    (db db' : DB) (s : option Z) (m : JsString) :
  followUser (Some cu) target now db = (Return s m, db') ->
  JwtPayload.userId cu <> target /\
  int4 target = true /\
  findUser target (users db) <> None /\
  find (FollowRepo.isPair (JwtPayload.userId cu) target) (follows db) = None /\
  db' = mkDB (users db) (tweets db) (comments db) (likes db)
          (follows db
           ++ [Follow.mk (follow_seq db) (JwtPayload.userId cu) target now])
          (tweet_seq db) (comment_seq db) (like_seq db) (follow_seq db + 1).
Proof.
  rewrite followUser_cases.
  destruct (JwtPayload.userId cu =? target) eqn:E; [discriminate|].
  apply Z.eqb_neq in E.
  destruct (int4 target); [|discriminate].
  destruct (findUser target (users db)); [|discriminate].
  destruct (find _ (follows db)); [discriminate|].
  intros H. injection H as _ _ <-.
  repeat split; [assumption | discriminate].
Qed.

Lemma getUserProfile_reports (uid : Id) (db : DB) (user : User.t) :
  int4 uid = true ->
  findUser uid (users db) = Some user ->
  getUserProfile uid db
  = (Return None
       (UserProfileResponse.mk (User.id user) (User.username user)
          (User.bio user) (User.avatarUrl user) (User.createdAt user)
          (Z.of_nat (length (followersOf db uid)))
          (Z.of_nat (length (followingOf db uid)))),
     db).
Proof.
  intros Hi Hu.
  unfold getUserProfile. rewrite bind_column, (columnValue_Integer _ Hi).
  unfold bind, UserRepo.findOneBy_id,
    FollowRepo.count_followed, FollowRepo.count_follower, query, ret.
  now rewrite Hu.
Qed.

(** C5.  [getUserProfile] reports as [followers] the number of Follow rows
    whose [followedId] is the profile's user and as [following] the number of
    rows whose [followerId] is (the user being named by an id of the
    column's range).  When [followUser] creates the follow from requester A
    to user B, the profile of B gains one follower and keeps its following
    count, and the profile of A (when A has a user row) gains one following
    and keeps its followers count. *)
Theorem follows_are_directed
    (a : JwtPayload.t) (b : Id) (now : Timestamp) (db db' : DB)
    (s : option Z) (m : JsString) :
  followUser (Some a) b now db = (Return s m, db') ->
  (forall (uid : Id) store user,
      int4 uid = true ->
      findUser uid (users store) = Some user ->
      exists p,
        getUserProfile uid store = (Return None p, store) /\
        UserProfileResponse.followers p
        = Z.of_nat (length (filter (fun f => Follow.followedId f =? uid)
                                   (follows store))) /\
        UserProfileResponse.following p
        = Z.of_nat (length (filter (fun f => Follow.followerId f =? uid)
                                   (follows store)))) /\
  (exists pB pB',
      getUserProfile b db = (Return None pB, db) /\
      getUserProfile b db' = (Return None pB', db') /\
      UserProfileResponse.followers pB' = UserProfileResponse.followers pB + 1 /\
      UserProfileResponse.following pB' = UserProfileResponse.following pB) /\
  (forall userA,
      int4 (JwtPayload.userId a) = true ->
      findUser (JwtPayload.userId a) (users db) = Some userA ->
      exists pA pA',
        getUserProfile (JwtPayload.userId a) db = (Return None pA, db) /\
        getUserProfile (JwtPayload.userId a) db' = (Return None pA', db') /\
        UserProfileResponse.following pA' = UserProfileResponse.following pA + 1 /\
        UserProfileResponse.followers pA' = UserProfileResponse.followers pA).
Proof.
  intros H. apply followUser_success in H.
  destruct H as (Hne & Hi & Hb & _ & Hdb).
  assert (Hus : users db' = users db) by now rewrite Hdb.
  assert (Hfs : follows db'
                = follows db
                  ++ [Follow.mk (follow_seq db) (JwtPayload.userId a) b now])
    by now rewrite Hdb.
  clear Hdb.
  split.
  { intros uid store user Hr Hu. eexists.
    split; [exact (getUserProfile_reports uid store user Hr Hu)|].
    split; reflexivity. }
  split.
  - destruct (findUser b (users db)) as [userB|] eqn:HB; [|congruence].
    do 2 eexists.
    split; [exact (getUserProfile_reports b db userB Hi HB)|].
    rewrite <- Hus in HB.
    split; [exact (getUserProfile_reports b db' userB Hi HB)|].
    unfold followersOf, followingOf. rewrite Hfs, !filter_snoc, !length_app.
    cbn [UserProfileResponse.followers UserProfileResponse.following
         Follow.followedId Follow.followerId].
    rewrite Z.eqb_refl.
    apply Z.eqb_neq in Hne. rewrite Hne. simpl. lia.
  - intros userA Hr HA.
    do 2 eexists.
    split; [exact (getUserProfile_reports _ db userA Hr HA)|].
    rewrite <- Hus in HA.
    split; [exact (getUserProfile_reports _ db' userA Hr HA)|].
    unfold followersOf, followingOf. rewrite Hfs, !filter_snoc, !length_app.
    cbn [UserProfileResponse.followers UserProfileResponse.following
         Follow.followedId Follow.followerId].
    rewrite Z.eqb_refl.
    assert (Hne' : b <> JwtPayload.userId a) by congruence.
    apply Z.eqb_neq in Hne'. rewrite Hne'. simpl. lia.
Qed.

Lemma follows_are_directed_witness :
  followUser (Some aliceJwt) 2 400 sampleDB
  = (Return (Some 200) (js "Successfully followed user 2"),
     sampleDB_alice_follows_bob) /\
  (exists pB pB',
      getUserProfile 2 sampleDB = (Return None pB, sampleDB) /\
      getUserProfile 2 sampleDB_alice_follows_bob
      = (Return None pB', sampleDB_alice_follows_bob) /\
      UserProfileResponse.followers pB' = UserProfileResponse.followers pB + 1 /\
      UserProfileResponse.following pB' = UserProfileResponse.following pB) /\
  (exists pA pA',
      getUserProfile 1 sampleDB = (Return None pA, sampleDB) /\
      getUserProfile 1 sampleDB_alice_follows_bob
      = (Return None pA', sampleDB_alice_follows_bob) /\
      UserProfileResponse.following pA' = UserProfileResponse.following pA + 1 /\
      UserProfileResponse.followers pA' = UserProfileResponse.followers pA).
Proof.
  assert (H : followUser (Some aliceJwt) 2 400 sampleDB
              = (Return (Some 200) (js "Successfully followed user 2"),
                 sampleDB_alice_follows_bob)) by reflexivity.
  split; [exact H|].
  destruct (follows_are_directed aliceJwt 2 400 sampleDB
              sampleDB_alice_follows_bob (Some 200)
              (js "Successfully followed user 2") H) as (_ & HB & HA).
  split; [exact HB|].
  exact (HA alice eq_refl eq_refl).
Defined.

Lemma followUser_unchanged_when_paired (cu : JwtPayload.t) (target : Id)
    (now : Timestamp) (db : DB) :
  existsb (FollowRepo.isPair (JwtPayload.userId cu) target) (follows db) = true ->
  followUser (Some cu) target now db =
  if JwtPayload.userId cu =? target
  then (Respond 400 (js "You cannot follow yourself."), db)
  else if int4 target
       then match findUser target (users db) with
            | None => (Respond 404 (js "User to follow not found."), db)
            | Some _ =>
                (Respond 409 (js "You are already following this user."), db)
            end
       else (Throw (MessageOf QueryFailed), db).
Proof.
  intros Hex. rewrite followUser_cases.
  destruct (find (FollowRepo.isPair (JwtPayload.userId cu) target) (follows db))
    eqn:Hf; [reflexivity|].
  apply existsb_exists in Hex. destruct Hex as (f & Hin & Hp).
  pose proof (find_none _ _ Hf f Hin) as Hn. congruence.
Qed.

(** The pairs of the Follow table stay distinct under [followUser]. *)
Lemma followUser_keeps_pairs_distinct (req_user : option JwtPayload.t)
    (target : JsNumber) (now : Timestamp) (db : DB) :
  NoDup (map followPair (follows db)) ->
  NoDup (map followPair (follows (snd (followUser req_user target now db)))).
Proof.
  intros Hnd. destruct req_user as [cu|]; [|exact Hnd].
  rewrite followUser_run.
  destruct (sameNumber (JwtPayload.userId cu) target); [exact Hnd|].
  destruct (columnValue target) as [followed|]; [|exact Hnd].
  destruct (findUser followed (users db)); [|exact Hnd].
  destruct (find _ (follows db)) eqn:Hf; [exact Hnd|].
  cbn [snd FollowRepo.save follows].
  rewrite map_app. simpl.
  apply NoDup_rev in Hnd. rewrite <- (rev_involutive (_ ++ _)).
  apply NoDup_rev. rewrite rev_app_distr. simpl.
  constructor; [|exact Hnd].
  rewrite <- in_rev. intros Hin. apply in_map_iff in Hin.
  destruct Hin as (f & Hpair & Hin).
  pose proof (find_none _ _ Hf f Hin) as Hn.
  unfold followPair in Hpair. injection Hpair as H1 H2.
  unfold FollowRepo.isPair in Hn. rewrite H1, H2, !Z.eqb_refl in Hn.
  discriminate.
Qed.

(** C8, as stated, fails: with the requester's row already in the table,
    [followUser] answers 400 when the target is the requester and 404 when
    the target has no user row. *)
Lemma followUser_existing_pair_not_always_409 :
  existsb (FollowRepo.isPair (JwtPayload.userId aliceJwt) 1)
          (follows selfFollowDB) = true /\
  httpStatus (Some 200) (fst (followUser (Some aliceJwt) 1 400 selfFollowDB))
  = 400 /\
  existsb (FollowRepo.isPair (JwtPayload.userId aliceJwt) 7)
          (follows danglingFollowDB) = true /\
  httpStatus (Some 200) (fst (followUser (Some aliceJwt) 7 400 danglingFollowDB))
  = 404 /\
  ~ (forall cu (target : Id) now db,
        existsb (FollowRepo.isPair (JwtPayload.userId cu) target) (follows db)
        = true ->
        httpStatus (Some 200) (fst (followUser (Some cu) target now db)) = 409).
Proof.
  repeat (split; [reflexivity|]).
  intros H. specialize (H aliceJwt 1 400 selfFollowDB eq_refl).
  discriminate H.
Qed.

(** C8, amended.  In every state in which a Follow row from the requester to
    the target already exists, [followUser] creates no Follow row (the store
    is left as it was); it answers 409 when the target is not the requester
    and has a user row, 400 when the target is the requester and 404 when the
    target has no user row.  The last two conjuncts complete the picture: a
    target outside the column's range, which no stored row of the database
    has, ends the request in the failed query (500); and a table whose
    (follower, followed) pairs are distinct keeps them distinct under every
    [followUser] call. *)
Theorem followUser_rejects_duplicates
    (cu : JwtPayload.t) (target : Id) (now : Timestamp) (db : DB) :
  existsb (FollowRepo.isPair (JwtPayload.userId cu) target) (follows db) = true ->
  snd (followUser (Some cu) target now db) = db /\
  (JwtPayload.userId cu <> target ->
   int4 target = true ->
   findUser target (users db) <> None ->
   followUser (Some cu) target now db
   = (Respond 409 (js "You are already following this user."), db)) /\
  (JwtPayload.userId cu = target ->
   httpStatus (Some 200) (fst (followUser (Some cu) target now db)) = 400) /\
  (JwtPayload.userId cu <> target ->
   int4 target = true ->
   findUser target (users db) = None ->
   httpStatus (Some 200) (fst (followUser (Some cu) target now db)) = 404) /\
  (JwtPayload.userId cu <> target ->
   int4 target = false ->
   httpStatus (Some 200) (fst (followUser (Some cu) target now db)) = 500) /\
  (forall req_user (target' : JsNumber) now' store,
      NoDup (map followPair (follows store)) ->
      NoDup (map followPair
               (follows (snd (followUser req_user target' now' store))))).
Proof.
  intros Hex. rewrite (followUser_unchanged_when_paired _ _ _ _ Hex).
  split.
  { destruct (JwtPayload.userId cu =? target); [reflexivity|].
    destruct (int4 target); [|reflexivity].
    destruct (findUser target (users db)); reflexivity. }
  split.
  { intros Hne Hi Hu. apply Z.eqb_neq in Hne. rewrite Hne, Hi.
    destruct (findUser target (users db)); [reflexivity | congruence]. }
  split.
  { intros Heq. apply Z.eqb_eq in Heq. now rewrite Heq. }
  split.
  { intros Hne Hi Hu. apply Z.eqb_neq in Hne. now rewrite Hne, Hi, Hu. }
  split.
  { intros Hne Hi. apply Z.eqb_neq in Hne. now rewrite Hne, Hi. }
  intros req_user target' now' store.
  apply followUser_keeps_pairs_distinct.
Qed.

Lemma followUser_rejects_duplicates_witness :
  existsb (FollowRepo.isPair (JwtPayload.userId bobJwt) 1) (follows sampleDB)
  = true /\
  JwtPayload.userId bobJwt <> 1 /\
  int4 1 = true /\
  findUser 1 (users sampleDB) <> None /\
  snd (followUser (Some bobJwt) 1 400 sampleDB) = sampleDB /\
  followUser (Some bobJwt) 1 400 sampleDB
  = (Respond 409 (js "You are already following this user."), sampleDB).
Proof.
  assert (Hex : existsb (FollowRepo.isPair (JwtPayload.userId bobJwt) 1)
                        (follows sampleDB) = true) by reflexivity.
  assert (Hne : JwtPayload.userId bobJwt <> 1) by discriminate.
  assert (Hu : findUser 1 (users sampleDB) <> None) by discriminate.
  destruct (followUser_rejects_duplicates bobJwt 1 400 sampleDB Hex)
    as (Hsame & H409 & _).
  split; [exact Hex|].
  split; [exact Hne|].
  split; [reflexivity|].
  split; [exact Hu|].
  split; [exact Hsame|].
  exact (H409 Hne eq_refl Hu).
Defined.

(** ** Followers and following lists *)

Lemma listedProfiles_zeroCounts rows : Forall zeroCounts (listedProfiles rows).
Proof.
  induction rows as [|[f [user|]] r IH]; simpl.
  - constructor.
  - constructor; [split; reflexivity | exact IH].
  - exact IH.
Qed.

(** Rows whose relation was not loaded list no profile. *)
Lemma listedProfiles_unloaded (l : list Follow.t) :
  listedProfiles (map (fun f => (f, @None User.t)) l) = [].
Proof. induction l as [|f r IH]; simpl; [reflexivity | exact IH]. Qed.

Lemma getUserFollowers_cases (userId : JsNumber) (notFound : option Responder)
    (db : DB) :
  getUserFollowers userId notFound db =
  match columnValue userId with
  | None => (Throw (MessageOf QueryFailed), db)
  | Some uid =>
      match followersOf db uid with
      | [] =>
          respondWith notFound 404 (js "No followers found for this user.") db
      | _ :: _ => (Return None [], db)
      end
  end.
Proof.
  unfold getUserFollowers. rewrite bind_column.
  destruct (columnValue userId) as [uid|]; [|reflexivity].
  unfold bind, FollowRepo.find_followed_withFollower, query, ret.
  fold (followersOf db uid). rewrite listedProfiles_unloaded, length_map.
  destruct (followersOf db uid); [|reflexivity].
  cbn [length Nat.eqb]. now destruct notFound.
Qed.

Lemma getUserFollowing_cases (userId : JsNumber) (notFound : option Responder)
    (db : DB) :
  getUserFollowing userId notFound db =
  match columnValue userId with
  | None => (Throw (MessageOf QueryFailed), db)
  | Some uid =>
      match followingOf db uid with
      | [] =>
          respondWith notFound 404 (js "No following found for this user.") db
      | _ :: _ => (Return None [], db)
      end
  end.
Proof.
  unfold getUserFollowing. rewrite bind_column.
  destruct (columnValue userId) as [uid|]; [|reflexivity].
  unfold bind, FollowRepo.find_follower_withFollowed, query, ret.
  fold (followingOf db uid). rewrite listedProfiles_unloaded, length_map.
  destruct (followingOf db uid); [|reflexivity].
  cbn [length Nat.eqb]. now destruct notFound.
Qed.

(** C9, as stated, fails for a user id outside the range of the [integer]
    column, and for one with a fractional part: no Follow row has such an
    id, the list of followers is empty, and yet the request does not end in
    404 but in the failed query (status 500).  It also fails when the
    handler is called as the route calls it, without the responder: for
    user 2, who has no followers, the route answers 500. *)
Lemma getUserFollowers_out_of_range_is_not_404 :
  followersOf sampleDB 2147483648 = [] /\
  getUserFollowers 2147483648 (Some responder) sampleDB
  = (Throw (MessageOf QueryFailed), sampleDB) /\
  httpStatus None (fst (getUserFollowers 2147483648 (Some responder) sampleDB))
  = 500 /\
  followingOf sampleDB 2147483648 = [] /\
  httpStatus None (fst (getUserFollowing 2147483648 (Some responder) sampleDB))
  = 500 /\
  httpStatus None (fst (getUserFollowers Fraction (Some responder) sampleDB))
  = 500 /\
  followersOf sampleDB 2 = [] /\
  fst (RegisterRoutes (D := tableOrder) sampleUpload sampleMatch
         (GetUserFollowers 2) 400 sampleDB) = 500 /\
  ~ (forall (userId : Id) (db : DB),
        httpStatus None (fst (getUserFollowers userId (Some responder) db))
        = 404
        <-> followersOf db userId = []).
Proof.
  repeat (split; [reflexivity|]).
  intros H. destruct (H 2147483648 sampleDB) as [_ H404].
  specialize (H404 eq_refl). discriminate H404.
Qed.

(** C9, amended.  For a user id that the column can hold, and with the
    [notFound] responder of its signature, [getUserFollowers] answers 404
    exactly when no Follow row has the user as followed, and
    [getUserFollowing] exactly when no Follow row has it as follower; the
    answer is then the "none found" message, and the status depends on the
    Follow table only, not on the user having a row.  When the list is not
    empty the handler returns, and every profile it returns has [followers]
    and [following] 0. *)
Theorem followers_following_404_iff_none
    (userId : JsNumber) (uid : Id) (db : DB) :
  columnValue userId = Some uid ->
  (httpStatus None (fst (getUserFollowers userId (Some responder) db)) = 404
   <-> followersOf db uid = []) /\
  (httpStatus None (fst (getUserFollowing userId (Some responder) db)) = 404
   <-> followingOf db uid = []) /\
  (followersOf db uid = [] ->
   getUserFollowers userId (Some responder) db
   = (Respond 404 (js "No followers found for this user."), db)) /\
  (followingOf db uid = [] ->
   getUserFollowing userId (Some responder) db
   = (Respond 404 (js "No following found for this user."), db)) /\
  (followersOf db uid <> [] ->
   forall notFound,
   exists ps, getUserFollowers userId notFound db = (Return None ps, db) /\
              Forall zeroCounts ps) /\
  (followingOf db uid <> [] ->
   forall notFound,
   exists ps, getUserFollowing userId notFound db = (Return None ps, db) /\
              Forall zeroCounts ps) /\
  (forall store,
      follows store = follows db ->
      httpStatus None (fst (getUserFollowers userId (Some responder) store))
      = httpStatus None (fst (getUserFollowers userId (Some responder) db)) /\
      httpStatus None (fst (getUserFollowing userId (Some responder) store))
      = httpStatus None (fst (getUserFollowing userId (Some responder) db))).
Proof.
  intros Hc.
  rewrite !getUserFollowers_cases, !getUserFollowing_cases, Hc.
  cbn [respondWith].
  split.
  { destruct (followersOf db uid); simpl; split;
      try reflexivity; discriminate. }
  split.
  { destruct (followingOf db uid); simpl; split;
      try reflexivity; discriminate. }
  split; [now intros ->|].
  split; [now intros ->|].
  split.
  { intros Hne notFound. rewrite getUserFollowers_cases, Hc.
    destruct (followersOf db uid) eqn:E; [congruence|].
    eexists. split; [reflexivity | constructor]. }
  split.
  { intros Hne notFound. rewrite getUserFollowing_cases, Hc.
    destruct (followingOf db uid) eqn:E; [congruence|].
    eexists. split; [reflexivity | constructor]. }
  intros store Hf.
  rewrite getUserFollowers_cases, getUserFollowing_cases, Hc.
  unfold followersOf, followingOf. rewrite Hf.
  cbn [respondWith].
  split.
  - now destruct (filter _ (follows db)).
  - now destruct (filter (fun f => Follow.followerId f =? uid) (follows db)).
Qed.

Lemma followers_following_404_iff_none_witness :
  (columnValue 9 = Some 9 /\
   findUser 9 (users sampleDB) = None /\
   followersOf sampleDB 9 = [] /\
   getUserFollowers 9 (Some responder) sampleDB
   = (Respond 404 (js "No followers found for this user."), sampleDB)) /\
  (columnValue 2 = Some 2 /\
   findUser 2 (users sampleDB) = Some bob /\
   followersOf sampleDB 2 = [] /\
   getUserFollowers 2 (Some responder) sampleDB
   = (Respond 404 (js "No followers found for this user."), sampleDB)) /\
  (columnValue 1 = Some 1 /\
   followersOf sampleDB 1 <> [] /\
   exists ps, getUserFollowers 1 (Some responder) sampleDB
              = (Return None ps, sampleDB) /\
              Forall zeroCounts ps).
Proof.
  split.
  { split; [reflexivity|]. split; [reflexivity|]. split; [reflexivity|].
    destruct (followers_following_404_iff_none 9 9 sampleDB eq_refl)
      as (_ & _ & H & _).
    exact (H eq_refl). }
  split.
  { split; [reflexivity|]. split; [reflexivity|]. split; [reflexivity|].
    destruct (followers_following_404_iff_none 2 2 sampleDB eq_refl)
      as (_ & _ & H & _).
    exact (H eq_refl). }
  assert (Hne : followersOf sampleDB 1 <> []) by discriminate.
  split; [reflexivity|]. split; [exact Hne|].
  destruct (followers_following_404_iff_none 1 1 sampleDB eq_refl)
    as (_ & _ & _ & _ & H & _).
  exact (H Hne (Some responder)).
Defined.

(** ** Creating a tweet *)

Section CreateTweet.

Variable uploadBase64ToObjectStorage : JsString -> JsString -> UploadResult.

Lemma createTweet_rejects req_user body now db :
  falsy (CreateTweetBase64Input.imageBase64 body) = true \/
  startsWith (CreateTweetBase64Input.imageFileType body) (js "image/") = false ->
  createTweet uploadBase64ToObjectStorage req_user body now db
  = (Respond 400 (js "imageBase64 and a valid imageFileType are required."),
     db).
Proof.
  intros H. unfold createTweet.
  destruct H as [-> | ->]; [reflexivity|].
  now rewrite orb_true_r.
Qed.

(** A valid request of an existing user whose image was stored. *)
Lemma createTweet_succeeds cu body now db url user :
  falsy (CreateTweetBase64Input.imageBase64 body) = false ->
  startsWith (CreateTweetBase64Input.imageFileType body) (js "image/") = true ->
  uploadBase64ToObjectStorage
    (stripDataUrl (CreateTweetBase64Input.imageBase64 body))
    (CreateTweetBase64Input.imageFileType body) = Uploaded url ->
  findUser (JwtPayload.userId cu) (users db) = Some user ->
  let row := Tweet.mk (tweet_seq db) url
               (orElse (CreateTweetBase64Input.tweetText body) None) now
               (JwtPayload.userId cu) in
  exists r db',
    createTweet uploadBase64ToObjectStorage (Some cu) body now db = (Return (Some 200) r, db') /\
    tweetOf r = row /\
    tweets db' = tweets db ++ [row].
Proof.
  intros Hb Ht Hup Hu row.
  unfold createTweet, tryCatch, bind, upload, currentUserId,
    TweetRepo.save, UserRepo.findOneBy_id, query, setStatus, ret.
  rewrite Hb, Ht, Hup. simpl. rewrite Hu. simpl. rewrite Hu.
  do 2 eexists. split; [reflexivity|]. split; reflexivity.
Qed.

(** What a returning [createTweet] has done. *)
Lemma createTweet_returns req_user body now db s r db' :
  createTweet uploadBase64ToObjectStorage req_user body now db = (Return s r, db') ->
  exists cu url,
    req_user = Some cu /\
    falsy (CreateTweetBase64Input.imageBase64 body) = false /\
    startsWith (CreateTweetBase64Input.imageFileType body) (js "image/")
    = true /\
    uploadBase64ToObjectStorage
      (stripDataUrl (CreateTweetBase64Input.imageBase64 body))
      (CreateTweetBase64Input.imageFileType body) = Uploaded url /\
    findUser (JwtPayload.userId cu) (users db) <> None /\
    s = Some 200 /\
    tweetOf r = Tweet.mk (tweet_seq db) url
                  (orElse (CreateTweetBase64Input.tweetText body) None) now
                  (JwtPayload.userId cu) /\
    tweets db' = tweets db ++ [tweetOf r].
Proof.
  unfold createTweet, tryCatch, bind, upload, currentUserId,
    TweetRepo.save, UserRepo.findOneBy_id, query, setStatus, ret, respond,
    throw.
  destruct (falsy _) eqn:Hb; [discriminate|].
  destruct (startsWith _ _) eqn:Ht; [|discriminate].
  simpl.
  destruct (uploadBase64ToObjectStorage _ _) as [url|msg] eqn:Hup;
    [|discriminate].
  destruct req_user as [cu|]; [|discriminate].
  destruct (findUser (JwtPayload.userId cu) (users db)) as [user|] eqn:Hu;
    [|discriminate].
  simpl. rewrite Hu.
  intros H. injection H as <- <- <-.
  exists cu, url.
  split; [reflexivity|]. split; [reflexivity|]. split; [reflexivity|].
  split; [reflexivity|]. split; [rewrite Hu; discriminate|].
  split; [reflexivity|]. split; reflexivity.
Qed.

(** How [createTweet] ends when it does not return. *)
Lemma createTweet_fails req_user body now db :
  falsy (CreateTweetBase64Input.imageBase64 body) = false ->
  startsWith (CreateTweetBase64Input.imageFileType body) (js "image/") = true ->
  (forall message,
      uploadBase64ToObjectStorage
        (stripDataUrl (CreateTweetBase64Input.imageBase64 body))
        (CreateTweetBase64Input.imageFileType body) = UploadFailed message ->
      createTweet uploadBase64ToObjectStorage req_user body now db
      = (Respond 500 (orMessage (Text message) (js "Failed to create tweet.")),
         db)) /\
  (forall url,
      uploadBase64ToObjectStorage
        (stripDataUrl (CreateTweetBase64Input.imageBase64 body))
        (CreateTweetBase64Input.imageFileType body) = Uploaded url ->
      (req_user = None ->
       createTweet uploadBase64ToObjectStorage req_user body now db
       = (Respond 500 (MessageOf NoSuchProperty), db)) /\
      (forall cu,
          req_user = Some cu ->
          findUser (JwtPayload.userId cu) (users db) = None ->
          createTweet uploadBase64ToObjectStorage req_user body now db
          = (Respond 500 (MessageOf ForeignKeyViolation),
             mkDB (users db) (tweets db) (comments db) (likes db) (follows db)
                  (tweet_seq db + 1) (comment_seq db) (like_seq db)
                  (follow_seq db)))).
Proof.
  intros Hb Ht.
  unfold createTweet, tryCatch, bind, upload, currentUserId,
    TweetRepo.save, UserRepo.findOneBy_id, query, setStatus, ret, respond,
    throw.
  rewrite Hb, Ht. cbn [orb negb].
  split.
  - intros message ->. reflexivity.
  - intros url ->. split.
    + intros ->. reflexivity.
    + intros cu -> Hu. now rewrite Hu.
Qed.

(** An error response of [createTweet] leaves every table as it was. *)
Lemma createTweet_responds req_user body now db st msg db' :
  createTweet uploadBase64ToObjectStorage req_user body now db
  = (Respond st msg, db') ->
  sameTables db db'.
Proof.
  unfold createTweet, tryCatch, bind, upload, currentUserId,
    TweetRepo.save, UserRepo.findOneBy_id, query, setStatus, ret, respond,
    throw.
  assert (Hsame : forall (o : Outcome TweetResponse.t) store,
             (o, store) = (Respond st msg, db') ->
             sameTables db store -> sameTables db db').
  { intros o store H. injection H as _ <-. trivial. }
  assert (Hrefl : sameTables db db) by (repeat split).
  destruct (falsy _ || negb _); [intros H; exact (Hsame _ _ H Hrefl)|].
  destruct (uploadBase64ToObjectStorage _ _) as [url|m];
    [|intros H; exact (Hsame _ _ H Hrefl)].
  destruct req_user as [cu|]; [|intros H; exact (Hsame _ _ H Hrefl)].
  destruct (findUser (JwtPayload.userId cu) (users db)) as [user|] eqn:Hu.
  - simpl. rewrite Hu. discriminate.
  - intros H. apply (Hsame _ _ H). repeat split.
Qed.

End CreateTweet.

(** C4.  [createTweet] answers 400 and leaves the store as it was when
    [imageBase64] is empty or [imageFileType] does not start with
    ["image/"].  Whenever it returns, the image was accepted and uploaded,
    and exactly one tweet was appended whose [imageUrl] (a string, never
    [null]) is the URL returned by the upload.  Every error response leaves
    the five tables as they were: no tweet is created. *)
Theorem createTweet_requires_image
    (uploadBase64ToObjectStorage : JsString -> JsString -> UploadResult)
    (req_user : option JwtPayload.t) (body : CreateTweetBase64Input.t)
    (now : Timestamp) (db : DB) :
  (falsy (CreateTweetBase64Input.imageBase64 body) = true \/
   startsWith (CreateTweetBase64Input.imageFileType body) (js "image/") = false ->
   createTweet uploadBase64ToObjectStorage req_user body now db
   = (Respond 400 (js "imageBase64 and a valid imageFileType are required."),
      db)) /\
  (forall s r db',
      createTweet uploadBase64ToObjectStorage req_user body now db
      = (Return s r, db') ->
      exists url,
        falsy (CreateTweetBase64Input.imageBase64 body) = false /\
        startsWith (CreateTweetBase64Input.imageFileType body) (js "image/")
        = true /\
        uploadBase64ToObjectStorage
          (stripDataUrl (CreateTweetBase64Input.imageBase64 body))
          (CreateTweetBase64Input.imageFileType body) = Uploaded url /\
        tweets db' = tweets db ++ [tweetOf r] /\
        Tweet.imageUrl (tweetOf r) = url) /\
  (forall st msg db',
      createTweet uploadBase64ToObjectStorage req_user body now db
      = (Respond st msg, db') ->
      users db' = users db /\ tweets db' = tweets db /\
      comments db' = comments db /\ likes db' = likes db /\
      follows db' = follows db).
Proof.
  split; [apply createTweet_rejects|].
  split; [|apply createTweet_responds].
  intros s r db' H. apply createTweet_returns in H.
  destruct H as (cu & url & _ & Hb & Ht & Hup & _ & _ & Hr & Htw).
  exists url. repeat (split; [assumption|]).
  now rewrite Hr.
Qed.

Lemma createTweet_requires_image_witness :
  (falsy (CreateTweetBase64Input.imageBase64 bodyWithoutImage) = true /\
   createTweet sampleUpload (Some aliceJwt) bodyWithoutImage 400 sampleDB
   = (Respond 400 (js "imageBase64 and a valid imageFileType are required."),
      sampleDB)) /\
  (startsWith (CreateTweetBase64Input.imageFileType bodyWithPdf) (js "image/")
   = false /\
   createTweet sampleUpload (Some aliceJwt) bodyWithPdf 400 sampleDB
   = (Respond 400 (js "imageBase64 and a valid imageFileType are required."),
      sampleDB)) /\
  (exists r db',
      createTweet sampleUpload (Some aliceJwt) bodyWithText 400 sampleDB
      = (Return (Some 200) r, db') /\
      tweets db' = tweets sampleDB ++ [tweetOf r] /\
      Tweet.imageUrl (tweetOf r) = js "https://storage/object").
Proof.
  split.
  { split; [reflexivity|].
    apply (createTweet_requires_image sampleUpload (Some aliceJwt)
             bodyWithoutImage 400 sampleDB).
    left. reflexivity. }
  split.
  { split; [reflexivity|].
    apply (createTweet_requires_image sampleUpload (Some aliceJwt)
             bodyWithPdf 400 sampleDB).
    right. reflexivity. }
  destruct (createTweet sampleUpload (Some aliceJwt) bodyWithText 400 sampleDB)
    as [o db'] eqn:E.
  assert (Ho : exists r, o = Return (Some 200) r).
  { vm_compute in E. injection E as <- _. eexists. reflexivity. }
  destruct Ho as [r ->].
  exists r, db'. split; [reflexivity|].
  destruct (createTweet_requires_image sampleUpload (Some aliceJwt)
              bodyWithText 400 sampleDB) as (_ & H & _).
  destruct (H _ _ _ E) as (url & _ & _ & Hup & Htw & Himg).
  split; [exact Htw|].
  rewrite Himg. unfold sampleUpload in Hup. now injection Hup as <-.
Defined.

Lemma orElse_storedText (v : option JsString) : orElse v None = storedText v.
Proof. now destruct v as [[|c s]|]. Qed.

(** C7.  For every valid [createTweet] request (an accepted image that the
    object storage stored, sent by a user who has a row), the call succeeds
    with status 200 and appends one tweet; its [tweetText] is [null] when the
    request's [tweetText] is absent or empty and is that text otherwise. *)
Theorem createTweet_text_is_optional
    (uploadBase64ToObjectStorage : JsString -> JsString -> UploadResult)
    (cu : JwtPayload.t) (body : CreateTweetBase64Input.t) (now : Timestamp)
    (db : DB) (url : JsString) (user : User.t) :
  falsy (CreateTweetBase64Input.imageBase64 body) = false ->
  startsWith (CreateTweetBase64Input.imageFileType body) (js "image/") = true ->
  uploadBase64ToObjectStorage
    (stripDataUrl (CreateTweetBase64Input.imageBase64 body))
    (CreateTweetBase64Input.imageFileType body) = Uploaded url ->
  findUser (JwtPayload.userId cu) (users db) = Some user ->
  exists r db' row,
    createTweet uploadBase64ToObjectStorage (Some cu) body now db
    = (Return (Some 200) r, db') /\
    tweets db' = tweets db ++ [row] /\
    Tweet.tweetText row = storedText (CreateTweetBase64Input.tweetText body) /\
    TweetResponse.tweetText r
    = storedText (CreateTweetBase64Input.tweetText body) /\
    (CreateTweetBase64Input.tweetText body = None \/
     CreateTweetBase64Input.tweetText body = Some [] ->
     Tweet.tweetText row = None) /\
    (forall text,
        CreateTweetBase64Input.tweetText body = Some text -> text <> [] ->
        Tweet.tweetText row = Some text).
Proof.
  intros Hb Ht Hup Hu.
  destruct (createTweet_succeeds uploadBase64ToObjectStorage cu body now db
              url user Hb Ht Hup Hu) as (r & db' & Hrun & Hr & Htw).
  exists r, db'. eexists.
  split; [exact Hrun|].
  split; [exact Htw|].
  cbn [Tweet.tweetText]. rewrite orElse_storedText.
  split; [reflexivity|].
  split.
  { apply (f_equal Tweet.tweetText) in Hr. simpl in Hr.
    now rewrite Hr, orElse_storedText. }
  split.
  - now intros [-> | ->].
  - intros text -> Hne. now destruct text.
Qed.

Lemma createTweet_text_is_optional_witness :
  falsy (CreateTweetBase64Input.imageBase64 bodyWithoutText) = false /\
  startsWith (CreateTweetBase64Input.imageFileType bodyWithoutText)
             (js "image/") = true /\
  sampleUpload (stripDataUrl (CreateTweetBase64Input.imageBase64 bodyWithoutText))
               (CreateTweetBase64Input.imageFileType bodyWithoutText)
  = Uploaded (js "https://storage/object") /\
  findUser (JwtPayload.userId aliceJwt) (users sampleDB) = Some alice /\
  exists r db' row,
    createTweet sampleUpload (Some aliceJwt) bodyWithoutText 400 sampleDB
    = (Return (Some 200) r, db') /\
    tweets db' = tweets sampleDB ++ [row] /\
    Tweet.tweetText row = None /\
    TweetResponse.tweetText r = None.
Proof.
  split; [reflexivity|].
  split; [reflexivity|].
  split; [reflexivity|].
  split; [reflexivity|].
  destruct (createTweet_text_is_optional sampleUpload aliceJwt bodyWithoutText
              400 sampleDB (js "https://storage/object") alice
              eq_refl eq_refl eq_refl eq_refl)
    as (r & db' & row & Hrun & Htw & Htext & Hresp & _).
  exists r, db', row.
  split; [exact Hrun|].
  split; [exact Htw|].
  split; [exact Htext | exact Hresp].
Defined.

(** ** Handlers and the store *)

Lemma persists_refl db : persists db db.
Proof. repeat split; exists []; now rewrite app_nil_r. Qed.

Lemma persists_trans db1 db2 db3 :
  persists db1 db2 -> persists db2 db3 -> persists db1 db3.
Proof.
  intros (Hu & Ht & Hc & Hl & Hf) (Hu' & Ht' & Hc' & Hl' & Hf').
  repeat split.
  - destruct Hu as [l E], Hu' as [l' E'].
    exists (l ++ l'). now rewrite E', E, app_assoc.
  - destruct Ht as [l E], Ht' as [l' E'].
    exists (l ++ l'). now rewrite E', E, app_assoc.
  - destruct Hc as [l E], Hc' as [l' E'].
    exists (l ++ l'). now rewrite E', E, app_assoc.
  - destruct Hl as [l E], Hl' as [l' E'].
    exists (l ++ l'). now rewrite E', E, app_assoc.
  - destruct Hf as [l E], Hf' as [l' E'].
    exists (l ++ l'). now rewrite E', E, app_assoc.
Qed.

Section Composition.

Context {A B : Type}.

Lemma readOnly_ret (a : A) : readOnly (ret a).
Proof. intros db. reflexivity. Qed.

Lemma readOnly_respond st msg : readOnly (@respond A st msg).
Proof. intros db. reflexivity. Qed.

Lemma readOnly_throw msg : readOnly (@throw A msg).
Proof. intros db. reflexivity. Qed.

Lemma readOnly_query (f : DB -> A) : readOnly (query f).
Proof. intros db. reflexivity. Qed.

Lemma readOnly_select (f : DB -> option A) : readOnly (select f).
Proof. intros db. unfold select. now destruct (f db). Qed.

Lemma readOnly_respondWith res st msg : readOnly (@respondWith A res st msg).
Proof. intros db. now destruct res. Qed.

Lemma readOnly_bind (m : Handler A) (k : A -> Handler B) :
  readOnly m -> (forall a, readOnly (k a)) -> readOnly (bind m k).
Proof.
  intros Hm Hk db. unfold bind.
  specialize (Hm db).
  destruct (m db) as [[s a|st msg|msg] db']; simpl in Hm; subst db';
    try reflexivity.
  specialize (Hk a db).
  destruct (k a db) as [[s' b|st msg|msg] db'']; exact Hk.
Qed.

End Composition.

Lemma readOnly_setStatus s : readOnly (setStatus s).
Proof. intros db. reflexivity. Qed.

Lemma readOnly_column n : readOnly (column n).
Proof. apply readOnly_select. Qed.

Lemma readOnly_currentUserId req_user : readOnly (currentUserId req_user).
Proof. destruct req_user; intros db; reflexivity. Qed.

Lemma readOnly_currentUserLikes req_user ids :
  readOnly (currentUserLikes req_user ids).
Proof.
  intros db. destruct (currentUserLikes_reads req_user ids db) as [l ->].
  reflexivity.
Qed.

Create HintDb store discriminated.
#[local] Hint Resolve readOnly_ret readOnly_respond readOnly_throw
  readOnly_query readOnly_select readOnly_respondWith readOnly_setStatus
  readOnly_column readOnly_currentUserId readOnly_currentUserLikes : store.

(** Splits a handler at each bind and at each case of a match. *)
Ltac read_only :=
  repeat first
    [ apply readOnly_bind; [|intros ?]
    | match goal with
      | |- readOnly (match ?x with _ => _ end) => destruct x
      | |- readOnly (if ?c then _ else _) => destruct c
      end
    | solve [auto with store] ].

Lemma readOnly_getFeedTweets {D : Database} req_user limit offset :
  readOnly (getFeedTweets req_user limit offset).
Proof. unfold getFeedTweets, TweetRepo.find_newestFirst. read_only. Qed.

Lemma readOnly_searchTweets {D : Database} tsMatch req_user q limit offset :
  readOnly (searchTweets tsMatch req_user q limit offset).
Proof. unfold searchTweets, TweetRepo.search. read_only. Qed.

Lemma readOnly_getTweetById req_user i : readOnly (getTweetById req_user i).
Proof.
  unfold getTweetById, TweetRepo.findOne_withUser,
    LikeRepo.find_byUser_tweet.
  read_only.
Qed.

Lemma readOnly_getUserProfile i : readOnly (getUserProfile i).
Proof.
  unfold getUserProfile, UserRepo.findOneBy_id, FollowRepo.count_followed,
    FollowRepo.count_follower.
  read_only.
Qed.

Lemma readOnly_getUserFollowers i res : readOnly (getUserFollowers i res).
Proof.
  unfold getUserFollowers, FollowRepo.find_followed_withFollower. read_only.
Qed.

Lemma readOnly_getUserFollowing i res : readOnly (getUserFollowing i res).
Proof.
  unfold getUserFollowing, FollowRepo.find_follower_withFollowed. read_only.
Qed.

Lemma readOnly_getUserLikes req_user i : readOnly (getUserLikes req_user i).
Proof.
  unfold getUserLikes, UserRepo.findOneBy_id,
    LikeRepo.find_byUser_withUserTweet.
  read_only.
Qed.

Lemma readOnly_getComments {D : Database} i limit offset :
  readOnly (getComments i limit offset).
Proof.
  unfold getComments, TweetRepo.findOneBy_id, CommentRepo.find_byTweet.
  read_only.
Qed.

(** Handlers whose effect on the store stays within a reflexive and
    transitive relation. *)
Section Respects.

Variable R : DB -> DB -> Prop.
Hypothesis R_refl : forall db, R db db.
Hypothesis R_trans : forall a b c, R a b -> R b c -> R a c.

Lemma readOnly_respects {A} (m : Handler A) : readOnly m -> respects R m.
Proof. intros Hm db. rewrite Hm. apply R_refl. Qed.

Lemma respects_bind {A B} (m : Handler A) (k : A -> Handler B) :
  respects R m -> (forall a, respects R (k a)) -> respects R (bind m k).
Proof.
  intros Hm Hk db. unfold bind.
  specialize (Hm db).
  destruct (m db) as [[s a|st msg|msg] db']; simpl in Hm; try exact Hm.
  specialize (Hk a db').
  destruct (k a db') as [[s' b|st msg|msg] db'']; simpl in Hk |- *;
    eapply R_trans; eassumption.
Qed.

Lemma respects_tryCatch {A} (body : Handler A)
    (handler : Message -> Handler A) :
  respects R body -> (forall msg, respects R (handler msg)) ->
  respects R (tryCatch body handler).
Proof.
  intros Hb Hh db. unfold tryCatch.
  specialize (Hb db).
  destruct (body db) as [[s a|st msg|msg] db']; simpl in Hb; try exact Hb.
  eapply R_trans; [exact Hb | apply Hh].
Qed.

End Respects.

Lemma keepsFollows_refl db : keepsFollows db db.
Proof. split; reflexivity. Qed.

Lemma keepsFollows_trans a b c :
  keepsFollows a b -> keepsFollows b c -> keepsFollows a c.
Proof. intros [Hu Hf] [Hu' Hf']. split; congruence. Qed.

Lemma persists_insert db db' :
  (exists l, users db' = users db ++ l) ->
  (exists l, tweets db' = tweets db ++ l) ->
  (exists l, comments db' = comments db ++ l) ->
  (exists l, likes db' = likes db ++ l) ->
  (exists l, follows db' = follows db ++ l) ->
  persists db db'.
Proof. intros; repeat split; assumption. Qed.

Ltac same_table := exists []; simpl; now rewrite app_nil_r.
Ltac one_more_row := eexists; simpl; reflexivity.

Lemma growing_TweetRepo_save now userId imageUrl tweetText :
  respects persists (TweetRepo.save now userId imageUrl tweetText).
Proof.
  intros db. unfold TweetRepo.save.
  destruct (findUser userId (users db));
    apply persists_insert; first [same_table | one_more_row].
Qed.

Lemma growing_LikeRepo_save now userId tweetId :
  respects persists (LikeRepo.save now userId tweetId).
Proof.
  intros db. unfold LikeRepo.save.
  destruct (findUser userId (users db)), (findTweet tweetId (tweets db));
    apply persists_insert; first [same_table | one_more_row].
Qed.

Lemma growing_CommentRepo_save now userId tweetId content :
  respects persists (CommentRepo.save now userId tweetId content).
Proof.
  intros db. unfold CommentRepo.save.
  destruct (findUser userId (users db)), (findTweet tweetId (tweets db));
    apply persists_insert; first [same_table | one_more_row].
Qed.

Lemma growing_FollowRepo_save now followerId followedId :
  respects persists (FollowRepo.save now followerId followedId).
Proof.
  intros db. unfold FollowRepo.save.
  apply persists_insert; first [same_table | one_more_row].
Qed.

Lemma keepsFollows_TweetRepo_save now userId imageUrl tweetText :
  respects keepsFollows (TweetRepo.save now userId imageUrl tweetText).
Proof.
  intros db. unfold TweetRepo.save.
  destruct (findUser userId (users db)); split; reflexivity.
Qed.

Lemma keepsFollows_LikeRepo_save now userId tweetId :
  respects keepsFollows (LikeRepo.save now userId tweetId).
Proof.
  intros db. unfold LikeRepo.save.
  destruct (findUser userId (users db)), (findTweet tweetId (tweets db));
    split; reflexivity.
Qed.

Lemma keepsFollows_CommentRepo_save now userId tweetId content :
  respects keepsFollows (CommentRepo.save now userId tweetId content).
Proof.
  intros db. unfold CommentRepo.save.
  destruct (findUser userId (users db)), (findTweet tweetId (tweets db));
    split; reflexivity.
Qed.

#[local] Hint Resolve growing_TweetRepo_save growing_LikeRepo_save
  growing_CommentRepo_save growing_FollowRepo_save
  keepsFollows_TweetRepo_save keepsFollows_LikeRepo_save
  keepsFollows_CommentRepo_save : store.

(** Splits a handler as [read_only] does, for a handler that writes; [refl]
    and [trans] are the proofs that the relation is reflexive and
    transitive. *)
Ltac through_binds refl trans :=
  repeat first
    [ solve [auto with store]
    | solve [apply (readOnly_respects _ refl); auto with store]
    | apply (respects_tryCatch _ trans); [|intros ?]
    | apply (respects_bind _ trans); [|intros ?]
    | match goal with
      | |- respects _ (match ?x with _ => _ end) => destruct x
      | |- respects _ (if ?c then _ else _) => destruct c
      end ].

Ltac only_grows := through_binds persists_refl persists_trans.
Ltac only_keeps_follows := through_binds keepsFollows_refl keepsFollows_trans.

Lemma growing_createTweet storage req_user body now :
  growing (createTweet storage req_user body now).
Proof.
  unfold growing, createTweet, upload, UserRepo.findOneBy_id. only_grows.
Qed.

Lemma growing_followUser req_user target now :
  growing (followUser req_user target now).
Proof.
  unfold growing, followUser, UserRepo.findOneBy_id,
    FollowRepo.findOneBy_pair.
  only_grows.
Qed.

Lemma growing_likeTweet cu tweetId now : growing (likeTweet cu tweetId now).
Proof.
  unfold growing, likeTweet, TweetRepo.findOneBy_id, UserRepo.findOneBy_id.
  only_grows.
Qed.

Lemma growing_createComment cu tweetId text now :
  growing (createComment cu tweetId text now).
Proof.
  unfold growing, createComment, TweetRepo.findOneBy_id,
    UserRepo.findOneBy_id.
  only_grows.
Qed.

Lemma keepsFollows_createTweet storage req_user body now :
  respects keepsFollows (createTweet storage req_user body now).
Proof.
  unfold createTweet, upload, UserRepo.findOneBy_id. only_keeps_follows.
Qed.

Lemma keepsFollows_likeTweet cu tweetId now :
  respects keepsFollows (likeTweet cu tweetId now).
Proof.
  unfold likeTweet, TweetRepo.findOneBy_id, UserRepo.findOneBy_id.
  only_keeps_follows.
Qed.

Lemma keepsFollows_createComment cu tweetId text now :
  respects keepsFollows (createComment cu tweetId text now).
Proof.
  unfold createComment, TweetRepo.findOneBy_id, UserRepo.findOneBy_id.
  only_keeps_follows.
Qed.

(** What [unfollowUser] does for an authenticated request. *)
Lemma unfollowUser_run cu (target : JsNumber) db :
  unfollowUser (Some cu) target db =
  match columnValue target with
  | None => (Throw (MessageOf QueryFailed), db)
  | Some followed =>
      match filter (FollowRepo.isPair (JwtPayload.userId cu) followed)
                   (follows db) with
      | [] =>
          (Respond 404 (js "Follow relationship not found."),
           mkDB (users db) (tweets db) (comments db) (likes db)
                (filter (fun f => negb (FollowRepo.isPair
                                          (JwtPayload.userId cu) followed f))
                        (follows db))
                (tweet_seq db) (comment_seq db) (like_seq db) (follow_seq db))
      | _ :: _ =>
          (Return None
             (js "Successfully unfollowed user " ++ numberToString followed),
           mkDB (users db) (tweets db) (comments db) (likes db)
                (filter (fun f => negb (FollowRepo.isPair
                                          (JwtPayload.userId cu) followed f))
                        (follows db))
                (tweet_seq db) (comment_seq db) (like_seq db) (follow_seq db))
      end
  end.
Proof.
  unfold unfollowUser, currentUserId. unfold bind at 1. unfold ret at 1.
  rewrite bind_column.
  destruct (columnValue target) as [followed|]; [|reflexivity].
  unfold bind, ret, FollowRepo.delete, respond. cbn [fst snd].
  now destruct (filter _ (follows db)).
Qed.

Lemma unfollowUser_deletes req_user (target : JsNumber) db :
  match req_user, columnValue target with
  | Some cu, Some followed =>
      deletesFollowsOnly (JwtPayload.userId cu) followed db
        (snd (unfollowUser req_user target db))
  | _, _ => snd (unfollowUser req_user target db) = db
  end.
Proof.
  destruct req_user as [cu|]; [|reflexivity].
  rewrite unfollowUser_run.
  destruct (columnValue target) as [followed|]; [|reflexivity].
  destruct (filter _ (follows db)); repeat split; reflexivity.
Qed.

Lemma unlikeTweet_deletes cu (tweetId : JsNumber) db :
  match columnValue tweetId with
  | Some id =>
      deletesLikesOnly (JwtPayload.userId cu) id db
        (snd (unlikeTweet cu tweetId db))
  | None => snd (unlikeTweet cu tweetId db) = db
  end.
Proof.
  unfold unlikeTweet. rewrite bind_column.
  destruct (columnValue tweetId) as [id|]; [|reflexivity].
  repeat split; reflexivity.
Qed.

(** *** Stores built by the routes *)

Lemma followsWellFormed_keeps db db' :
  keepsFollows db db' -> followsWellFormed db -> followsWellFormed db'.
Proof. unfold followsWellFormed. intros [-> ->]. trivial. Qed.

Lemma followsWellFormed_followUser req_user target now db :
  followsWellFormed db ->
  followsWellFormed (snd (followUser req_user target now db)).
Proof.
  intros Hwf. destruct req_user as [cu|]; [|exact Hwf].
  rewrite followUser_run.
  destruct (sameNumber (JwtPayload.userId cu) target) eqn:E; [exact Hwf|].
  destruct (columnValue target) as [followed|] eqn:Hc; [|exact Hwf].
  apply columnValue_Some in Hc. destruct Hc as [-> Hi].
  destruct (findUser followed (users db)) eqn:Hu; [|exact Hwf].
  destruct (find _ (follows db)); [exact Hwf|].
  unfold followsWellFormed in *. cbn [snd FollowRepo.save follows users].
  apply Forall_app. split; [exact Hwf|].
  constructor; [|constructor].
  cbn [Follow.followerId Follow.followedId].
  cbn [sameNumber] in E. apply Z.eqb_neq in E.
  split; [exact E|]. split; [exact Hi | congruence].
Qed.

Lemma followsWellFormed_unfollowUser req_user target db :
  followsWellFormed db ->
  followsWellFormed (snd (unfollowUser req_user target db)).
Proof.
  intros Hwf. pose proof (unfollowUser_deletes req_user target db) as H.
  destruct req_user as [cu|]; [|now rewrite H].
  destruct (columnValue target) as [followed|]; [|now rewrite H].
  destruct H as (Hu & _ & _ & _ & Hf).
  unfold followsWellFormed in *. rewrite Hu, Hf.
  apply Forall_forall. intros f Hin. apply filter_In in Hin.
  rewrite Forall_forall in Hwf. now apply Hwf.
Qed.

Lemma followsWellFormed_unlikeTweet cu tweetId db :
  followsWellFormed db -> followsWellFormed (snd (unlikeTweet cu tweetId db)).
Proof.
  pose proof (unlikeTweet_deletes cu tweetId db) as H.
  destruct (columnValue tweetId) as [id|]; [|now rewrite H].
  destruct H as (Hu & _ & _ & Hf & _).
  apply followsWellFormed_keeps. now split.
Qed.

(** Serving a request keeps the Follow table well formed. *)
Lemma followsWellFormed_request {D : Database} upload tsMatch r now db :
  followsWellFormed db ->
  followsWellFormed (snd (RegisterRoutes upload tsMatch r now db)).
Proof.
  destruct r; simpl; unfold apiHandler; cbn [snd];
    first
      [ apply followsWellFormed_followUser
      | apply followsWellFormed_unfollowUser
      | apply followsWellFormed_unlikeTweet
      | apply followsWellFormed_keeps;
        first
          [ apply keepsFollows_createTweet
          | apply keepsFollows_likeTweet
          | apply keepsFollows_createComment
          | apply (readOnly_respects _ keepsFollows_refl);
            first [ apply readOnly_getFeedTweets | apply readOnly_searchTweets
                  | apply readOnly_getTweetById | apply readOnly_getUserProfile
                  | apply readOnly_getUserFollowers
                  | apply readOnly_getUserFollowing
                  | apply readOnly_getUserLikes
                  | apply readOnly_getComments ] ] ].
Qed.

Lemma followsWellFormed_served {D : Database} upload tsMatch db0 db :
  follows db0 = [] -> served upload tsMatch db0 db -> followsWellFormed db.
Proof.
  intros H0. induction 1 as [|db r now _ IH].
  - unfold followsWellFormed. rewrite H0. constructor.
  - now apply followsWellFormed_request.
Qed.

(** In a store served from one without Follow rows, a follow that already
    exists is always answered with 409. *)
Lemma followUser_409_on_served_stores {D : Database} upload tsMatch db0 db cu
    (target : Id) now :
  follows db0 = [] -> served upload tsMatch db0 db ->
  existsb (FollowRepo.isPair (JwtPayload.userId cu) target) (follows db) = true ->
  followUser (Some cu) target now db
  = (Respond 409 (js "You are already following this user."), db).
Proof.
  intros H0 Hs Hex.
  pose proof (followsWellFormed_served _ _ _ _ H0 Hs) as Hwf.
  rewrite (followUser_unchanged_when_paired _ _ _ _ Hex).
  apply existsb_exists in Hex. destruct Hex as (f & Hin & Hp).
  unfold followsWellFormed in Hwf. rewrite Forall_forall in Hwf.
  destruct (Hwf f Hin) as (Hne & Hi & Hu).
  unfold FollowRepo.isPair in Hp. apply andb_prop in Hp.
  destruct Hp as [H1 H2]. apply Z.eqb_eq in H1, H2. subst target.
  rewrite <- H1. apply Z.eqb_neq in Hne. rewrite Hne, Hi.
  destruct (findUser (Follow.followedId f) (users db)); [reflexivity|].
  congruence.
Qed.

Section Persistence.

Context {D : Database}.

(** C6.  The read-only endpoints [getFeedTweets], [getTweetById],
    [getUserProfile] and [getComments] end in the store they started from.
    Every route other than the two deleting ones leaves every row of every
    table in place (it can only append rows).  [unfollowUser] removes only
    Follow rows from the requester to the target and [unlikeTweet] only the
    current user's Like rows on the tweet; neither touches another table,
    and neither removes anything when the number in the path is not a
    value of the column (the delete fails). *)
Theorem entities_persist_until_deleted
    (uploadBase64ToObjectStorage : JsString -> JsString -> UploadResult)
    (tsMatch : JsString -> option JsString -> bool)
    (r : Request) (now : Timestamp) (db : DB) :
  (forall req_user limit offset,
      snd (getFeedTweets req_user limit offset db) = db) /\
  (forall req_user tweetId, snd (getTweetById req_user tweetId db) = db) /\
  (forall userId, snd (getUserProfile userId db) = db) /\
  (forall tweetId limit offset, snd (getComments tweetId limit offset db) = db) /\
  (isDelete r = false ->
   persists db
     (snd (RegisterRoutes uploadBase64ToObjectStorage tsMatch r now db))) /\
  (forall cu target,
      match columnValue target with
      | Some followed =>
          deletesFollowsOnly (JwtPayload.userId cu) followed db
            (snd (unfollowUser (Some cu) target db))
      | None => snd (unfollowUser (Some cu) target db) = db
      end) /\
  (forall target, snd (unfollowUser None target db) = db) /\
  (forall cu tweetId,
      match columnValue tweetId with
      | Some id =>
          deletesLikesOnly (JwtPayload.userId cu) id db
            (snd (unlikeTweet cu tweetId db))
      | None => snd (unlikeTweet cu tweetId db) = db
      end).
Proof.
  split; [intros; apply readOnly_getFeedTweets|].
  split; [intros; apply readOnly_getTweetById|].
  split; [intros; apply readOnly_getUserProfile|].
  split; [intros; apply readOnly_getComments|].
  split.
  { destruct r; simpl; intros Hd; try discriminate; unfold apiHandler;
      cbn [snd];
      first
        [ apply growing_createTweet
        | apply growing_followUser
        | apply growing_likeTweet
        | apply growing_createComment
        | apply (readOnly_respects _ persists_refl);
          first [ apply readOnly_getFeedTweets | apply readOnly_searchTweets
                | apply readOnly_getTweetById | apply readOnly_getUserProfile
                | apply readOnly_getUserFollowers
                | apply readOnly_getUserFollowing | apply readOnly_getUserLikes
                | apply readOnly_getComments ] ]. }
  split; [intros cu target; apply (unfollowUser_deletes (Some cu))|].
  split; [intros target; apply (unfollowUser_deletes None)|].
  intros cu tweetId. apply unlikeTweet_deletes.
Qed.

End Persistence.

Lemma entities_persist_until_deleted_witness :
  isDelete (LikeTweet aliceJwt 1) = false /\
  persists sampleDB
    (snd (RegisterRoutes (D := tableOrder) sampleUpload (fun _ _ => true)
            (LikeTweet aliceJwt 1) 400 sampleDB)) /\
  isDelete (CreateTweet (Some bobJwt) bodyWithText) = false /\
  persists sampleDB
    (snd (RegisterRoutes (D := tableOrder) sampleUpload (fun _ _ => true)
            (CreateTweet (Some bobJwt) bodyWithText) 400 sampleDB)).
Proof.
  split; [reflexivity|].
  split.
  { destruct (entities_persist_until_deleted (D := tableOrder) sampleUpload
                (fun _ _ => true) (LikeTweet aliceJwt 1) 400 sampleDB)
      as (_ & _ & _ & _ & H & _).
    exact (H eq_refl). }
  split; [reflexivity|].
  destruct (entities_persist_until_deleted (D := tableOrder) sampleUpload
              (fun _ _ => true) (CreateTweet (Some bobJwt) bodyWithText) 400
              sampleDB)
    as (_ & _ & _ & _ & H & _).
  exact (H eq_refl).
Defined.

(** ** Trimming and splitting the search query *)

Section DropWhile.

Context {A : Type} (p : A -> bool).

Lemma dropWhile_nil l : dropWhile p l = [] <-> forallb p l = true.
Proof.
  induction l as [|a r IH]; simpl; [tauto|].
  destruct (p a); simpl; [exact IH | split; discriminate].
Qed.

Lemma dropWhile_head l x r : dropWhile p l = x :: r -> p x = false.
Proof.
  induction l as [|a l IH]; simpl; [discriminate|].
  destruct (p a) eqn:E; [exact IH|].
  intros H. injection H as <- _. exact E.
Qed.

Lemma forallb_dropWhile l : forallb p (dropWhile p l) = forallb p l.
Proof.
  induction l as [|a r IH]; simpl; [reflexivity|].
  destruct (p a) eqn:E; simpl; [exact IH | now rewrite E].
Qed.

Lemma forallb_rev l : forallb p (rev l) = forallb p l.
Proof.
  induction l as [|a r IH]; simpl; [reflexivity|].
  rewrite forallb_app, IH. simpl. rewrite andb_true_r. apply andb_comm.
Qed.

Lemma takeWhile_dropWhile l : takeWhile p l ++ dropWhile p l = l.
Proof.
  induction l as [|a r IH]; simpl; [reflexivity|].
  destruct (p a); simpl; [now rewrite IH | reflexivity].
Qed.

Lemma forallb_takeWhile l : forallb p (takeWhile p l) = true.
Proof.
  induction l as [|a r IH]; simpl; [reflexivity|].
  destruct (p a) eqn:E; simpl; [now rewrite E | reflexivity].
Qed.

End DropWhile.

Lemma trim_nil_iff q : trim q = [] <-> blank q = true.
Proof.
  unfold trim, trimEnd, trimStart, blank. split.
  - intros H. apply (f_equal (@rev N)) in H.
    rewrite rev_involutive in H. simpl in H.
    apply dropWhile_nil in H.
    now rewrite forallb_rev, forallb_dropWhile in H.
  - intros H. apply dropWhile_nil in H. now rewrite H.
Qed.

Lemma falsy_trim q : falsy (trim q) = blank q.
Proof.
  destruct (blank q) eqn:E.
  - apply trim_nil_iff in E. now rewrite E.
  - destruct (trim q) eqn:T; [|reflexivity].
    apply trim_nil_iff in T. congruence.
Qed.

Lemma splitWs_nonempty insep cur s : splitWs insep cur s <> [].
Proof.
  revert insep cur. induction s as [|c r IH]; intros insep cur; simpl.
  - discriminate.
  - destruct (isWhiteSpace c); [destruct insep|]; try apply IH; discriminate.
Qed.

Lemma join_cons sep p l : l <> [] -> join sep (p :: l) = p ++ sep ++ join sep l.
Proof. destruct l; [congruence | reflexivity]. Qed.

(** Joining the pieces of [split(/\s+/)] puts the separator in place of each
    run of white space. *)
Lemma join_splitWs sep insep cur s :
  join sep (splitWs insep cur s) = rev cur ++ replaceRuns sep insep s.
Proof.
  revert insep cur. induction s as [|c r IH]; intros insep cur; simpl.
  - now rewrite app_nil_r.
  - destruct (isWhiteSpace c); [destruct insep|].
    + apply IH.
    + rewrite join_cons by apply splitWs_nonempty. now rewrite IH.
    + rewrite IH. simpl. now rewrite <- app_assoc.
Qed.

Lemma endsInWord_tail c r : endsInWord (c :: r) = true -> endsInWord r = true.
Proof. destruct r; [reflexivity | trivial]. Qed.

Lemma endsInWord_space c r :
  endsInWord (c :: r) = true -> isWhiteSpace c = true -> r <> [].
Proof. destruct r; simpl; [intros H W; rewrite W in H|]; discriminate. Qed.

Lemma endsInWord_snoc l x : endsInWord (l ++ [x]) = negb (isWhiteSpace x).
Proof.
  induction l as [|a r IH]; [reflexivity|].
  change ((a :: r) ++ [x]) with (a :: (r ++ [x])).
  cbn [endsInWord]. rewrite IH.
  destruct (r ++ [x]) eqn:E; [|reflexivity].
  now destruct r.
Qed.

(** On a string that does not end in white space, the split pieces after a
    word has begun (or inside a separator) are the words. *)
Lemma splitWs_wordsFrom s :
  endsInWord s = true ->
  (forall cur, cur <> [] -> splitWs false cur s = wordsFrom cur s) /\
  (s <> [] -> splitWs true [] s = wordsFrom [] s).
Proof.
  induction s as [|c r IH]; intros He.
  - split; [|congruence]. intros [|x cur] Hc; [congruence | reflexivity].
  - pose proof (endsInWord_tail _ _ He) as Hr.
    destruct (IH Hr) as [IHa IHb].
    split.
    + intros cur Hc. simpl.
      destruct (isWhiteSpace c) eqn:W.
      * rewrite (IHb (endsInWord_space _ _ He W)).
        destruct cur; [congruence | reflexivity].
      * apply IHa. discriminate.
    + intros _. simpl.
      destruct (isWhiteSpace c) eqn:W.
      * apply IHb. exact (endsInWord_space _ _ He W).
      * apply IHa. discriminate.
Qed.

Lemma split_ws_words c r :
  isWhiteSpace c = false -> endsInWord (c :: r) = true ->
  split_ws (c :: r) = words (c :: r).
Proof.
  intros W He. unfold split_ws, words. simpl. rewrite W.
  apply (splitWs_wordsFrom r (endsInWord_tail _ _ He)). discriminate.
Qed.

Lemma wordsFrom_blank cur post :
  blank post = true ->
  wordsFrom cur post = match cur with [] => [] | _ :: _ => [rev cur] end.
Proof.
  unfold blank. revert cur.
  induction post as [|c r IH]; intros cur Hb; simpl; [reflexivity|].
  simpl in Hb. apply andb_prop in Hb. destruct Hb as [W Hr].
  rewrite W, (IH [] Hr). reflexivity.
Qed.

Lemma wordsFrom_trailing cur s post :
  blank post = true -> wordsFrom cur (s ++ post) = wordsFrom cur s.
Proof.
  intros Hb. revert cur.
  induction s as [|c r IH]; intros cur; simpl.
  - now apply wordsFrom_blank.
  - destruct (isWhiteSpace c); [destruct cur|]; now rewrite IH.
Qed.

Lemma words_leading pre s : blank pre = true -> words (pre ++ s) = words s.
Proof.
  unfold words, blank.
  induction pre as [|c r IH]; intros Hb; simpl; [reflexivity|].
  simpl in Hb. apply andb_prop in Hb. destruct Hb as [W Hr].
  rewrite W. now apply IH.
Qed.

(** The shape of a trimmed string that is not empty: it starts and ends
    with a character that is not white space, and the string is the trimmed
    one between two runs of white space. *)
Lemma trim_shape q :
  blank q = false ->
  exists c r pre post,
    trim q = c :: r /\ isWhiteSpace c = false /\
    endsInWord (c :: r) = true /\
    blank pre = true /\ blank post = true /\
    q = pre ++ trim q ++ post.
Proof.
  intros Hb.
  pose (d := dropWhile isWhiteSpace q).
  pose (e := dropWhile isWhiteSpace (rev d)).
  assert (Ht : trim q = rev e) by reflexivity.
  assert (Hq : q = takeWhile isWhiteSpace q ++ d)
    by (symmetry; apply takeWhile_dropWhile).
  assert (Hd : d = rev e ++ rev (takeWhile isWhiteSpace (rev d))).
  { rewrite <- rev_app_distr. unfold e.
    now rewrite takeWhile_dropWhile, rev_involutive. }
  assert (Hpost : blank (rev (takeWhile isWhiteSpace (rev d))) = true).
  { unfold blank. rewrite forallb_rev. apply forallb_takeWhile. }
  assert (Hne : trim q <> []).
  { intros H. apply trim_nil_iff in H. congruence. }
  destruct (trim q) as [|c r] eqn:T; [congruence|].
  exists c, r, (takeWhile isWhiteSpace q),
    (rev (takeWhile isWhiteSpace (rev d))).
  assert (Wc : isWhiteSpace c = false).
  { destruct d as [|y d'] eqn:D.
    - symmetry in Ht. simpl in e. subst e. discriminate Ht.
    - pose proof (dropWhile_head _ _ _ _ D) as Wy.
      rewrite <- Ht in Hd. simpl in Hd. injection Hd as -> _. exact Wy. }
  split; [reflexivity|].
  split; [exact Wc|].
  split.
  { rewrite Ht. destruct e as [|x e'] eqn:E; [reflexivity|].
    simpl. rewrite endsInWord_snoc.
    now rewrite (dropWhile_head _ _ _ _ E). }
  split; [apply forallb_takeWhile|].
  split; [exact Hpost|].
  rewrite Ht, <- Hd. exact Hq.
Qed.

(** The pieces of the trimmed query are the words of the query. *)
Lemma split_ws_trim q : blank q = false -> split_ws (trim q) = words q.
Proof.
  intros Hb.
  destruct (trim_shape q Hb) as (c & r & pre & post & Ht & W & He & Hpre
                                   & Hpost & Hq).
  rewrite Hq at 2. rewrite words_leading by exact Hpre.
  unfold words. rewrite wordsFrom_trailing by exact Hpost.
  rewrite Ht. now apply split_ws_words.
Qed.

(** ** Search *)

(** The whole answer of a search, entry by entry, for the page that the
    database returns. *)
Lemma searchTweets_views {D : Database} tsMatch req_user q limit offset db :
  blank q = false ->
  searchTweets tsMatch req_user q limit offset db
  = match newestFirst Tweet.createdAt (defaultTo (Integer 10) limit)
            (defaultTo (Integer 0) offset)
            (filter (fun t => tsMatch (searchTerm q) (Tweet.tweetText t))
                    (tweets db)) with
    | Some page => (Return None (map (tweetView req_user db) page), db)
    | None => (Throw (MessageOf QueryFailed), db)
    end.
Proof.
  intros Hb.
  unfold searchTweets, bind, TweetRepo.search, select, ret.
  rewrite falsy_trim, Hb.
  destruct (newestFirst _ _ _ _) as [page|]; [|reflexivity].
  cbn [option_map].
  destruct (currentUserLikes_reads req_user
              (map (fun t => Tweet.id (fst t))
                   (map (TweetRepo.withUser db) page)) db) as [likes Hl].
  rewrite Hl.
  rewrite (tweetResponses_tweetViews _ _ _ _ _ Hl); [reflexivity|].
  rewrite map_id_withUser. apply incl_refl.
Qed.

Lemma searchTweets_blank {D : Database} tsMatch req_user q limit offset db :
  blank q = true ->
  searchTweets tsMatch req_user q limit offset db
  = (Respond 400 (js "Search query cannot be empty"), db).
Proof. intros Hb. unfold searchTweets. now rewrite falsy_trim, Hb. Qed.

Lemma searchTerm_joins_words q :
  blank q = false -> searchTerm q = join (js " & ") (words q).
Proof. intros Hb. unfold searchTerm. now rewrite split_ws_trim. Qed.

Section Search.

Context {D : Database} {HD : Orderly D}.

(** C10.  [searchTweets] answers 400 exactly when the query is empty or all
    white space, whatever [limit] and [offset] are, and leaves the store as
    it was.  Otherwise the search term is the trimmed query with each run of
    white space replaced by [" & "], that is, the words of the query joined
    by [" & "], and the tweets whose text matches that term are paginated as
    the feed paginates all tweets: for counts (omitted parameters stand for
    10 and 0) the answer is newest first and holds the matching tweets left
    after skipping [offset] tweets of a newest-first order of them and, for
    a [limit] other than 0, taking the first [limit]; and for every [limit]
    and [offset] the answer is the one the feed gives on the store that
    holds the matching tweets only (the feed shows tweets with an author
    row only, so this is said of matching tweets that have one). *)
Theorem searchTweets_blank_or_paged
    (tsMatch : JsString -> option JsString -> bool)
    (req_user : option JwtPayload.t) (q : JsString) (db : DB) :
  (forall limit offset,
      httpStatus None (fst (searchTweets tsMatch req_user q limit offset db))
      = 400 <-> blank q = true) /\
  (forall limit offset,
      blank q = true ->
      searchTweets tsMatch req_user q limit offset db
      = (Respond 400 (js "Search query cannot be empty"), db)) /\
  (blank q = false ->
   let term := join (js " & ") (words q) in
   let matching :=
     filter (fun t => tsMatch term (Tweet.tweetText t)) (tweets db) in
   searchTerm q = term /\
   term = replaceRuns (js " & ") false (trim q) /\
   (forall limit offset : option nat,
       let take := match limit with Some n => n | None => 10%nat end in
       let skip := match offset with Some n => n | None => 0%nat end in
       exists rs ordered,
         searchTweets tsMatch req_user q (option_map ofNat limit)
           (option_map ofNat offset) db
         = (Return None rs, db) /\
         Permutation ordered matching /\
         descending Tweet.createdAt ordered /\
         (take <> 0%nat ->
          Permutation (map tweetOf rs) (firstn take (skipn skip ordered))) /\
         (take = 0%nat ->
          Permutation (map tweetOf rs) (skipn skip ordered)) /\
         descending TweetResponse.createdAt rs /\
         (take <> 0%nat -> (length rs <= take)%nat)) /\
   (forall limit offset : option JsNumber,
       (forall t, In t matching -> hasUser db t = true) ->
       fst (searchTweets tsMatch req_user q limit offset db)
       = fst (getFeedTweets req_user limit offset (withTweets db matching)))).
Proof.
  split.
  { intros limit offset. destruct (blank q) eqn:Hb.
    - rewrite (searchTweets_blank _ _ _ _ _ _ Hb). simpl. tauto.
    - rewrite (searchTweets_views _ _ _ _ _ _ Hb).
      destruct (newestFirst _ _ _ _); simpl; split; discriminate. }
  split; [intros limit offset; apply searchTweets_blank|].
  intros Hb term matching.
  assert (Hterm : searchTerm q = term) by now apply searchTerm_joins_words.
  split; [exact Hterm|].
  split.
  { rewrite <- Hterm. unfold searchTerm, split_ws.
    now rewrite join_splitWs. }
  split.
  - intros limit offset take skip.
    rewrite (searchTweets_views _ _ _ _ _ _ Hb), Hterm. fold matching.
    change (Integer 10) with (ofNat 10). change (Integer 0) with (ofNat 0).
    rewrite !defaultTo_ofNat. fold take skip.
    destruct (newestFirst_page Tweet.createdAt take skip matching)
      as (page & ordered & Hq & Hperm & Hord & Hslice & Hdesc & _).
    rewrite Hq. eexists. exists ordered.
    split; [reflexivity|]. split; [exact Hperm|]. split; [exact Hord|].
    rewrite tweetOf_tweetView.
    split; [intros Hpos; now rewrite <- (slice_positive take skip)|].
    split; [intros Hzero; now rewrite Hzero in Hslice|].
    split; [now apply descending_tweetViews|].
    intros Hpos. rewrite length_map, (Permutation_length Hslice).
    now apply slice_length_le.
  - intros limit offset Hall.
    rewrite (searchTweets_views _ _ _ _ _ _ Hb), Hterm, getFeedTweets_views.
    fold matching. cbn [withTweets tweets].
    destruct (newestFirst Tweet.createdAt _ _ matching) as [page|] eqn:Hq;
      [|reflexivity].
    cbn [fst]. f_equal.
    rewrite filter_all; [reflexivity|].
    intros t Ht. apply (newestFirst_incl _ _ _ _ _ Hq) in Ht.
    exact (Hall t Ht).
Qed.

End Search.

Lemma searchTweets_blank_or_paged_witness :
  blank (js "  ") = true /\
  searchTweets (D := tableOrder) sampleMatch None (js "  ") None None sampleDB
  = (Respond 400 (js "Search query cannot be empty"), sampleDB) /\
  blank (js " third  one ") = false /\
  searchTerm (js " third  one ") = js "third & one" /\
  exists rs,
    searchTweets (D := tableOrder) sampleMatch None (js " third  one ")
      (Some (ofNat 1)) None sampleDB
    = (Return None rs, sampleDB) /\
    (length rs <= 1)%nat /\
    descending TweetResponse.createdAt rs.
Proof.
  destruct (searchTweets_blank_or_paged (HD := tableOrder_orderly) sampleMatch
              None (js "  ") sampleDB) as (_ & Hblank & _).
  destruct (searchTweets_blank_or_paged (HD := tableOrder_orderly) sampleMatch
              None (js " third  one ") sampleDB) as (_ & _ & Hpaged).
  split; [reflexivity|].
  split; [exact (Hblank None None eq_refl)|].
  split; [reflexivity|].
  destruct (Hpaged eq_refl) as (Hterm & _ & Hcounts & _).
  split; [rewrite Hterm; reflexivity|].
  destruct (Hcounts (Some 1%nat) None)
    as (rs & ordered & Hrun & _ & _ & _ & _ & Hdesc & Hlen).
  exists rs. split; [exact Hrun|].
  split; [apply Hlen; discriminate | exact Hdesc].
Defined.


(** * Further properties of the handlers *)

(** ** What the feed shows *)

Section FeedEntries.

Context {D : Database} {HD : Orderly D}.

(** X1.  In every feed answer, an entry's [hasLiked] is true exactly when
    the requester has a Like row on that tweet (requests without a user, or
    with user id 0, get [false] everywhere); every entry has an author row
    and shows that author's name, or ["unknown"] when the name is empty.
    The feed answers when [limit] and [offset] are counts or are omitted;
    the entries are as said whatever [limit] and [offset] are. *)
Theorem getFeedTweets_hasLiked_and_author
    (req_user : option JwtPayload.t) (limit offset : option nat) (db : DB) :
  let shown (r : TweetResponse.t) :=
    TweetResponse.hasLiked r = likedBy req_user db (TweetResponse.id r) /\
    exists author,
      findUser (TweetResponse.userId r) (users db) = Some author /\
      TweetResponse.username r
      = orString (Some (User.username author)) (js "unknown") in
  (exists rs,
      getFeedTweets req_user (option_map ofNat limit) (option_map ofNat offset)
        db
      = (Return None rs, db) /\
      Forall shown rs /\
      (truthyUserId req_user = None ->
       Forall (fun r => TweetResponse.hasLiked r = false) rs)) /\
  (forall (anyLimit anyOffset : option JsNumber) s rs db',
      getFeedTweets req_user anyLimit anyOffset db = (Return s rs, db') ->
      Forall shown rs /\
      (truthyUserId req_user = None ->
       Forall (fun r => TweetResponse.hasLiked r = false) rs)).
Proof.
  intros shown.
  assert (Hshown : forall page,
             Forall shown
               (map (tweetView req_user db) (filter (hasUser db) page)) /\
             (truthyUserId req_user = None ->
              Forall (fun r => TweetResponse.hasLiked r = false)
                     (map (tweetView req_user db)
                          (filter (hasUser db) page)))).
  { intros page. split.
    - apply Forall_forall. intros r Hr. apply in_map_iff in Hr.
      destruct Hr as (t & <- & Ht). apply filter_In in Ht.
      destruct Ht as [_ Hu]. unfold hasUser in Hu.
      split; [reflexivity|].
      unfold tweetView. cbn [TweetResponse.userId TweetResponse.username].
      destruct (findUser (Tweet.userId t) (users db)) as [author|];
        [|discriminate].
      exists author. split; reflexivity.
    - intros Hanon. apply Forall_forall. intros r Hr. apply in_map_iff in Hr.
      destruct Hr as (t & <- & _). unfold tweetView, likedBy.
      cbn [TweetResponse.hasLiked]. now rewrite Hanon. }
  split.
  - destruct (getFeedTweets_counts req_user limit offset db)
      as (page & ordered & Hrun & _).
    eexists. split; [exact Hrun | apply Hshown].
  - intros anyLimit anyOffset s rs db'. rewrite getFeedTweets_views.
    destruct (newestFirst _ _ _ _) as [page|]; [|discriminate].
    intros H. injection H as _ <- _. apply Hshown.
Qed.

Lemma firstn_add {A} a b (l : list A) :
  firstn (a + b) l = firstn a l ++ firstn b (skipn a l).
Proof.
  revert l. induction a as [|a IH]; intros l; simpl; [reflexivity|].
  destruct l as [|x r]; simpl.
  - now rewrite firstn_nil.
  - now rewrite IH.
Qed.

Lemma skipn_add {A} a b (l : list A) : skipn a (skipn b l) = skipn (b + a) l.
Proof.
  revert l. induction b as [|b IH]; intros l; simpl; [reflexivity|].
  destruct l as [|x r]; simpl; [now rewrite skipn_nil | apply IH].
Qed.

Lemma slice_add {A} a b skip (l : list A) :
  a <> 0%nat -> b <> 0%nat ->
  slice (a + b) skip l = slice a skip l ++ slice b (skip + a) l.
Proof.
  intros Ha Hb. rewrite !slice_positive by lia.
  now rewrite firstn_add, skipn_add.
Qed.

(** X2.  When no two tweets were created at the same time, consecutive
    pages of the feed concatenate: for page sizes [a] and [b] of at least
    one, the page of [a + b] tweets at [offset] is the page of [a] tweets at
    [offset] followed by the page of [b] tweets at [offset + a], entry by
    entry. *)
Theorem getFeedTweets_pages_concatenate
    (req_user : option JwtPayload.t) (a b offset : nat) (db : DB) :
  NoDup (map Tweet.createdAt (tweets db)) ->
  a <> 0%nat -> b <> 0%nat ->
  exists first second,
    getFeedTweets req_user (Some (ofNat a)) (Some (ofNat offset)) db
    = (Return None first, db) /\
    getFeedTweets req_user (Some (ofNat b)) (Some (ofNat (offset + a))) db
    = (Return None second, db) /\
    getFeedTweets req_user (Some (ofNat (a + b))) (Some (ofNat offset)) db
    = (Return None (first ++ second), db).
Proof.
  intros Hnd Ha Hb. rewrite !getFeedTweets_views. cbn [defaultTo].
  rewrite !(newestFirst_distinct Tweet.createdAt) by exact Hnd.
  do 2 eexists.
  split; [reflexivity|]. split; [reflexivity|].
  now rewrite slice_add, filter_app, map_app.
Qed.

End FeedEntries.

Lemma getFeedTweets_hasLiked_and_author_witness :
  truthyUserId None = None /\
  exists rs,
    getFeedTweets (D := tableOrder) None None None sampleDB
    = (Return None rs, sampleDB) /\
    Forall (fun r => TweetResponse.hasLiked r = false) rs.
Proof.
  split; [reflexivity|].
  destruct (getFeedTweets_hasLiked_and_author (HD := tableOrder_orderly)
              None None None sampleDB)
    as ((rs & Hrun & _ & Hanon) & _).
  exists rs. split; [exact Hrun|]. exact (Hanon eq_refl).
Defined.

Lemma sampleDB_times_differ : NoDup (map Tweet.createdAt (tweets sampleDB)).
Proof.
  simpl. repeat constructor; simpl; intuition discriminate.
Qed.

Lemma getFeedTweets_pages_concatenate_witness :
  NoDup (map Tweet.createdAt (tweets sampleDB)) /\
  exists first second,
    getFeedTweets (D := tableOrder) None (Some (ofNat 1)) (Some (ofNat 0))
      sampleDB
    = (Return None first, sampleDB) /\
    getFeedTweets (D := tableOrder) None (Some (ofNat 2)) (Some (ofNat 1))
      sampleDB
    = (Return None second, sampleDB) /\
    getFeedTweets (D := tableOrder) None (Some (ofNat 3)) (Some (ofNat 0))
      sampleDB
    = (Return None (first ++ second), sampleDB) /\
    map TweetResponse.id first = [2] /\
    map TweetResponse.id second = [3; 1].
Proof.
  split; [exact sampleDB_times_differ|].
  assert (H1 : 1%nat <> 0%nat) by discriminate.
  assert (H2 : 2%nat <> 0%nat) by discriminate.
  destruct (getFeedTweets_pages_concatenate (HD := tableOrder_orderly) None
              1 2 0 sampleDB sampleDB_times_differ H1 H2)
    as (first & second & Hfirst & Hsecond & Hboth).
  exists first, second.
  split; [exact Hfirst|]. split; [exact Hsecond|]. split; [exact Hboth|].
  vm_compute in Hfirst. injection Hfirst as <-.
  vm_compute in Hsecond. injection Hsecond as <-.
  split; reflexivity.
Defined.

(** ** One tweet *)

Lemma getTweetById_view req_user (tweetId : JsNumber) (id : Id) db t :
  columnValue tweetId = Some id ->
  findTweet id (tweets db) = Some t ->
  getTweetById req_user tweetId db
  = (Return None (tweetView req_user db t), db).
Proof.
  intros Hc Ht.
  unfold getTweetById. rewrite bind_column, Hc.
  unfold bind, TweetRepo.findOne_withUser, query, ret.
  rewrite Ht. cbn [option_map].
  pose proof (someLike_currentUserLikes req_user [Tweet.id t] db) as H.
  unfold currentUserLikes in H.
  destruct (truthyUserId req_user) as [uid|] eqn:Hu.
  - unfold LikeRepo.find_byUser_tweet, LikeRepo.find_byUser_tweetIn,
      query in *.
    cbn [fst TweetRepo.withUser].
    rewrite <- (tweetResponse_tweetView req_user
                  (filter (fun l => (Like.userId l =? uid)
                                    && (Like.tweetId l =? Tweet.id t))
                          (likes db)) db t).
    + reflexivity.
    + rewrite <- (H _ (Tweet.id t) eq_refl (or_introl eq_refl)).
      f_equal. apply filter_ext. intros l. simpl.
      now rewrite orb_false_r.
  - cbn [fst TweetRepo.withUser ret].
    rewrite <- (tweetResponse_tweetView req_user [] db t); [reflexivity|].
    exact (H [] (Tweet.id t) eq_refl (or_introl eq_refl)).
Qed.

Lemma getTweetById_none req_user (tweetId : JsNumber) (id : Id) db :
  columnValue tweetId = Some id ->
  findTweet id (tweets db) = None ->
  getTweetById req_user tweetId db = (Respond 404 (js "Tweet not found"), db).
Proof.
  intros Hc Hn. unfold getTweetById. rewrite bind_column, Hc.
  unfold bind, TweetRepo.findOne_withUser, query.
  now rewrite Hn.
Qed.

(** X3.  For a tweet id that is a value of the id column (an integer of its
    range), [getTweetById] answers 404 exactly when no tweet has the id, and
    otherwise shows the tweet with that id, with the author's name (or
    ["unknown"]) and [hasLiked] true exactly when the requester has a Like
    row on it.  For any other number the query fails and the request ends in
    an exception (status 500).  The store is left as it was. *)
Theorem getTweetById_found_or_404
    (req_user : option JwtPayload.t) (tweetId : JsNumber) (db : DB) :
  (columnValue tweetId = None ->
   getTweetById req_user tweetId db = (Throw (MessageOf QueryFailed), db) /\
   httpStatus None (fst (getTweetById req_user tweetId db)) = 500) /\
  (forall id,
      columnValue tweetId = Some id ->
      (httpStatus None (fst (getTweetById req_user tweetId db)) = 404
       <-> findTweet id (tweets db) = None) /\
      (findTweet id (tweets db) = None ->
       getTweetById req_user tweetId db
       = (Respond 404 (js "Tweet not found"), db)) /\
      (forall t,
          findTweet id (tweets db) = Some t ->
          getTweetById req_user tweetId db
          = (Return None (tweetView req_user db t), db) /\
          TweetResponse.id (tweetView req_user db t) = id)) /\
  snd (getTweetById req_user tweetId db) = db.
Proof.
  split; [|split].
  - intros Hc. unfold getTweetById. rewrite bind_column, Hc.
    split; reflexivity.
  - intros id Hc.
    split; [|split; [now apply getTweetById_none|]].
    + destruct (findTweet id (tweets db)) as [t|] eqn:Ht.
      * rewrite (getTweetById_view _ _ _ _ _ Hc Ht). simpl.
        split; discriminate.
      * rewrite (getTweetById_none _ _ _ _ Hc Ht). simpl. tauto.
    + intros t Ht. split; [now apply (getTweetById_view _ _ id)|].
      exact (findTweet_id _ _ _ Ht).
  - apply readOnly_getTweetById.
Qed.

Lemma getTweetById_found_or_404_witness :
  (columnValue 4294967297 = None /\
   getTweetById (Some aliceJwt) 4294967297 sampleDB
   = (Throw (MessageOf QueryFailed), sampleDB)) /\
  (columnValue 9 = Some 9 /\
   findTweet 9 (tweets sampleDB) = None /\
   getTweetById (Some aliceJwt) 9 sampleDB
   = (Respond 404 (js "Tweet not found"), sampleDB)) /\
  (columnValue 1 = Some 1 /\
   findTweet 1 (tweets sampleDB)
   = Some (Tweet.mk 1 (js "https://img/1") (Some (js "first")) 200 1) /\
   fst (getTweetById (Some aliceJwt) 1 sampleDB)
   = Return None
       (TweetResponse.mk 1 (js "https://img/1") (Some (js "first")) 200 1
          (js "alice") None true)).
Proof.
  destruct (getTweetById_found_or_404 (Some aliceJwt) 4294967297 sampleDB)
    as (Hfail & _).
  destruct (getTweetById_found_or_404 (Some aliceJwt) 9 sampleDB)
    as (_ & Hnine & _).
  destruct (getTweetById_found_or_404 (Some aliceJwt) 1 sampleDB)
    as (_ & Hone & _).
  split; [|split].
  - split; [reflexivity|]. exact (proj1 (Hfail eq_refl)).
  - split; [reflexivity|]. split; [reflexivity|].
    destruct (Hnine 9 eq_refl) as (_ & Hnone & _). exact (Hnone eq_refl).
  - split; [reflexivity|]. split; [reflexivity|].
    destruct (Hone 1 eq_refl) as (_ & _ & Hsome).
    destruct (Hsome _ eq_refl) as [-> _]. reflexivity.
Defined.

(** ** Likes: unlike, and like followed by unlike *)

Lemma countLikes_filter_out uid tweetId l :
  countLikes uid tweetId
    (filter (fun k => negb ((Like.tweetId k =? tweetId)
                            && (Like.userId k =? uid))) l) = 0%nat.
Proof.
  unfold countLikes. induction l as [|k r IH]; simpl; [reflexivity|].
  destruct (Like.tweetId k =? tweetId) eqn:Et,
           (Like.userId k =? uid) eqn:Eu; simpl;
    rewrite ?Et, ?Eu; simpl; exact IH.
Qed.

Lemma filter_filter_absorb {A} (p q : A -> bool) l :
  (forall x, q x = true -> p x = true) ->
  filter q (filter p l) = filter q l.
Proof.
  intros H. induction l as [|x r IH]; simpl; [reflexivity|].
  destruct (p x) eqn:Ep; simpl.
  - now rewrite IH.
  - destruct (q x) eqn:Eq; [|exact IH].
    apply H in Eq. congruence.
Qed.

Lemma countLikes_filter_other uid tweetId u t l :
  (u, t) <> (uid, tweetId) ->
  countLikes u t
    (filter (fun k => negb ((Like.tweetId k =? tweetId)
                            && (Like.userId k =? uid))) l)
  = countLikes u t l.
Proof.
  intros Hne. unfold countLikes. rewrite filter_filter_absorb; [reflexivity|].
  intros k Hk. apply andb_prop in Hk. destruct Hk as [E1 E2].
  apply Z.eqb_eq in E1, E2.
  destruct ((Like.tweetId k =? tweetId) && (Like.userId k =? uid)) eqn:E;
    [|reflexivity].
  apply andb_prop in E. destruct E as [E3 E4].
  apply Z.eqb_eq in E3, E4. exfalso. apply Hne. congruence.
Qed.

Lemma filter_none_id {A} (p : A -> bool) l :
  filter p l = [] -> filter (fun x => negb (p x)) l = l.
Proof.
  induction l as [|x r IH]; simpl; [reflexivity|].
  destruct (p x); simpl; [discriminate|]. intros H. now rewrite IH.
Qed.

Lemma unlikeTweet_run cu (tweetId : JsNumber) db :
  unlikeTweet cu tweetId db =
  match columnValue tweetId with
  | None => (Throw (MessageOf QueryFailed), db)
  | Some id =>
      (Return None (js "Tweet unliked successfully"),
       mkDB (users db) (tweets db) (comments db)
            (filter (fun l => negb ((Like.tweetId l =? id)
                                    && (Like.userId l =? JwtPayload.userId cu)))
                    (likes db))
            (follows db) (tweet_seq db) (comment_seq db) (like_seq db)
            (follow_seq db))
  end.
Proof.
  unfold unlikeTweet. rewrite bind_column.
  now destruct (columnValue tweetId).
Qed.

(** X4.  For a tweet id that is a value of the id column, [unlikeTweet]
    answers with success (status 200), also when there is nothing to remove;
    afterwards the current user has no Like row on the tweet (duplicates are
    removed too), the Like rows of every other (user, tweet) pair are
    counted as before, and a store without such a row is left exactly as it
    was.  For any other number the delete fails: the request ends in an
    exception (status 500) and the store is left as it was. *)
Theorem unlikeTweet_removes_every_like
    (currentUser : JwtPayload.t) (tweetId : JsNumber) (db : DB) :
  let uid := JwtPayload.userId currentUser in
  let db' := snd (unlikeTweet currentUser tweetId db) in
  (columnValue tweetId = None ->
   unlikeTweet currentUser tweetId db = (Throw (MessageOf QueryFailed), db) /\
   httpStatus (Some 200) (fst (unlikeTweet currentUser tweetId db)) = 500) /\
  (forall id,
      columnValue tweetId = Some id ->
      fst (unlikeTweet currentUser tweetId db)
      = Return None (js "Tweet unliked successfully") /\
      httpStatus (Some 200) (fst (unlikeTweet currentUser tweetId db)) = 200 /\
      countLikes uid id (likes db') = 0%nat /\
      (forall u t, (u, t) <> (uid, id) ->
                   countLikes u t (likes db') = countLikes u t (likes db)) /\
      (countLikes uid id (likes db) = 0%nat -> db' = db)).
Proof.
  intros uid db'. subst uid db'. rewrite unlikeTweet_run.
  split.
  - intros ->. split; reflexivity.
  - intros id ->. cbn [fst snd likes].
    split; [reflexivity|]. split; [reflexivity|].
    split; [apply countLikes_filter_out|].
    split; [intros u t; apply countLikes_filter_other|].
    unfold countLikes. intros H0. apply length_zero_iff_nil in H0.
    destruct db as [us ts cs ls fs s1 s2 s3 s4]. cbn in *. f_equal.
    rewrite <- (filter_none_id _ ls H0) at 2.
    apply filter_ext. intros k. now rewrite andb_comm.
Qed.

Lemma unlikeTweet_removes_every_like_witness :
  (columnValue 1 = Some 1 /\
   countLikes (JwtPayload.userId aliceJwt) 1 (likes sampleDB) = 1%nat /\
   fst (unlikeTweet aliceJwt 1 sampleDB)
   = Return None (js "Tweet unliked successfully") /\
   countLikes (JwtPayload.userId aliceJwt) 1
     (likes (snd (unlikeTweet aliceJwt 1 sampleDB))) = 0%nat /\
   likes (snd (unlikeTweet aliceJwt 1 sampleDB)) = []) /\
  (countLikes (JwtPayload.userId bobJwt) 1 (likes sampleDB) = 0%nat /\
   snd (unlikeTweet bobJwt 1 sampleDB) = sampleDB) /\
  (columnValue Fraction = None /\
   unlikeTweet aliceJwt Fraction sampleDB
   = (Throw (MessageOf QueryFailed), sampleDB)).
Proof.
  destruct (unlikeTweet_removes_every_like aliceJwt 1 sampleDB)
    as (_ & Halice).
  destruct (unlikeTweet_removes_every_like bobJwt 1 sampleDB) as (_ & Hbob).
  destruct (unlikeTweet_removes_every_like aliceJwt Fraction sampleDB)
    as (Hfail & _).
  destruct (Halice 1 eq_refl) as (Hrun & _ & Hgone & _).
  destruct (Hbob 1 eq_refl) as (_ & _ & _ & _ & Hsame).
  split; [|split].
  - split; [reflexivity|]. split; [reflexivity|]. split; [exact Hrun|].
    split; [exact Hgone | reflexivity].
  - split; [reflexivity|]. exact (Hsame eq_refl).
  - split; [reflexivity|]. exact (proj1 (Hfail eq_refl)).
Defined.

Lemma existsb_none {A} (p : A -> bool) l :
  (forall x, In x l -> p x = false) -> existsb p l = false.
Proof.
  induction l as [|x r IH]; simpl; intros H; [reflexivity|].
  rewrite (H x (or_introl eq_refl)), IH; auto.
Qed.

(** X5.  For a user with a row and a tweet named by an id of the column's
    range: after [likeTweet], which then succeeds, the requester's
    [getTweetById] reports [hasLiked = true], unless the user id is 0: the
    handlers take a user id of 0 for no user, never look its likes up, and
    report [false] although the Like row exists.  After the following
    [unlikeTweet] the tweet is reported as not liked, and if the user had no
    like on the tweet before, the Like table is back to what it was. *)
Theorem like_then_unlike
    (cu : JwtPayload.t) (tweetId : Id) (now : Timestamp) (db : DB)
    (t : Tweet.t) (u : User.t) :
  int4 tweetId = true ->
  findTweet tweetId (tweets db) = Some t ->
  findUser (JwtPayload.userId cu) (users db) = Some u ->
  let liked := snd (likeTweet cu tweetId now db) in
  let unliked := snd (unlikeTweet cu tweetId liked) in
  fst (likeTweet cu tweetId now db)
  = Return None (js "Tweet liked successfully") /\
  countLikes (JwtPayload.userId cu) tweetId (likes liked)
  = S (countLikes (JwtPayload.userId cu) tweetId (likes db)) /\
  (exists r, getTweetById (Some cu) tweetId liked = (Return None r, liked) /\
             tweetOf r = t /\
             TweetResponse.hasLiked r = negb (JwtPayload.userId cu =? 0)) /\
  (exists r, getTweetById (Some cu) tweetId unliked = (Return None r, unliked) /\
             tweetOf r = t /\ TweetResponse.hasLiked r = false) /\
  (countLikes (JwtPayload.userId cu) tweetId (likes db) = 0%nat ->
   likes unliked = likes db).
Proof.
  intros Hi Ht Hu liked unliked.
  assert (Hc : columnValue tweetId = Some tweetId)
    by now apply columnValue_Integer.
  assert (Hliked : liked
            = mkDB (users db) (tweets db) (comments db)
                (likes db
                 ++ [Like.mk (like_seq db) now (JwtPayload.userId cu) tweetId])
                (follows db) (tweet_seq db) (comment_seq db) (like_seq db + 1)
                (follow_seq db)).
  { unfold liked. now rewrite (likeTweet_store _ _ _ _ _ _ Hi Ht Hu). }
  assert (Hunliked : unliked
            = mkDB (users db) (tweets db) (comments db)
                (filter (fun l => negb ((Like.tweetId l =? tweetId)
                                        && (Like.userId l
                                            =? JwtPayload.userId cu)))
                        (likes liked))
                (follows db) (tweet_seq db) (comment_seq db) (like_seq db + 1)
                (follow_seq db)).
  { unfold unliked. rewrite unlikeTweet_run, Hc, Hliked. reflexivity. }
  pose proof (findTweet_id _ _ _ Ht) as Hid.
  split; [now rewrite (likeTweet_store _ _ _ _ _ _ Hi Ht Hu)|].
  split.
  { rewrite Hliked. cbn [likes]. rewrite countLikes_snoc.
    cbn [Like.userId Like.tweetId]. rewrite !Z.eqb_refl. simpl. lia. }
  split; [|split].
  - exists (tweetView (Some cu) liked t).
    split; [apply (getTweetById_view _ _ tweetId); [exact Hc|];
            now rewrite Hliked|].
    split; [now destruct t|].
    unfold tweetView, likedBy, truthyUserId. cbn [TweetResponse.hasLiked].
    destruct (JwtPayload.userId cu =? 0); [reflexivity|].
    rewrite Hliked. cbn [likes negb].
    rewrite existsb_app. simpl. rewrite Hid, !Z.eqb_refl. simpl.
    apply orb_true_r.
  - exists (tweetView (Some cu) unliked t).
    split; [apply (getTweetById_view _ _ tweetId); [exact Hc|];
            now rewrite Hunliked|].
    split; [now destruct t|].
    unfold tweetView, likedBy, truthyUserId. cbn [TweetResponse.hasLiked].
    destruct (JwtPayload.userId cu =? 0); [reflexivity|].
    rewrite Hunliked. cbn [likes].
    rewrite existsb_filter. apply existsb_none. intros k _. rewrite Hid.
    destruct (Like.tweetId k =? tweetId), (Like.userId k =? JwtPayload.userId cu);
      reflexivity.
  - intros H0. rewrite Hunliked, Hliked. cbn [likes]. rewrite filter_snoc.
    cbn [Like.tweetId Like.userId]. rewrite !Z.eqb_refl. simpl.
    rewrite app_nil_r.
    unfold countLikes in H0. apply length_zero_iff_nil in H0.
    rewrite <- (filter_none_id _ (likes db) H0) at 2.
    apply filter_ext. intros k. now rewrite andb_comm.
Qed.

Lemma like_then_unlike_witness :
  (int4 2 = true /\
   findTweet 2 (tweets sampleDB)
   = Some (Tweet.mk 2 (js "https://img/2") None 300 2) /\
   findUser (JwtPayload.userId aliceJwt) (users sampleDB) = Some alice /\
   (exists r,
       getTweetById (Some aliceJwt) 2 (snd (likeTweet aliceJwt 2 400 sampleDB))
       = (Return None r, snd (likeTweet aliceJwt 2 400 sampleDB)) /\
       TweetResponse.hasLiked r = true) /\
   countLikes (JwtPayload.userId aliceJwt) 2 (likes sampleDB) = 0%nat /\
   likes (snd (unlikeTweet aliceJwt 2 (snd (likeTweet aliceJwt 2 400 sampleDB))))
   = likes sampleDB) /\
  (let zero := User.mk 0 (js "zero") (js "zero@example.org") (js "hash") None
                 None 90 in
   let db := mkDB [zero; alice] (tweets sampleDB) [] [] [] 4 1 1 1 in
   findUser 0 (users db) = Some zero /\
   countLikes 0 2 (likes (snd (likeTweet (JwtPayload.mk 0) 2 400 db)))
   = 1%nat /\
   exists r,
     getTweetById (Some (JwtPayload.mk 0)) 2
       (snd (likeTweet (JwtPayload.mk 0) 2 400 db))
     = (Return None r, snd (likeTweet (JwtPayload.mk 0) 2 400 db)) /\
     TweetResponse.hasLiked r = false).
Proof.
  split.
  - destruct (like_then_unlike aliceJwt 2 400 sampleDB
                (Tweet.mk 2 (js "https://img/2") None 300 2) alice
                eq_refl eq_refl eq_refl)
      as (_ & _ & (r & Hget & _ & Hliked) & _ & Hback).
    split; [reflexivity|]. split; [reflexivity|]. split; [reflexivity|].
    split; [exists r; split; [exact Hget | exact Hliked]|].
    split; [reflexivity|]. exact (Hback eq_refl).
  - intros zero db.
    destruct (like_then_unlike (JwtPayload.mk 0) 2 400 db
                (Tweet.mk 2 (js "https://img/2") None 300 2) zero
                eq_refl eq_refl eq_refl)
      as (_ & Hcount & (r & Hget & _ & Hliked) & _).
    split; [reflexivity|]. split; [exact Hcount|].
    exists r. split; [exact Hget | exact Hliked].
Defined.

(** ** Follows: unfollow, and follow followed by unfollow *)

Lemma find_filter_out {A} (p : A -> bool) l :
  find p (filter (fun x => negb (p x)) l) = None.
Proof.
  induction l as [|x r IH]; simpl; [reflexivity|].
  destruct (p x) eqn:E; simpl; [exact IH | now rewrite E].
Qed.

(** X6.  For a target that is a value of the id column, [unfollowUser]
    answers 404 exactly when the requester has no Follow row to the target,
    and then leaves the store as it was; otherwise it succeeds, no row from
    the requester to the target is left, every other Follow row stays, and
    no other table changes.  For any other number the delete fails: the
    request ends in an exception (status 500) and the store is left as it
    was. *)
Theorem unfollowUser_removes_the_pair
    (cu : JwtPayload.t) (target : JsNumber) (db : DB) :
  let uid := JwtPayload.userId cu in
  let db' := snd (unfollowUser (Some cu) target db) in
  (columnValue target = None ->
   unfollowUser (Some cu) target db = (Throw (MessageOf QueryFailed), db) /\
   httpStatus (Some 200) (fst (unfollowUser (Some cu) target db)) = 500) /\
  (forall followed,
      columnValue target = Some followed ->
      (httpStatus (Some 200) (fst (unfollowUser (Some cu) target db)) = 404
       <-> find (FollowRepo.isPair uid followed) (follows db) = None) /\
      (find (FollowRepo.isPair uid followed) (follows db) = None ->
       unfollowUser (Some cu) target db
       = (Respond 404 (js "Follow relationship not found."), db)) /\
      (find (FollowRepo.isPair uid followed) (follows db) <> None ->
       httpStatus (Some 200) (fst (unfollowUser (Some cu) target db)) = 200 /\
       find (FollowRepo.isPair uid followed) (follows db') = None /\
       (forall f, In f (follows db) ->
                  FollowRepo.isPair uid followed f = false ->
                  In f (follows db')) /\
       users db' = users db /\ tweets db' = tweets db /\
       comments db' = comments db /\ likes db' = likes db)).
Proof.
  intros uid db'. subst uid db'. rewrite unfollowUser_run.
  split.
  - intros ->. split; reflexivity.
  - intros followed ->.
    destruct (filter (FollowRepo.isPair (JwtPayload.userId cu) followed)
                     (follows db)) as [|f0 fs] eqn:E.
    + pose proof (proj2 (find_none_filter _ _) E) as Hn.
      rewrite (filter_none_id _ _ E).
      replace (mkDB (users db) (tweets db) (comments db) (likes db)
                 (follows db) (tweet_seq db) (comment_seq db) (like_seq db)
                 (follow_seq db)) with db by now destruct db.
      split; [simpl; tauto|]. split; [reflexivity|]. congruence.
    + assert (Hs : find (FollowRepo.isPair (JwtPayload.userId cu) followed)
                        (follows db) <> None).
      { intros Hn. apply find_none_filter in Hn. congruence. }
      split; [simpl; split; [discriminate | congruence]|].
      split; [congruence|]. intros _.
      cbn [fst snd follows users tweets comments likes].
      split; [reflexivity|]. split; [apply find_filter_out|].
      split; [|repeat split].
      intros f Hin Hp. apply filter_In. split; [exact Hin | now rewrite Hp].
Qed.

Lemma unfollowUser_removes_the_pair_witness :
  (columnValue 2 = Some 2 /\
   find (FollowRepo.isPair (JwtPayload.userId aliceJwt) 2) (follows sampleDB)
   = None /\
   unfollowUser (Some aliceJwt) 2 sampleDB
   = (Respond 404 (js "Follow relationship not found."), sampleDB)) /\
  (columnValue 1 = Some 1 /\
   find (FollowRepo.isPair (JwtPayload.userId bobJwt) 1) (follows sampleDB)
   <> None /\
   httpStatus (Some 200) (fst (unfollowUser (Some bobJwt) 1 sampleDB)) = 200 /\
   find (FollowRepo.isPair (JwtPayload.userId bobJwt) 1)
        (follows (snd (unfollowUser (Some bobJwt) 1 sampleDB))) = None) /\
  (columnValue (-2147483649) = None /\
   unfollowUser (Some bobJwt) (-2147483649) sampleDB
   = (Throw (MessageOf QueryFailed), sampleDB)).
Proof.
  destruct (unfollowUser_removes_the_pair aliceJwt 2 sampleDB) as (_ & Halice).
  destruct (unfollowUser_removes_the_pair bobJwt 1 sampleDB) as (_ & Hbob).
  destruct (unfollowUser_removes_the_pair bobJwt (-2147483649) sampleDB)
    as (Hfail & _).
  destruct (Halice 2 eq_refl) as (_ & Hnone & _).
  destruct (Hbob 1 eq_refl) as (_ & _ & Hsome).
  assert (Hrow : find (FollowRepo.isPair (JwtPayload.userId bobJwt) 1)
                      (follows sampleDB) <> None) by discriminate.
  split; [|split].
  - split; [reflexivity|]. split; [reflexivity|]. exact (Hnone eq_refl).
  - split; [reflexivity|]. split; [exact Hrow|].
    destruct (Hsome Hrow) as (H200 & Hgone & _).
    split; [exact H200 | exact Hgone].
  - split; [reflexivity|]. exact (proj1 (Hfail eq_refl)).
Defined.

(** X7.  After a successful [followUser], the same request again is
    answered with 409 and changes nothing; [unfollowUser] then succeeds and
    brings the Follow table back to what it was before the follow, and a
    second [unfollowUser] is answered with 404. *)
Theorem follow_then_unfollow
    (a : JwtPayload.t) (b : Id) (now : Timestamp) (db db1 : DB)
    (s : option Z) (m : JsString) :
  followUser (Some a) b now db = (Return s m, db1) ->
  (forall now',
      followUser (Some a) b now' db1
      = (Respond 409 (js "You are already following this user."), db1)) /\
  exists m' db2,
    unfollowUser (Some a) b db1 = (Return None m', db2) /\
    follows db2 = follows db /\
    users db2 = users db /\
    unfollowUser (Some a) b db2
    = (Respond 404 (js "Follow relationship not found."), db2).
Proof.
  intros H. apply followUser_success in H.
  destruct H as (Hne & Hi & Hu & Hfresh & ->).
  assert (Hc : columnValue b = Some b) by now apply columnValue_Integer.
  assert (Hself : FollowRepo.isPair (JwtPayload.userId a) b
                    (Follow.mk (follow_seq db) (JwtPayload.userId a) b now)
                  = true).
  { unfold FollowRepo.isPair. simpl. now rewrite !Z.eqb_refl. }
  pose proof (proj1 (find_none_filter _ _) Hfresh) as Hnone.
  split.
  - intros now'. rewrite followUser_unchanged_when_paired.
    + apply Z.eqb_neq in Hne. rewrite Hne, Hi. cbn [users].
      destruct (findUser b (users db)); [reflexivity | congruence].
    + cbn [follows]. rewrite existsb_app. simpl. rewrite Hself.
      apply orb_true_r.
  - rewrite unfollowUser_run, Hc. cbn [follows users tweets comments likes
      tweet_seq comment_seq like_seq follow_seq].
    rewrite !filter_snoc, Hself, Hnone. simpl.
    rewrite app_nil_r, (filter_none_id _ _ Hnone).
    do 2 eexists. split; [reflexivity|].
    split; [reflexivity|]. split; [reflexivity|].
    rewrite unfollowUser_run, Hc. cbn [follows]. rewrite Hnone.
    now rewrite (filter_none_id _ _ Hnone).
Qed.

Lemma follow_then_unfollow_witness :
  followUser (Some aliceJwt) 2 400 sampleDB
  = (Return (Some 200) (js "Successfully followed user 2"),
     sampleDB_alice_follows_bob) /\
  followUser (Some aliceJwt) 2 500 sampleDB_alice_follows_bob
  = (Respond 409 (js "You are already following this user."),
     sampleDB_alice_follows_bob) /\
  exists m' db2,
    unfollowUser (Some aliceJwt) 2 sampleDB_alice_follows_bob
    = (Return None m', db2) /\
    follows db2 = follows sampleDB.
Proof.
  assert (H : followUser (Some aliceJwt) 2 400 sampleDB
              = (Return (Some 200) (js "Successfully followed user 2"),
                 sampleDB_alice_follows_bob)) by reflexivity.
  destruct (follow_then_unfollow aliceJwt 2 400 sampleDB
              sampleDB_alice_follows_bob _ _ H)
    as (H409 & m' & db2 & Hun & Hback & _).
  split; [exact H|]. split; [exact (H409 500)|].
  exists m', db2. split; [exact Hun | exact Hback].
Defined.

(** ** Invariants of the store *)

Lemma preserves_refl P db : preserves P db db.
Proof. intros H. exact H. Qed.

Lemma preserves_trans P a b c :
  preserves P a b -> preserves P b c -> preserves P a c.
Proof. unfold preserves. auto. Qed.

Lemma NoDup_map_filter {A B} (key : A -> B) (p : A -> bool) l :
  NoDup (map key l) -> NoDup (map key (filter p l)).
Proof.
  induction l as [|x r IH]; simpl; intros Hnd; [constructor|].
  inversion Hnd as [|? ? Hnin Hr]; subst.
  destruct (p x); simpl; [|now apply IH].
  constructor; [|now apply IH].
  intros Hin. apply Hnin. apply in_map_iff in Hin.
  destruct Hin as (y & Hy & Hin). apply filter_In in Hin.
  apply in_map_iff. exists y. tauto.
Qed.

Section FreshKeys.

Context {A : Type} (key : A -> Z).

(** Appending a row keyed by the sequence keeps the keys below the next
    sequence value and distinct. *)
Lemma fresh_snoc (seq : Z) (l : list A) (x : A) :
  key x = seq ->
  Forall (fun y => key y < seq) l /\ NoDup (map key l) ->
  Forall (fun y => key y < seq + 1) (l ++ [x]) /\ NoDup (map key (l ++ [x])).
Proof.
  intros Hx [Hlt Hnd]. split.
  - apply Forall_app. split.
    + eapply Forall_impl; [|exact Hlt]. intros y Hy. simpl in Hy. lia.
    + constructor; [lia | constructor].
  - rewrite map_app. simpl.
    apply NoDup_rev in Hnd. rewrite <- (rev_involutive (_ ++ _)).
    apply NoDup_rev. rewrite rev_app_distr. simpl.
    constructor; [|exact Hnd].
    rewrite <- in_rev. intros Hin. apply in_map_iff in Hin.
    destruct Hin as (y & Hy & Hin).
    rewrite Forall_forall in Hlt. specialize (Hlt y Hin). simpl in Hlt. lia.
Qed.

(** A key that was drawn and not used leaves the keys below the next
    sequence value. *)
Lemma drawn_key (seq : Z) (l : list A) :
  Forall (fun y => key y < seq) l /\ NoDup (map key l) ->
  Forall (fun y => key y < seq + 1) l /\ NoDup (map key l).
Proof.
  intros [Hlt Hnd]. split; [|exact Hnd].
  eapply Forall_impl; [|exact Hlt]. intros y Hy. simpl in Hy. lia.
Qed.

Lemma filter_keeps_keys (p : A -> bool) (seq : Z) l :
  Forall (fun y => key y < seq) l /\ NoDup (map key l) ->
  Forall (fun y => key y < seq) (filter p l) /\ NoDup (map key (filter p l)).
Proof.
  intros [Hlt Hnd]. split; [|now apply NoDup_map_filter].
  apply Forall_forall. intros y Hy. apply filter_In in Hy.
  rewrite Forall_forall in Hlt. now apply Hlt.
Qed.

End FreshKeys.

Lemma keys_TweetRepo_save now userId imageUrl tweetText :
  respects (preserves keysWellFormed)
    (TweetRepo.save now userId imageUrl tweetText).
Proof.
  intros db. unfold TweetRepo.save.
  destruct (findUser userId (users db));
    intros (Ht & Hc & Hl & Hf); cbn [snd];
    (split; [|repeat split; tauto]).
  - now apply (fresh_snoc Tweet.id).
  - now apply (drawn_key Tweet.id).
Qed.

Lemma keys_CommentRepo_save now userId tweetId content :
  respects (preserves keysWellFormed)
    (CommentRepo.save now userId tweetId content).
Proof.
  intros db. unfold CommentRepo.save.
  destruct (findUser userId (users db)), (findTweet tweetId (tweets db));
    intros (Ht & Hc & Hl & Hf); cbn [snd];
    (split; [exact Ht|]; split; [|split; assumption]);
    first [ now apply (fresh_snoc Comment.id)
          | now apply (drawn_key Comment.id) ].
Qed.

Lemma keys_LikeRepo_save now userId tweetId :
  respects (preserves keysWellFormed) (LikeRepo.save now userId tweetId).
Proof.
  intros db. unfold LikeRepo.save.
  destruct (findUser userId (users db)), (findTweet tweetId (tweets db));
    intros (Ht & Hc & Hl & Hf); cbn [snd];
    (split; [exact Ht|]; split; [exact Hc|]; split; [|exact Hf]);
    first [ now apply (fresh_snoc Like.id) | now apply (drawn_key Like.id) ].
Qed.

Lemma keys_FollowRepo_save now followerId followedId :
  respects (preserves keysWellFormed)
    (FollowRepo.save now followerId followedId).
Proof.
  intros db. unfold FollowRepo.save.
  intros (Ht & Hc & Hl & Hf). cbn [snd].
  split; [exact Ht|]. split; [exact Hc|]. split; [exact Hl|].
  now apply (fresh_snoc Follow.id).
Qed.

Lemma keys_LikeRepo_delete tweetId userId :
  respects (preserves keysWellFormed) (LikeRepo.delete tweetId userId).
Proof.
  intros db (Ht & Hc & Hl & Hf). cbn [snd LikeRepo.delete].
  split; [exact Ht|]. split; [exact Hc|]. split; [|exact Hf].
  now apply (filter_keeps_keys Like.id).
Qed.

Lemma keys_FollowRepo_delete followerId followedId :
  respects (preserves keysWellFormed)
    (FollowRepo.delete followerId followedId).
Proof.
  intros db (Ht & Hc & Hl & Hf). cbn [snd FollowRepo.delete].
  split; [exact Ht|]. split; [exact Hc|]. split; [exact Hl|].
  now apply (filter_keeps_keys Follow.id).
Qed.

#[local] Hint Resolve keys_TweetRepo_save keys_CommentRepo_save
  keys_LikeRepo_save keys_FollowRepo_save keys_LikeRepo_delete
  keys_FollowRepo_delete : store.

Ltac keeps P := through_binds (preserves_refl P) (preserves_trans P).

(** Turns a goal about the store after a route into one about its
    handler. *)
Ltac route_handler P :=
  match goal with
  | Hp : P ?db |- P (snd (?h ?db)) =>
      revert Hp; revert db; change (respects (preserves P) h)
  end.

Ltac unfold_handlers :=
  unfold createTweet, upload, getFeedTweets, searchTweets, getTweetById,
    followUser, unfollowUser, getUserProfile, getUserFollowers,
    getUserFollowing, getUserLikes, likeTweet, unlikeTweet, createComment,
    getComments, UserRepo.findOneBy_id, TweetRepo.findOneBy_id,
    TweetRepo.findOne_withUser, TweetRepo.find_newestFirst,
    TweetRepo.search, LikeRepo.find_byUser_tweet,
    LikeRepo.find_byUser_withUserTweet, CommentRepo.find_byTweet,
    FollowRepo.findOneBy_pair, FollowRepo.count_followed,
    FollowRepo.count_follower, FollowRepo.find_followed_withFollower,
    FollowRepo.find_follower_withFollowed.

Lemma findTweet_app i l l' :
  findTweet i l <> None -> findTweet i (l ++ l') <> None.
Proof.
  unfold findTweet. induction l as [|t r IH]; simpl; [congruence|].
  destruct (Tweet.id t =? i); [discriminate | exact IH].
Qed.

Lemma refs_TweetRepo_save now userId imageUrl tweetText :
  respects (preserves referencesResolve)
    (TweetRepo.save now userId imageUrl tweetText).
Proof.
  intros db. unfold TweetRepo.save.
  destruct (findUser userId (users db)) eqn:Hu; [|intros H; exact H].
  intros (Ht & Hc & Hl). cbn [snd]. unfold referencesResolve.
  cbn [users tweets comments likes].
  split; [|split].
  - apply Forall_app. split; [exact Ht|].
    constructor; [|constructor]. simpl. congruence.
  - eapply Forall_impl; [|exact Hc]. intros c [H1 H2].
    split; [exact H1 | now apply findTweet_app].
  - eapply Forall_impl; [|exact Hl]. intros l [H1 H2].
    split; [exact H1 | now apply findTweet_app].
Qed.

Lemma refs_CommentRepo_save now userId tweetId content :
  respects (preserves referencesResolve)
    (CommentRepo.save now userId tweetId content).
Proof.
  intros db. unfold CommentRepo.save.
  destruct (findUser userId (users db)) eqn:Hu; [|intros H; exact H].
  destruct (findTweet tweetId (tweets db)) eqn:Ht; [|intros H; exact H].
  intros (Hts & Hc & Hl). cbn [snd]. unfold referencesResolve.
  cbn [users tweets comments likes].
  split; [exact Hts|]. split; [|exact Hl].
  apply Forall_app. split; [exact Hc|].
  constructor; [|constructor]. simpl. split; congruence.
Qed.

Lemma refs_LikeRepo_save now userId tweetId :
  respects (preserves referencesResolve) (LikeRepo.save now userId tweetId).
Proof.
  intros db. unfold LikeRepo.save.
  destruct (findUser userId (users db)) eqn:Hu; [|intros H; exact H].
  destruct (findTweet tweetId (tweets db)) eqn:Ht; [|intros H; exact H].
  intros (Hts & Hc & Hl). cbn [snd]. unfold referencesResolve.
  cbn [users tweets comments likes].
  split; [exact Hts|]. split; [exact Hc|].
  apply Forall_app. split; [exact Hl|].
  constructor; [|constructor]. simpl. split; congruence.
Qed.

Lemma refs_FollowRepo_save now followerId followedId :
  respects (preserves referencesResolve)
    (FollowRepo.save now followerId followedId).
Proof. intros db H. exact H. Qed.

Lemma refs_FollowRepo_delete followerId followedId :
  respects (preserves referencesResolve)
    (FollowRepo.delete followerId followedId).
Proof. intros db H. exact H. Qed.

Lemma refs_LikeRepo_delete tweetId userId :
  respects (preserves referencesResolve) (LikeRepo.delete tweetId userId).
Proof.
  intros db (Hts & Hc & Hl). cbn [snd LikeRepo.delete].
  unfold referencesResolve. cbn [users tweets comments likes].
  split; [exact Hts|]. split; [exact Hc|].
  apply Forall_forall. intros l Hin. apply filter_In in Hin.
  rewrite Forall_forall in Hl. now apply Hl.
Qed.

#[local] Hint Resolve refs_TweetRepo_save refs_CommentRepo_save
  refs_LikeRepo_save refs_FollowRepo_save refs_LikeRepo_delete
  refs_FollowRepo_delete : store.

Section ServedStores.

Context {D : Database}.

Lemma keys_request storage tsMatch r now db :
  keysWellFormed db ->
  keysWellFormed (snd (RegisterRoutes storage tsMatch r now db)).
Proof.
  intros Hk.
  destruct r; cbn [RegisterRoutes]; unfold apiHandler; cbn [snd];
    route_handler keysWellFormed; unfold_handlers; keeps keysWellFormed.
Qed.

Lemma refs_request storage tsMatch r now db :
  referencesResolve db ->
  referencesResolve (snd (RegisterRoutes storage tsMatch r now db)).
Proof.
  intros Hk.
  destruct r; cbn [RegisterRoutes]; unfold apiHandler; cbn [snd];
    route_handler referencesResolve; unfold_handlers;
    keeps referencesResolve.
Qed.

Lemma pairsDistinct_request storage tsMatch r now db :
  NoDup (map followPair (follows db)) ->
  NoDup (map followPair
           (follows (snd (RegisterRoutes storage tsMatch r now db)))).
Proof.
  intros Hnd.
  assert (Hkeep : forall A (h : Handler A),
             respects keepsFollows h ->
             NoDup (map followPair (follows (snd (h db))))).
  { intros A h Hh. destruct (Hh db) as [_ ->]. exact Hnd. }
  destruct r; cbn [RegisterRoutes]; unfold apiHandler; cbn [snd];
    first
      [ now apply followUser_keeps_pairs_distinct
      | apply Hkeep;
        first
          [ apply keepsFollows_createTweet
          | apply keepsFollows_likeTweet
          | apply keepsFollows_createComment
          | apply (readOnly_respects _ keepsFollows_refl);
            first [ apply readOnly_getFeedTweets | apply readOnly_searchTweets
                  | apply readOnly_getTweetById | apply readOnly_getUserProfile
                  | apply readOnly_getUserFollowers
                  | apply readOnly_getUserFollowing
                  | apply readOnly_getUserLikes
                  | apply readOnly_getComments ] ]
      | idtac ].
  - pose proof (unfollowUser_deletes req_user userIdToUnfollow db) as H.
    destruct req_user as [cu|]; [|now rewrite H].
    destruct (columnValue userIdToUnfollow); [|now rewrite H].
    destruct H as (_ & _ & _ & _ & ->). now apply NoDup_map_filter.
  - pose proof (unlikeTweet_deletes currentUser tweetId db) as H.
    destruct (columnValue tweetId); [|now rewrite H].
    destruct H as (_ & _ & _ & -> & _).
    exact Hnd.
Qed.

(** X8.  When requests are served one at a time, the stores served by the
    routes from a store without Follow rows hold at most one Follow row per
    (follower, followed) pair, no row from a user to itself, and only rows
    whose followed user has a user row. *)
Theorem served_follows_are_unique_and_well_formed
    (uploadBase64ToObjectStorage : JsString -> JsString -> UploadResult)
    (tsMatch : JsString -> option JsString -> bool) (db0 db : DB) :
  follows db0 = [] ->
  served uploadBase64ToObjectStorage tsMatch db0 db ->
  NoDup (map followPair (follows db)) /\
  Forall (fun f => Follow.followerId f <> Follow.followedId f /\
                   findUser (Follow.followedId f) (users db) <> None)
         (follows db).
Proof.
  intros H0 Hs. split.
  - induction Hs as [|db r now _ IH].
    + rewrite H0. constructor.
    + now apply pairsDistinct_request.
  - pose proof (followsWellFormed_served _ _ _ _ H0 Hs) as Hwf.
    eapply Forall_impl; [|exact Hwf]. intros f H. simpl in H. tauto.
Qed.

(** X9.  Every route keeps the primary keys well formed: if in each table
    the keys are distinct and below the table's sequence, they still are
    after the request; so this holds in every store served from such a
    store, and a row inserted later never takes the key of an existing
    row. *)
Theorem served_keys_stay_fresh_and_distinct
    (uploadBase64ToObjectStorage : JsString -> JsString -> UploadResult)
    (tsMatch : JsString -> option JsString -> bool) (db0 db : DB) :
  keysWellFormed db0 ->
  served uploadBase64ToObjectStorage tsMatch db0 db ->
  keysWellFormed db /\
  (forall r now,
      keysWellFormed
        (snd (RegisterRoutes uploadBase64ToObjectStorage tsMatch r now db))).
Proof.
  intros H0 Hs.
  assert (Hk : keysWellFormed db).
  { induction Hs as [|db r now _ IH]; [exact H0 | now apply keys_request]. }
  split; [exact Hk|]. intros r now. now apply keys_request.
Qed.

Context {HD : Orderly D}.

(** X10.  Every route keeps the references of the store resolved: if every
    tweet has its user row and every comment and like has its user and tweet
    rows, they still have after the request.  In the stores served from such
    a store the feed's author filter drops nothing: for counts [limit] and
    [offset] (omitted: 10 and 0) the answer holds every tweet that they
    select from a newest-first order of all tweets, that is
    [min limit (number of tweets - offset)] entries, and
    [number of tweets - offset] entries when [limit] is 0. *)
Theorem served_references_resolve
    (uploadBase64ToObjectStorage : JsString -> JsString -> UploadResult)
    (tsMatch : JsString -> option JsString -> bool) (db0 db : DB) :
  referencesResolve db0 ->
  served uploadBase64ToObjectStorage tsMatch db0 db ->
  referencesResolve db /\
  (forall req_user (limit offset : option nat),
      let take := match limit with Some n => n | None => 10%nat end in
      let skip := match offset with Some n => n | None => 0%nat end in
      exists rs ordered,
        getFeedTweets req_user (option_map ofNat limit)
          (option_map ofNat offset) db
        = (Return None rs, db) /\
        Permutation ordered (tweets db) /\
        descending Tweet.createdAt ordered /\
        Permutation (map tweetOf rs)
          (match take with
           | O => skipn skip ordered
           | S _ => firstn take (skipn skip ordered)
           end) /\
        length rs
        = match take with
          | O => (length (tweets db) - skip)%nat
          | S _ => Nat.min take (length (tweets db) - skip)
          end).
Proof.
  intros H0 Hs.
  assert (Hr : referencesResolve db).
  { induction Hs as [|db r now _ IH]; [exact H0 | now apply refs_request]. }
  split; [exact Hr|]. intros req_user limit offset take skip.
  destruct (getFeedTweets_counts req_user limit offset db)
    as (page & ordered & Hrun & _ & Hperm & Hord & Hslice & _ & Hincl).
  fold take skip in Hslice.
  rewrite filter_all in Hrun.
  - eexists. exists ordered. split; [exact Hrun|].
    split; [exact Hperm|]. split; [exact Hord|].
    rewrite tweetOf_tweetView, length_map.
    split; [exact Hslice|].
    rewrite (Permutation_length Hslice), slice_length.
    now rewrite (Permutation_length Hperm).
  - intros t Ht. apply Hincl in Ht.
    destruct Hr as (Hts & _). rewrite Forall_forall in Hts.
    specialize (Hts t Ht). unfold hasUser.
    now destruct (findUser (Tweet.userId t) (users db)).
Qed.

End ServedStores.

Lemma served_follows_are_unique_and_well_formed_witness :
  follows usersOnlyDB = [] /\
  served (D := tableOrder) sampleUpload sampleMatch usersOnlyDB
    (snd (RegisterRoutes (D := tableOrder) sampleUpload sampleMatch
            (FollowUser (Some aliceJwt) 2) 400 usersOnlyDB)) /\
  map followPair
      (follows (snd (RegisterRoutes (D := tableOrder) sampleUpload sampleMatch
                       (FollowUser (Some aliceJwt) 2) 400 usersOnlyDB)))
  = [(1, 2)] /\
  NoDup (map followPair
           (follows (snd (RegisterRoutes (D := tableOrder) sampleUpload
                            sampleMatch (FollowUser (Some aliceJwt) 2) 400
                            usersOnlyDB)))) /\
  Forall (fun f => Follow.followerId f <> Follow.followedId f /\
                   findUser (Follow.followedId f) (users usersOnlyDB) <> None)
         (follows (snd (RegisterRoutes (D := tableOrder) sampleUpload
                          sampleMatch (FollowUser (Some aliceJwt) 2) 400
                          usersOnlyDB))).
Proof.
  assert (Hs : served (D := tableOrder) sampleUpload sampleMatch usersOnlyDB
                 (snd (RegisterRoutes (D := tableOrder) sampleUpload
                         sampleMatch (FollowUser (Some aliceJwt) 2) 400
                         usersOnlyDB))).
  { apply served_request. apply served_start. }
  split; [reflexivity|]. split; [exact Hs|]. split; [reflexivity|].
  exact (served_follows_are_unique_and_well_formed (D := tableOrder)
           sampleUpload sampleMatch usersOnlyDB _ eq_refl Hs).
Defined.

Lemma sampleDB_keys : keysWellFormed sampleDB.
Proof.
  unfold keysWellFormed, sampleDB. cbn.
  repeat split;
    repeat (first [ apply Forall_nil | apply Forall_cons; [reflexivity|]
                  | apply NoDup_nil
                  | apply NoDup_cons;
                    [simpl; intuition discriminate|] ]).
Qed.

Lemma served_keys_stay_fresh_and_distinct_witness :
  keysWellFormed sampleDB /\
  served (D := tableOrder) sampleUpload sampleMatch sampleDB
    (snd (RegisterRoutes (D := tableOrder) sampleUpload sampleMatch
            (CreateTweet (Some aliceJwt) bodyWithText) 400 sampleDB)) /\
  keysWellFormed
    (snd (RegisterRoutes (D := tableOrder) sampleUpload sampleMatch
            (CreateTweet (Some aliceJwt) bodyWithText) 400 sampleDB)).
Proof.
  assert (Hs : served (D := tableOrder) sampleUpload sampleMatch sampleDB
                 (snd (RegisterRoutes (D := tableOrder) sampleUpload
                         sampleMatch
                         (CreateTweet (Some aliceJwt) bodyWithText) 400
                         sampleDB))).
  { apply served_request. apply served_start. }
  split; [exact sampleDB_keys|]. split; [exact Hs|].
  exact (proj1 (served_keys_stay_fresh_and_distinct (D := tableOrder)
                  sampleUpload sampleMatch sampleDB _ sampleDB_keys Hs)).
Defined.

Lemma sampleDB_references : referencesResolve sampleDB.
Proof.
  unfold referencesResolve, sampleDB. cbn.
  repeat split;
    repeat (first [ apply Forall_nil
                  | apply Forall_cons; [try split; discriminate|] ]).
Qed.

Lemma served_references_resolve_witness :
  referencesResolve sampleDB /\
  served (D := tableOrder) sampleUpload sampleMatch sampleDB
    (snd (RegisterRoutes (D := tableOrder) sampleUpload sampleMatch
            (LikeTweet bobJwt 3) 400 sampleDB)) /\
  referencesResolve
    (snd (RegisterRoutes (D := tableOrder) sampleUpload sampleMatch
            (LikeTweet bobJwt 3) 400 sampleDB)) /\
  exists rs,
    getFeedTweets (D := tableOrder) None (Some (ofNat 0)) (Some (ofNat 1))
      (snd (RegisterRoutes (D := tableOrder) sampleUpload sampleMatch
              (LikeTweet bobJwt 3) 400 sampleDB))
    = (Return None rs,
       snd (RegisterRoutes (D := tableOrder) sampleUpload sampleMatch
              (LikeTweet bobJwt 3) 400 sampleDB)) /\
    length rs = 2%nat.
Proof.
  assert (Hs : served (D := tableOrder) sampleUpload sampleMatch sampleDB
                 (snd (RegisterRoutes (D := tableOrder) sampleUpload
                         sampleMatch (LikeTweet bobJwt 3) 400 sampleDB))).
  { apply served_request. apply served_start. }
  destruct (served_references_resolve (HD := tableOrder_orderly) sampleUpload
              sampleMatch sampleDB _ sampleDB_references Hs) as (Hr & Hfeed).
  split; [exact sampleDB_references|]. split; [exact Hs|].
  split; [exact Hr|].
  destruct (Hfeed None (Some 0%nat) (Some 1%nat))
    as (rs & ordered & Hrun & _ & _ & _ & Hlen).
  exists rs. split; [exact Hrun | exact Hlen].
Defined.

(** ** A tweet after it is created *)

(** Everything a returning [createTweet] has done. *)
Lemma createTweet_returns_all storage req_user body now db s r db' :
  createTweet storage req_user body now db = (Return s r, db') ->
  exists cu url user,
    req_user = Some cu /\
    findUser (JwtPayload.userId cu) (users db) = Some user /\
    r = TweetResponse.mk (tweet_seq db) url
          (orElse (CreateTweetBase64Input.tweetText body) None) now
          (JwtPayload.userId cu)
          (orString (Some (User.username user)) (js "unknown"))
          (orElse (User.avatarUrl user) None) false /\
    db' = mkDB (users db) (tweets db ++ [tweetOf r]) (comments db) (likes db)
            (follows db) (tweet_seq db + 1) (comment_seq db) (like_seq db)
            (follow_seq db).
Proof.
  unfold createTweet, tryCatch, bind, upload, currentUserId,
    TweetRepo.save, UserRepo.findOneBy_id, query, setStatus, ret, respond,
    throw.
  destruct (falsy _ || negb _); [discriminate|].
  destruct (storage _ _) as [url|msg]; [|discriminate].
  destruct req_user as [cu|]; [|discriminate].
  destruct (findUser (JwtPayload.userId cu) (users db)) as [user|] eqn:Hu;
    [|discriminate].
  simpl. rewrite Hu.
  intros H. injection H as _ <- <-.
  exists cu, url, user. repeat split. exact Hu.
Qed.

Lemma findTweet_snoc_fresh seq l row :
  Forall (fun t => Tweet.id t < seq) l -> Tweet.id row = seq ->
  findTweet seq (l ++ [row]) = Some row.
Proof.
  intros Hlt Hid. unfold findTweet.
  induction Hlt as [|t r Ht _ IH]; simpl.
  - now rewrite Hid, Z.eqb_refl.
  - assert (E : (Tweet.id t =? seq) = false) by (apply Z.eqb_neq; lia).
    now rewrite E.
Qed.

(** X11.  In a store with well-formed keys and resolved references, the
    tweet that [createTweet] returns is the one [getTweetById] returns for
    its id afterwards, for every requester, field by field ([hasLiked] is
    [false]: nobody can have liked it yet).  The id is the one drawn from
    the sequence, a value of the id column. *)
Theorem createTweet_then_getTweetById
    (uploadBase64ToObjectStorage : JsString -> JsString -> UploadResult)
    (req_user anyone : option JwtPayload.t) (body : CreateTweetBase64Input.t)
    (now : Timestamp) (db db' : DB) (s : option Z) (r : TweetResponse.t) :
  keysWellFormed db -> referencesResolve db ->
  createTweet uploadBase64ToObjectStorage req_user body now db
  = (Return s r, db') ->
  int4 (TweetResponse.id r) = true ->
  getTweetById anyone (TweetResponse.id r) db' = (Return None r, db').
Proof.
  intros Hk Hr H. apply createTweet_returns_all in H.
  destruct H as (cu & url & user & -> & Hu & -> & ->).
  unfold tweetOf.
  cbn [TweetResponse.id TweetResponse.imageUrl TweetResponse.tweetText
       TweetResponse.createdAt TweetResponse.userId].
  intros Hi.
  destruct Hk as ((Hlt & _) & _). destruct Hr as (_ & _ & Hl).
  assert (Hnone : forall uid,
             existsb (fun l => (Like.userId l =? uid)
                               && (Like.tweetId l =? tweet_seq db))
                     (likes db) = false).
  { intros uid. apply existsb_none. intros l Hin.
    rewrite Forall_forall in Hl. destruct (Hl l Hin) as [_ Ht].
    destruct (findTweet (Like.tweetId l) (tweets db)) as [t|] eqn:E;
      [|congruence].
    pose proof (findTweet_id _ _ _ E) as Hid.
    unfold findTweet in E. apply find_some in E. destruct E as [Hin' _].
    rewrite Forall_forall in Hlt. specialize (Hlt t Hin'). simpl in Hlt.
    assert (E2 : (Like.tweetId l =? tweet_seq db) = false)
      by (apply Z.eqb_neq; lia).
    rewrite E2. apply andb_false_r. }
  rewrite (getTweetById_view anyone (tweet_seq db) (tweet_seq db) _
             (Tweet.mk (tweet_seq db) url
                (orElse (CreateTweetBase64Input.tweetText body) None) now
                (JwtPayload.userId cu))).
  - f_equal. unfold tweetView, likedBy.
    cbn [Tweet.id Tweet.imageUrl Tweet.tweetText Tweet.createdAt Tweet.userId
         users likes].
    rewrite Hu. cbn [option_map].
    destruct (truthyUserId anyone) as [uid|]; [|reflexivity].
    now rewrite Hnone.
  - now apply columnValue_Integer.
  - cbn [tweets]. now apply findTweet_snoc_fresh.
Qed.

Lemma createTweet_then_getTweetById_witness :
  keysWellFormed sampleDB /\ referencesResolve sampleDB /\
  exists r db',
    createTweet sampleUpload (Some aliceJwt) bodyWithText 400 sampleDB
    = (Return (Some 200) r, db') /\
    TweetResponse.id r = 4 /\
    int4 (TweetResponse.id r) = true /\
    getTweetById (Some bobJwt) 4 db' = (Return None r, db').
Proof.
  split; [exact sampleDB_keys|]. split; [exact sampleDB_references|].
  destruct (createTweet sampleUpload (Some aliceJwt) bodyWithText 400 sampleDB)
    as [o db'] eqn:E.
  assert (Ho : exists r, o = Return (Some 200) r /\ TweetResponse.id r = 4).
  { vm_compute in E. injection E as <- _. eexists. split; reflexivity. }
  destruct Ho as (r & -> & Hid).
  assert (Hi : int4 (TweetResponse.id r) = true) by now rewrite Hid.
  exists r, db'. split; [reflexivity|]. split; [exact Hid|].
  split; [exact Hi|].
  rewrite <- Hid.
  exact (createTweet_then_getTweetById sampleUpload (Some aliceJwt)
           (Some bobJwt) bodyWithText 400 sampleDB db' _ r
           sampleDB_keys sampleDB_references E Hi).
Defined.

Section NewestRow.

Context {D : Database} {HD : Orderly D}.
Context {A : Type} (createdAt : A -> Timestamp).

(** A row that is newer than all others is the first row of every first
    page, whatever the page size. *)
Lemma newestFirst_newest (take : nat) (rows : list A) (x : A) :
  Forall (fun y => createdAt y < createdAt x) rows ->
  exists rest,
    newestFirst createdAt (ofNat take) (ofNat 0) (rows ++ [x])
    = Some (x :: rest).
Proof.
  intros Hnew.
  destruct (newestFirst_page createdAt take 0 (rows ++ [x]))
    as (page & ordered & Hq & Hperm & Hord & Hslice & Hdesc & Hincl).
  assert (Hothers : forall l, incl l (rows ++ [x]) ->
                    forall y, In y l -> y = x \/ createdAt y < createdAt x).
  { intros l Hl y Hy. apply Hl in Hy. apply in_app_or in Hy.
    destruct Hy as [Hy | [-> | []]]; [right | now left].
    rewrite Forall_forall in Hnew. now apply Hnew. }
  assert (Hx : In x ordered).
  { apply (Permutation_in _ (Permutation_sym Hperm)).
    apply in_or_app. right. now left. }
  destruct (descending_head createdAt x ordered Hord Hx) as [tail ->].
  { apply Hothers. intros y Hy. now apply (Permutation_in _ Hperm). }
  assert (Hpage : In x page).
  { apply (Permutation_in _ (Permutation_sym Hslice)).
    destruct take; unfold slice; simpl; now left. }
  destruct (descending_head createdAt x page Hdesc Hpage (Hothers page Hincl))
    as [rest ->].
  now exists rest.
Qed.

End NewestRow.

Section NewTweet.

Context {D : Database} {HD : Orderly D}.

(** X12.  A tweet created at a time later than the creation time of every
    stored tweet is the first entry of the feed afterwards, for every
    requester and every page size (also the default one, and also 0, which
    puts no limit). *)
Theorem createTweet_tops_the_feed
    (uploadBase64ToObjectStorage : JsString -> JsString -> UploadResult)
    (req_user anyone : option JwtPayload.t) (body : CreateTweetBase64Input.t)
    (now : Timestamp) (db db' : DB) (s : option Z) (r : TweetResponse.t)
    (limit : option nat) :
  createTweet uploadBase64ToObjectStorage req_user body now db
  = (Return s r, db') ->
  Forall (fun t => Tweet.createdAt t < now) (tweets db) ->
  exists first rest,
    getFeedTweets anyone (option_map ofNat limit) (Some (ofNat 0)) db'
    = (Return None (first :: rest), db') /\
    tweetOf first = tweetOf r /\
    TweetResponse.username first = TweetResponse.username r /\
    TweetResponse.avatarUrl first = TweetResponse.avatarUrl r.
Proof.
  intros H Hnew. apply createTweet_returns_all in H.
  destruct H as (cu & url & user & -> & Hu & -> & ->).
  rewrite getFeedTweets_views. unfold tweetOf.
  cbn [TweetResponse.id TweetResponse.imageUrl TweetResponse.tweetText
       TweetResponse.createdAt TweetResponse.userId TweetResponse.username
       TweetResponse.avatarUrl tweets defaultTo].
  change (Integer 10) with (ofNat 10). rewrite defaultTo_ofNat.
  set (new := Tweet.mk (tweet_seq db) url
                (orElse (CreateTweetBase64Input.tweetText body) None) now
                (JwtPayload.userId cu)).
  destruct (newestFirst_newest Tweet.createdAt
              (match limit with Some n => n | None => 10%nat end)
              (tweets db) new Hnew) as [rest ->].
  cbn [filter]. unfold hasUser at 1. cbn [Tweet.userId users new].
  rewrite Hu. cbn [isSome map].
  do 2 eexists. split; [reflexivity|].
  unfold tweetView, new.
  cbn [TweetResponse.id TweetResponse.imageUrl TweetResponse.tweetText
       TweetResponse.createdAt TweetResponse.userId TweetResponse.username
       TweetResponse.avatarUrl Tweet.id Tweet.imageUrl Tweet.tweetText
       Tweet.createdAt Tweet.userId users].
  rewrite Hu. repeat split.
Qed.

End NewTweet.

Lemma createTweet_tops_the_feed_witness :
  Forall (fun t => Tweet.createdAt t < 400) (tweets sampleDB) /\
  exists r db' first rest,
    createTweet sampleUpload (Some aliceJwt) bodyWithText 400 sampleDB
    = (Return (Some 200) r, db') /\
    getFeedTweets (D := tableOrder) None None (Some (ofNat 0)) db'
    = (Return None (first :: rest), db') /\
    tweetOf first = tweetOf r.
Proof.
  assert (Hnew : Forall (fun t => Tweet.createdAt t < 400) (tweets sampleDB)).
  { repeat (apply Forall_cons; [reflexivity|]). apply Forall_nil. }
  split; [exact Hnew|].
  destruct (createTweet sampleUpload (Some aliceJwt) bodyWithText 400 sampleDB)
    as [o db'] eqn:E.
  assert (Ho : exists r, o = Return (Some 200) r).
  { vm_compute in E. injection E as <- _. eexists. reflexivity. }
  destruct Ho as (r & ->).
  destruct (createTweet_tops_the_feed (HD := tableOrder_orderly) sampleUpload
              (Some aliceJwt) None bodyWithText 400 sampleDB db' _ r None E
              Hnew)
    as (first & rest & Hfeed & Hsame & _).
  exists r, db', first, rest.
  split; [reflexivity|]. split; [exact Hfeed | exact Hsame].
Defined.

(** ** Comments *)

Lemma getComments_fails {D : Database} (tweetId : JsNumber) limit offset db :
  columnValue tweetId = None ->
  getComments tweetId limit offset db = (Throw (MessageOf QueryFailed), db).
Proof.
  intros Hc. unfold getComments. now rewrite bind_column, Hc.
Qed.

Lemma getComments_none {D : Database} (tweetId : JsNumber) (id : Id) limit
    offset db :
  columnValue tweetId = Some id ->
  findTweet id (tweets db) = None ->
  getComments tweetId limit offset db
  = (Respond 404 (js "Tweet not found."), db).
Proof.
  intros Hc Hn. unfold getComments. rewrite bind_column, Hc.
  unfold bind, TweetRepo.findOneBy_id, query. now rewrite Hn.
Qed.

(** The whole answer of [getComments], entry by entry, for the page that
    the database returns. *)
Lemma getComments_views {D : Database} (tweetId : JsNumber) (id : Id) limit
    offset db t :
  columnValue tweetId = Some id ->
  findTweet id (tweets db) = Some t ->
  getComments tweetId limit offset db
  = match newestFirst Comment.createdAt (defaultTo (Integer 10) limit)
            (defaultTo (Integer 0) offset) (commentsOf db id) with
    | Some page => (Return None (map (commentView db) page), db)
    | None => (Throw (MessageOf QueryFailed), db)
    end.
Proof.
  intros Hc Ht. unfold getComments. rewrite bind_column, Hc.
  unfold bind, TweetRepo.findOneBy_id, CommentRepo.find_byTweet, query,
    select, ret.
  rewrite Ht. fold (commentsOf db id).
  destruct (newestFirst _ _ _ _) as [page|]; [|reflexivity].
  cbn [option_map]. rewrite map_map. reflexivity.
Qed.

Lemma commentOf_commentView db l : map commentOf (map (commentView db) l) = l.
Proof.
  induction l as [|c r IH]; simpl; [reflexivity|].
  rewrite IH. now destruct c.
Qed.

Lemma commentsOf_In db tweetId c :
  In c (commentsOf db tweetId) <->
  In c (comments db) /\ Comment.tweetId c = tweetId.
Proof.
  unfold commentsOf. rewrite filter_In, Z.eqb_eq. tauto.
Qed.

Section Comments.

Context {D : Database} {HD : Orderly D}.

(** X13.  For a tweet id that is a value of the id column, [getComments]
    answers 404 exactly when no tweet has the id; otherwise, for counts
    [limit] and [offset] (omitted: 10 and 0), it lists comments of that
    tweet only, newest first: those left after skipping [offset] comments of
    a newest-first order of the tweet's comments and, for a [limit] other
    than 0, taking the first [limit] (at most [limit] entries; a [limit] of
    0 takes them all).  For any other number in the path the query fails
    (status 500).  The store is left as it was. *)
Theorem getComments_of_the_tweet_newest_first
    (tweetId : JsNumber) (db : DB) :
  (columnValue tweetId = None ->
   forall limit offset,
     getComments tweetId limit offset db
     = (Throw (MessageOf QueryFailed), db)) /\
  (forall id,
      columnValue tweetId = Some id ->
      (forall limit offset,
          httpStatus None (fst (getComments tweetId limit offset db)) = 404
          <-> findTweet id (tweets db) = None) /\
      (findTweet id (tweets db) = None ->
       forall limit offset,
         getComments tweetId limit offset db
         = (Respond 404 (js "Tweet not found."), db)) /\
      (findTweet id (tweets db) <> None ->
       forall limit offset : option nat,
         let take := match limit with Some n => n | None => 10%nat end in
         let skip := match offset with Some n => n | None => 0%nat end in
         exists rs ordered,
           getComments tweetId (option_map ofNat limit)
             (option_map ofNat offset) db
           = (Return None rs, db) /\
           Permutation ordered (commentsOf db id) /\
           descending Comment.createdAt ordered /\
           Permutation (map commentOf rs)
             (match take with
              | O => skipn skip ordered
              | S _ => firstn take (skipn skip ordered)
              end) /\
           Forall (fun r => CommentResponse.tweetId r = id /\
                            In (commentOf r) (comments db)) rs /\
           descending CommentResponse.createdAt rs /\
           (take <> 0%nat -> (length rs <= take)%nat))) /\
  (forall limit offset, snd (getComments tweetId limit offset db) = db).
Proof.
  split; [intros Hc limit offset; now apply getComments_fails|].
  split; [|intros limit offset; apply readOnly_getComments].
  intros id Hc.
  split; [|split].
  - intros limit offset.
    destruct (findTweet id (tweets db)) as [t|] eqn:Ht.
    + rewrite (getComments_views _ _ _ _ _ _ Hc Ht).
      destruct (newestFirst _ _ _ _); simpl; split; discriminate.
    + rewrite (getComments_none _ _ _ _ _ Hc Ht). simpl. tauto.
  - intros Hn limit offset. now apply (getComments_none _ id).
  - intros Hs limit offset take skip.
    destruct (findTweet id (tweets db)) as [t|] eqn:Ht; [|congruence].
    rewrite (getComments_views _ _ _ _ _ _ Hc Ht).
    change (Integer 10) with (ofNat 10). change (Integer 0) with (ofNat 0).
    rewrite !defaultTo_ofNat. fold take skip.
    destruct (newestFirst_page Comment.createdAt take skip (commentsOf db id))
      as (page & ordered & Hq & Hperm & Hord & Hslice & Hdesc & Hincl).
    rewrite Hq. eexists. exists ordered.
    split; [reflexivity|]. split; [exact Hperm|]. split; [exact Hord|].
    rewrite commentOf_commentView.
    split; [exact Hslice|].
    split.
    { apply Forall_forall. intros r Hr. apply in_map_iff in Hr.
      destruct Hr as (c & <- & Hin). apply Hincl, commentsOf_In in Hin.
      destruct Hin as [Hin Hid].
      split; [exact Hid|]. now destruct c. }
    split.
    { eapply descending_map; [|exact Hdesc]. intros c. reflexivity. }
    intros Hpos. rewrite length_map, (Permutation_length Hslice).
    now apply slice_length_le.
Qed.

(** Everything a returning [createComment] has done. *)
Lemma createComment_returns_all cu (tweetId : Id) text now db s r db' :
  createComment cu tweetId text now db = (Return s r, db') ->
  exists user,
    int4 tweetId = true /\
    findTweet tweetId (tweets db) <> None /\
    findUser (JwtPayload.userId cu) (users db) = Some user /\
    r = CommentResponse.mk (comment_seq db) text (JwtPayload.userId cu)
          tweetId (User.username user) (User.avatarUrl user) now /\
    db' = mkDB (users db) (tweets db)
            (comments db
             ++ [Comment.mk (comment_seq db) text now (JwtPayload.userId cu)
                            tweetId])
            (likes db) (follows db) (tweet_seq db) (comment_seq db + 1)
            (like_seq db) (follow_seq db).
Proof.
  unfold createComment. rewrite bind_column. cbn [columnValue].
  destruct (int4 tweetId); [|discriminate].
  unfold bind, TweetRepo.findOneBy_id, UserRepo.findOneBy_id,
    query, CommentRepo.save, ret, respond, throw.
  destruct (findTweet tweetId (tweets db)) as [t|] eqn:Ht; [|discriminate].
  destruct (findUser (JwtPayload.userId cu) (users db)) as [user|] eqn:Hu;
    [|discriminate].
  pose proof (findUser_id _ _ _ Hu) as Hid.
  rewrite Hid, Hu, Ht. cbn.
  intros H. injection H as _ <- <-.
  exists user. repeat split. discriminate.
Qed.

(** X14.  A comment that [createComment] has stored is listed by
    [getComments] of its tweet: it is in the answer whenever [limit] covers
    all comments, and it is the first entry, for every page size, when it is
    newer than the other comments of the tweet.  The listing shows the
    stored text, author and time, and the author's name (["unknown"] when
    the name is empty). *)
Theorem createComment_then_getComments
    (cu : JwtPayload.t) (tweetId : Id) (text : JsString) (now : Timestamp)
    (db db' : DB) (s : option Z) (r : CommentResponse.t) :
  createComment cu tweetId text now db = (Return s r, db') ->
  commentOf r
  = Comment.mk (comment_seq db) text now (JwtPayload.userId cu) tweetId /\
  comments db' = comments db ++ [commentOf r] /\
  (forall n offset,
      (length (comments db') <= n)%nat ->
      defaultTo 0%nat offset = 0%nat ->
      exists rs,
        getComments tweetId (Some (ofNat n)) (option_map ofNat offset) db'
        = (Return None rs, db') /\
        In (commentOf r) (map commentOf rs)) /\
  (Forall (fun c => Comment.tweetId c = tweetId -> Comment.createdAt c < now)
          (comments db) ->
   forall limit : option nat,
     exists first rest,
       getComments tweetId (option_map ofNat limit) (Some (ofNat 0)) db'
       = (Return None (first :: rest), db') /\
       commentOf first = commentOf r /\
       CommentResponse.username first
       = orString (Some (CommentResponse.username r)) (js "unknown")).
Proof.
  intros H. apply createComment_returns_all in H.
  destruct H as (user & Hi & Ht & Hu & -> & ->).
  assert (Hc : columnValue tweetId = Some tweetId)
    by now apply columnValue_Integer.
  unfold commentOf at 1 2.
  cbn [CommentResponse.id CommentResponse.text CommentResponse.createdAt
       CommentResponse.userId CommentResponse.tweetId comments].
  split; [reflexivity|]. split; [reflexivity|].
  set (new := Comment.mk (comment_seq db) text now (JwtPayload.userId cu)
                tweetId).
  set (db' := mkDB _ _ (comments db ++ [new]) _ _ _ _ _ _).
  destruct (findTweet tweetId (tweets db)) as [t|] eqn:Etw; [|congruence].
  assert (Hfind : findTweet tweetId (tweets db') = Some t) by exact Etw.
  assert (Hthread : commentsOf db' tweetId = commentsOf db tweetId ++ [new]).
  { unfold commentsOf, db'. cbn [comments]. rewrite filter_snoc.
    unfold new at 1. cbn [Comment.tweetId]. now rewrite Z.eqb_refl. }
  split.
  - intros n offset Hn Hoff.
    rewrite (getComments_views _ _ _ _ _ _ Hc Hfind). cbn [defaultTo].
    change (Integer 0) with (ofNat 0). rewrite defaultTo_ofNat.
    replace (match offset with Some k => k | None => 0%nat end) with 0%nat
      by (destruct offset; simpl in Hoff; congruence).
    destruct (newestFirst_page Comment.createdAt n 0 (commentsOf db' tweetId))
      as (page & ordered & Hq & Hperm & _ & Hslice & _).
    rewrite Hq. eexists. split; [reflexivity|].
    rewrite commentOf_commentView.
    apply (Permutation_in _ (Permutation_sym Hslice)).
    rewrite slice_all.
    + apply (Permutation_in _ (Permutation_sym Hperm)).
      rewrite Hthread. apply in_or_app. right. now left.
    + rewrite (Permutation_length Hperm).
      eapply Nat.le_trans; [apply filter_length_le | exact Hn].
  - intros Hnew limit.
    rewrite (getComments_views _ _ _ _ _ _ Hc Hfind). cbn [defaultTo].
    change (Integer 10) with (ofNat 10). rewrite defaultTo_ofNat, Hthread.
    destruct (newestFirst_newest Comment.createdAt
                (match limit with Some k => k | None => 10%nat end)
                (commentsOf db tweetId) new) as [rest ->].
    + apply Forall_forall. intros c Hin. apply commentsOf_In in Hin.
      destruct Hin as [Hin Hid].
      rewrite Forall_forall in Hnew. exact (Hnew c Hin Hid).
    + cbn [map]. do 2 eexists. split; [reflexivity|].
      unfold commentView, commentOf, new.
      cbn [CommentResponse.id CommentResponse.text CommentResponse.createdAt
           CommentResponse.userId CommentResponse.tweetId
           CommentResponse.username Comment.id Comment.content
           Comment.createdAt Comment.userId Comment.tweetId].
      split; [reflexivity|].
      unfold db'. cbn [users]. now rewrite Hu.
Qed.

End Comments.

Lemma getComments_of_the_tweet_newest_first_witness :
  (columnValue 9 = Some 9 /\
   findTweet 9 (tweets sampleDB) = None /\
   getComments (D := tableOrder) 9 None None sampleDB
   = (Respond 404 (js "Tweet not found."), sampleDB)) /\
  (columnValue 1 = Some 1 /\
   findTweet 1 (tweets sampleDB) <> None /\
   exists rs,
     getComments (D := tableOrder) 1 (Some (ofNat 0)) None sampleDB
     = (Return None rs, sampleDB) /\
     map commentOf rs = [Comment.mk 1 (js "nice") 260 2 1]) /\
  (columnValue Fraction = None /\
   getComments (D := tableOrder) Fraction None None sampleDB
   = (Throw (MessageOf QueryFailed), sampleDB)).
Proof.
  destruct (getComments_of_the_tweet_newest_first (HD := tableOrder_orderly)
              9 sampleDB) as (_ & Hnine & _).
  destruct (getComments_of_the_tweet_newest_first (HD := tableOrder_orderly)
              1 sampleDB) as (_ & Hone & _).
  destruct (getComments_of_the_tweet_newest_first (HD := tableOrder_orderly)
              Fraction sampleDB) as (Hfail & _).
  destruct (Hnine 9 eq_refl) as (_ & Hnone & _).
  destruct (Hone 1 eq_refl) as (_ & _ & Hsome).
  assert (Hex : findTweet 1 (tweets sampleDB) <> None) by discriminate.
  split; [|split].
  - split; [reflexivity|]. split; [reflexivity|].
    exact (Hnone eq_refl None None).
  - split; [reflexivity|]. split; [exact Hex|].
    destruct (Hsome Hex (Some 0%nat) None) as (rs & ordered & Hrun & _).
    exists rs. split; [exact Hrun|].
    vm_compute in Hrun. injection Hrun as <-. reflexivity.
  - split; [reflexivity|]. exact (Hfail eq_refl None None).
Defined.

Lemma createComment_then_getComments_witness :
  Forall (fun c => Comment.tweetId c = 1 -> Comment.createdAt c < 400)
         (comments sampleDB) /\
  exists r db' first rest,
    createComment aliceJwt 1 (js "thanks") 400 sampleDB
    = (Return None r, db') /\
    getComments (D := tableOrder) 1 None (Some (ofNat 0)) db'
    = (Return None (first :: rest), db') /\
    commentOf first = Comment.mk 2 (js "thanks") 400 1 1.
Proof.
  assert (Hnew : Forall (fun c => Comment.tweetId c = 1 ->
                                  Comment.createdAt c < 400)
                        (comments sampleDB)).
  { apply Forall_cons; [intros _; reflexivity | apply Forall_nil]. }
  split; [exact Hnew|].
  destruct (createComment aliceJwt 1 (js "thanks") 400 sampleDB)
    as [o db'] eqn:E.
  assert (Ho : exists r, o = Return None r).
  { vm_compute in E. injection E as <- _. eexists. reflexivity. }
  destruct Ho as (r & ->).
  destruct (createComment_then_getComments (HD := tableOrder_orderly) aliceJwt
              1 (js "thanks") 400 sampleDB db' None r E)
    as (Hr & _ & _ & Htop).
  destruct (Htop Hnew None) as (first & rest & Hget & Hsame & _).
  exists r, db', first, rest.
  split; [reflexivity|]. split; [exact Hget|].
  rewrite Hsame. exact Hr.
Defined.

(** X15.  [likeTweet] and [createComment] look for the tweet before the
    user.  For a tweet id that is a value of the id column: without the
    tweet both answer 404 whether or not the current user has a row; with
    the tweet but without the user row both end in the exception
    ["User not found"] (status 500).  For any other number the lookup of the
    tweet fails and both end in the exception of the failed query (status
    500).  In all these cases nothing is written: [likeTweet] changes the
    store only when the tweet and the user exist. *)
Theorem likeTweet_createComment_guards
    (cu : JwtPayload.t) (tweetId : JsNumber) (text : JsString)
    (now : Timestamp) (db : DB) :
  (columnValue tweetId = None ->
   likeTweet cu tweetId now db = (Throw (MessageOf QueryFailed), db) /\
   createComment cu tweetId text now db
   = (Throw (MessageOf QueryFailed), db) /\
   httpStatus (Some 201) (fst (likeTweet cu tweetId now db)) = 500) /\
  (forall id,
      columnValue tweetId = Some id ->
      (findTweet id (tweets db) = None ->
       likeTweet cu tweetId now db
       = (Respond 404 (js "Tweet not found."), db) /\
       createComment cu tweetId text now db
       = (Respond 404 (js "Tweet not found."), db)) /\
      (findTweet id (tweets db) <> None ->
       findUser (JwtPayload.userId cu) (users db) = None ->
       likeTweet cu tweetId now db = (Throw (js "User not found"), db) /\
       createComment cu tweetId text now db
       = (Throw (js "User not found"), db) /\
       httpStatus (Some 201) (fst (likeTweet cu tweetId now db)) = 500) /\
      (snd (likeTweet cu tweetId now db) <> db ->
       findTweet id (tweets db) <> None /\
       findUser (JwtPayload.userId cu) (users db) <> None)) /\
  (snd (likeTweet cu tweetId now db) <> db -> columnValue tweetId <> None).
Proof.
  unfold likeTweet, createComment. rewrite !bind_column.
  split; [|split].
  - intros ->. repeat split.
  - intros id ->.
    unfold bind, TweetRepo.findOneBy_id, UserRepo.findOneBy_id, query,
      respond, throw.
    destruct (findTweet id (tweets db)) as [t|];
      destruct (findUser (JwtPayload.userId cu) (users db)) as [u|]; cbn.
    + split; [discriminate|]. split; [discriminate|].
      intros _. split; discriminate.
    + split; [discriminate|]. split; [intros _ _; repeat split|].
      intros H. now contradiction H.
    + split; [intros _; split; reflexivity|]. split; [congruence|].
      intros H. now contradiction H.
    + split; [intros _; split; reflexivity|]. split; [congruence|].
      intros H. now contradiction H.
  - destruct (columnValue tweetId); [discriminate|].
    intros H. now contradiction H.
Qed.

Lemma likeTweet_createComment_guards_witness :
  (columnValue 9 = Some 9 /\
   findTweet 9 (tweets sampleDB) = None /\
   likeTweet (JwtPayload.mk 7) 9 400 sampleDB
   = (Respond 404 (js "Tweet not found."), sampleDB)) /\
  (columnValue 1 = Some 1 /\
   findTweet 1 (tweets sampleDB) <> None /\
   findUser 7 (users sampleDB) = None /\
   likeTweet (JwtPayload.mk 7) 1 400 sampleDB
   = (Throw (js "User not found"), sampleDB)) /\
  (columnValue 2147483648 = None /\
   createComment aliceJwt 2147483648 (js "hello") 400 sampleDB
   = (Throw (MessageOf QueryFailed), sampleDB)).
Proof.
  destruct (likeTweet_createComment_guards (JwtPayload.mk 7) 9 [] 400 sampleDB)
    as (_ & Hnine & _).
  destruct (likeTweet_createComment_guards (JwtPayload.mk 7) 1 [] 400 sampleDB)
    as (_ & Hone & _).
  destruct (likeTweet_createComment_guards aliceJwt 2147483648 (js "hello")
              400 sampleDB) as (Hfail & _).
  destruct (Hnine 9 eq_refl) as (Hnone & _).
  destruct (Hone 1 eq_refl) as (_ & Huser & _).
  assert (Hex : findTweet 1 (tweets sampleDB) <> None) by discriminate.
  split; [|split].
  - split; [reflexivity|]. split; [reflexivity|].
    exact (proj1 (Hnone eq_refl)).
  - split; [reflexivity|]. split; [exact Hex|]. split; [reflexivity|].
    exact (proj1 (Huser Hex eq_refl)).
  - split; [reflexivity|]. exact (proj1 (proj2 (Hfail eq_refl))).
Defined.

(** ** Failures of [createTweet] *)

(** X16.  With an accepted image, [createTweet] answers 500 and creates no
    tweet when the upload throws (the response carries the thrown message,
    or ["Failed to create tweet."] when that message is empty), when the
    request has no user, and when the user has no row.  In the first two
    cases the store is left as it was.  In the last, the insert fails on the
    foreign key after the tweet's key was drawn: the response carries the
    database's message, every table is as it was, and the sequence of the
    tweets is one further, so the next tweet skips a key. *)
Theorem createTweet_failures_answer_500
    (uploadBase64ToObjectStorage : JsString -> JsString -> UploadResult)
    (req_user : option JwtPayload.t) (body : CreateTweetBase64Input.t)
    (now : Timestamp) (db : DB) :
  falsy (CreateTweetBase64Input.imageBase64 body) = false ->
  startsWith (CreateTweetBase64Input.imageFileType body) (js "image/") = true ->
  (forall message,
      uploadBase64ToObjectStorage
        (stripDataUrl (CreateTweetBase64Input.imageBase64 body))
        (CreateTweetBase64Input.imageFileType body) = UploadFailed message ->
      createTweet uploadBase64ToObjectStorage req_user body now db
      = (Respond 500
           (Text (match message with
                  | [] => js "Failed to create tweet."
                  | _ :: _ => message
                  end)), db)) /\
  (req_user = None ->
   httpStatus (Some 200)
     (fst (createTweet uploadBase64ToObjectStorage req_user body now db))
   = 500 /\
   snd (createTweet uploadBase64ToObjectStorage req_user body now db) = db) /\
  (forall cu url,
      req_user = Some cu ->
      findUser (JwtPayload.userId cu) (users db) = None ->
      uploadBase64ToObjectStorage
        (stripDataUrl (CreateTweetBase64Input.imageBase64 body))
        (CreateTweetBase64Input.imageFileType body) = Uploaded url ->
      let db' :=
        snd (createTweet uploadBase64ToObjectStorage req_user body now db) in
      fst (createTweet uploadBase64ToObjectStorage req_user body now db)
      = Respond 500 (MessageOf ForeignKeyViolation) /\
      users db' = users db /\ tweets db' = tweets db /\
      comments db' = comments db /\ likes db' = likes db /\
      follows db' = follows db /\
      tweet_seq db' = tweet_seq db + 1 /\
      comment_seq db' = comment_seq db /\ like_seq db' = like_seq db /\
      follow_seq db' = follow_seq db).
Proof.
  intros Hb Ht.
  destruct (createTweet_fails uploadBase64ToObjectStorage req_user body now db
              Hb Ht) as (Hfailed & Huploaded).
  split; [|split].
  - intros message Hup. rewrite (Hfailed message Hup).
    now destruct message.
  - intros Hnone.
    destruct (uploadBase64ToObjectStorage
                (stripDataUrl (CreateTweetBase64Input.imageBase64 body))
                (CreateTweetBase64Input.imageFileType body))
      as [url|message] eqn:Hup.
    + destruct (Huploaded url eq_refl) as (Hanon & _).
      rewrite (Hanon Hnone). split; reflexivity.
    + rewrite (Hfailed message eq_refl). split; reflexivity.
  - intros cu url Hcu Hu Hup db'. subst db'.
    destruct (Huploaded url Hup) as (_ & Hunknown).
    rewrite (Hunknown cu Hcu Hu). repeat split.
Qed.

Lemma createTweet_failures_answer_500_witness :
  falsy (CreateTweetBase64Input.imageBase64 bodyWithText) = false /\
  startsWith (CreateTweetBase64Input.imageFileType bodyWithText) (js "image/")
  = true /\
  createTweet (fun _ _ => UploadFailed []) (Some aliceJwt) bodyWithText 400
    sampleDB
  = (Respond 500 (js "Failed to create tweet."), sampleDB) /\
  snd (createTweet sampleUpload None bodyWithText 400 sampleDB) = sampleDB /\
  findUser 9 (users sampleDB) = None /\
  tweets (snd (createTweet sampleUpload (Some (JwtPayload.mk 9)) bodyWithText
                 400 sampleDB)) = tweets sampleDB /\
  tweet_seq (snd (createTweet sampleUpload (Some (JwtPayload.mk 9))
                    bodyWithText 400 sampleDB)) = 5.
Proof.
  destruct (createTweet_failures_answer_500 (fun _ _ => UploadFailed [])
              (Some aliceJwt) bodyWithText 400 sampleDB eq_refl eq_refl)
    as (Hup & _).
  destruct (createTweet_failures_answer_500 sampleUpload None bodyWithText 400
              sampleDB eq_refl eq_refl) as (_ & Hanon & _).
  destruct (createTweet_failures_answer_500 sampleUpload
              (Some (JwtPayload.mk 9)) bodyWithText 400 sampleDB eq_refl
              eq_refl) as (_ & _ & Hunknown).
  destruct (Hunknown (JwtPayload.mk 9) (js "https://storage/object") eq_refl
              eq_refl eq_refl)
    as (_ & _ & Htweets & _ & _ & _ & Hseq & _).
  split; [reflexivity|]. split; [reflexivity|].
  split; [exact (Hup [] eq_refl)|].
  split; [exact (proj2 (Hanon eq_refl))|].
  split; [reflexivity|]. split; [exact Htweets | exact Hseq].
Defined.

(** ** The data URL prefix *)

Lemma stripPrefix_app p r : stripPrefix p (p ++ r) = Some r.
Proof.
  induction p as [|b p IH]; simpl; [now destruct r|].
  now rewrite N.eqb_refl.
Qed.

Lemma stripPrefix_some p s r : stripPrefix p s = Some r -> s = p ++ r.
Proof.
  revert s. induction p as [|b p IH]; intros s; simpl.
  - destruct s; intros H; now injection H.
  - destruct s as [|a s]; [discriminate|].
    destruct (N.eqb a b) eqn:E; [|discriminate].
    apply N.eqb_eq in E. subst a. intros H. now rewrite (IH _ H).
Qed.

Lemma takeWhile_stop {A} (p : A -> bool) l x r :
  forallb p l = true -> p x = false ->
  takeWhile p (l ++ x :: r) = l /\ dropWhile p (l ++ x :: r) = x :: r.
Proof.
  intros Hl Hx. induction l as [|a l IH]; simpl.
  - now rewrite Hx.
  - simpl in Hl. apply andb_prop in Hl. destruct Hl as [Ha Hl].
    rewrite Ha. destruct (IH Hl) as [-> ->]. split; reflexivity.
Qed.

(** X17.  [createTweet] uploads the payload of a data URL: for every
    subtype made of one or more word characters, the text after
    ["data:image/<subtype>;base64,"] is what is left; a string that does
    not start with ["data:image/"] is uploaded as it is; and in every case
    what is uploaded is the end of what was sent. *)
Theorem stripDataUrl_keeps_the_payload (subtype payload s : JsString) :
  (subtype <> [] -> forallb isWordChar subtype = true ->
   stripDataUrl (js "data:image/" ++ subtype ++ js ";base64," ++ payload)
   = payload) /\
  (stripPrefix (js "data:image/") s = None -> stripDataUrl s = s) /\
  (exists prefix, s = prefix ++ stripDataUrl s).
Proof.
  split; [|split].
  - intros Hne Hw. unfold stripDataUrl. rewrite stripPrefix_app.
    change (js ";base64," ++ payload)
      with (59%N :: (js "base64," ++ payload)).
    destruct (takeWhile_stop isWordChar subtype 59%N
                (js "base64," ++ payload) Hw eq_refl) as [-> ->].
    destruct subtype; [congruence|].
    change (59%N :: js "base64," ++ payload)
      with (js ";base64," ++ payload).
    now rewrite stripPrefix_app.
  - intros H. unfold stripDataUrl. now rewrite H.
  - unfold stripDataUrl.
    destruct (stripPrefix (js "data:image/") s) as [r|] eqn:E;
      [|now exists []].
    destruct (takeWhile isWordChar r) as [|c w] eqn:Ew; [now exists []|].
    destruct (stripPrefix (js ";base64,") (dropWhile isWordChar r))
      as [rest|] eqn:Er; [|now exists []].
    apply stripPrefix_some in E, Er.
    exists (js "data:image/" ++ (c :: w) ++ js ";base64,").
    rewrite E, <- (takeWhile_dropWhile isWordChar r), Ew, Er.
    now rewrite <- !app_assoc.
Qed.

Lemma stripDataUrl_keeps_the_payload_witness :
  js "jpeg" <> [] /\ forallb isWordChar (js "jpeg") = true /\
  stripDataUrl (js "data:image/" ++ js "jpeg" ++ js ";base64," ++ js "AAAA")
  = js "AAAA" /\
  stripPrefix (js "data:image/") (js "AAAA") = None /\
  stripDataUrl (js "AAAA") = js "AAAA".
Proof.
  assert (Hne : js "jpeg" <> []) by discriminate.
  destruct (stripDataUrl_keeps_the_payload (js "jpeg") (js "AAAA") (js "AAAA"))
    as (Hdata & Hplain & _).
  split; [exact Hne|]. split; [reflexivity|].
  split; [exact (Hdata Hne eq_refl)|].
  split; [reflexivity|]. exact (Hplain eq_refl).
Defined.

(** ** The pieces of the search query *)

Lemma existsb_rev {A} (p : A -> bool) l : existsb p (rev l) = existsb p l.
Proof.
  induction l as [|a r IH]; simpl; [reflexivity|].
  rewrite existsb_app, IH. simpl. rewrite orb_false_r. apply orb_comm.
Qed.

Lemma rev_word x cur :
  existsb isWhiteSpace (x :: cur) = false ->
  rev (x :: cur) <> [] /\ existsb isWhiteSpace (rev (x :: cur)) = false.
Proof.
  intros Hc. split.
  - intros H. apply (f_equal (@length N)) in H.
    rewrite length_rev in H. discriminate.
  - now rewrite existsb_rev.
Qed.

Lemma wordsFrom_pieces cur s :
  existsb isWhiteSpace cur = false ->
  Forall (fun w => w <> [] /\ existsb isWhiteSpace w = false) (wordsFrom cur s)
  /\ concat (wordsFrom cur s)
     = rev cur ++ filter (fun c => negb (isWhiteSpace c)) s.
Proof.
  revert cur. induction s as [|c r IH]; intros cur Hc; simpl.
  - destruct cur as [|x cur].
    + split; [constructor | reflexivity].
    + split.
      * constructor; [now apply rev_word | constructor].
      * simpl. now rewrite !app_nil_r.
  - destruct (isWhiteSpace c) eqn:W; simpl.
    + destruct (IH [] eq_refl) as [Hf Hcat].
      destruct cur as [|x cur]; [split; assumption|].
      split.
      * constructor; [now apply rev_word | exact Hf].
      * simpl. now rewrite Hcat.
    + assert (Hc' : existsb isWhiteSpace (c :: cur) = false)
        by (simpl; now rewrite W, Hc).
      destruct (IH (c :: cur) Hc') as [Hf Hcat].
      split; [exact Hf|]. rewrite Hcat. simpl. now rewrite <- app_assoc.
Qed.

Lemma blank_app a b : blank (a ++ b) = blank a && blank b.
Proof. unfold blank. apply forallb_app. Qed.

(** X18.  For a query that is not blank, the pieces joined into the search
    term are its words: there is at least one, none is empty, none holds
    white space, together they are the query without its white space, and
    white space added before or after the query does not change the term. *)
Theorem search_query_pieces (q : JsString) :
  blank q = false ->
  split_ws (trim q) <> [] /\
  Forall (fun w => w <> [] /\ existsb isWhiteSpace w = false)
         (split_ws (trim q)) /\
  concat (split_ws (trim q)) = filter (fun c => negb (isWhiteSpace c)) q /\
  (forall pre post,
      blank pre = true -> blank post = true ->
      searchTerm (pre ++ q ++ post) = searchTerm q).
Proof.
  intros Hb.
  split; [apply splitWs_nonempty|].
  rewrite (split_ws_trim q Hb).
  destruct (wordsFrom_pieces [] q eq_refl) as [Hf Hcat].
  split; [exact Hf|]. split; [exact Hcat|].
  intros pre post Hpre Hpost. unfold searchTerm.
  rewrite (split_ws_trim q Hb), split_ws_trim.
  - rewrite words_leading by exact Hpre.
    unfold words. now rewrite wordsFrom_trailing.
  - rewrite !blank_app, Hb. now rewrite andb_false_r.
Qed.

Lemma search_query_pieces_witness :
  blank (js " cats  dogs ") = false /\
  split_ws (trim (js " cats  dogs ")) = [js "cats"; js "dogs"] /\
  searchTerm ([9; 10]%N ++ js " cats  dogs " ++ [160]%N)
  = searchTerm (js " cats  dogs ").
Proof.
  destruct (search_query_pieces (js " cats  dogs ") eq_refl)
    as (_ & _ & _ & Hpad).
  split; [reflexivity|]. split; [reflexivity|].
  exact (Hpad [9; 10]%N [160]%N eq_refl eq_refl).
Defined.

(** ** The follower and following lists after a follow *)

(** X19.  A Follow row is stored with the two user ids, and the lists load
    the [follower] and [followed] relations, which no row carries.  So after
    a successful [followUser] from A to B, B has a follower row and A a
    following row, and yet [getUserFollowers] of B and [getUserFollowing] of
    A return an empty list, with or without a [notFound] responder.  No call
    of either handler, on any store, returns a profile. *)
Theorem follow_then_no_profile_listed
    (a : JwtPayload.t) (b : Id) (now : Timestamp) (db db1 : DB)
    (s : option Z) (m : JsString) :
  followUser (Some a) b now db = (Return s m, db1) ->
  (In (Follow.mk (follow_seq db) (JwtPayload.userId a) b now)
      (followersOf db1 b) /\
   forall notFound,
     getUserFollowers b notFound db1 = (Return None [], db1)) /\
  (int4 (JwtPayload.userId a) = true ->
   In (Follow.mk (follow_seq db) (JwtPayload.userId a) b now)
      (followingOf db1 (JwtPayload.userId a)) /\
   forall notFound,
     getUserFollowing (JwtPayload.userId a) notFound db1
     = (Return None [], db1)) /\
  (forall (userId : JsNumber) notFound store status profiles store',
      getUserFollowers userId notFound store
      = (Return status profiles, store') \/
      getUserFollowing userId notFound store
      = (Return status profiles, store') ->
      profiles = []).
Proof.
  intros H. apply followUser_success in H.
  destruct H as (_ & Hi & _ & _ & ->).
  set (row := Follow.mk (follow_seq db) (JwtPayload.userId a) b now).
  set (db1 := mkDB _ _ _ _ (follows db ++ [row]) _ _ _ _).
  assert (Hers : followersOf db1 b = followersOf db b ++ [row]).
  { unfold followersOf, db1. cbn [follows]. rewrite filter_snoc.
    unfold row at 1. cbn [Follow.followedId]. now rewrite Z.eqb_refl. }
  assert (Hing : followingOf db1 (JwtPayload.userId a)
                 = followingOf db (JwtPayload.userId a) ++ [row]).
  { unfold followingOf, db1. cbn [follows]. rewrite filter_snoc.
    unfold row at 1. cbn [Follow.followerId]. now rewrite Z.eqb_refl. }
  split; [|split].
  - split; [rewrite Hers; apply in_or_app; right; now left|].
    intros notFound. rewrite getUserFollowers_cases.
    rewrite (columnValue_Integer _ Hi), Hers.
    now destruct (followersOf db b).
  - intros Ha.
    split; [rewrite Hing; apply in_or_app; right; now left|].
    intros notFound. rewrite getUserFollowing_cases.
    rewrite (columnValue_Integer _ Ha), Hing.
    now destruct (followingOf db (JwtPayload.userId a)).
  - intros userId notFound store status profiles store'.
    rewrite getUserFollowers_cases, getUserFollowing_cases.
    destruct (columnValue userId) as [uid|]; [|intros [H | H]; discriminate].
    intros [H | H].
    + destruct (followersOf store uid); [now destruct notFound|].
      now injection H as _ <- _.
    + destruct (followingOf store uid); [now destruct notFound|].
      now injection H as _ <- _.
Qed.

Lemma follow_then_no_profile_listed_witness :
  followUser (Some aliceJwt) 2 400 sampleDB
  = (Return (Some 200) (js "Successfully followed user 2"),
     sampleDB_alice_follows_bob) /\
  findUser 1 (users sampleDB_alice_follows_bob) = Some alice /\
  followersOf sampleDB_alice_follows_bob 2 = [Follow.mk 2 1 2 400] /\
  getUserFollowers 2 (Some responder) sampleDB_alice_follows_bob
  = (Return None [], sampleDB_alice_follows_bob) /\
  int4 (JwtPayload.userId aliceJwt) = true /\
  getUserFollowing 1 None sampleDB_alice_follows_bob
  = (Return None [], sampleDB_alice_follows_bob).
Proof.
  assert (H : followUser (Some aliceJwt) 2 400 sampleDB
              = (Return (Some 200) (js "Successfully followed user 2"),
                 sampleDB_alice_follows_bob)) by reflexivity.
  destruct (follow_then_no_profile_listed aliceJwt 2 400 sampleDB
              sampleDB_alice_follows_bob _ _ H) as ((_ & Hers) & Hing & _).
  split; [exact H|]. split; [reflexivity|]. split; [reflexivity|].
  split; [exact (Hers (Some responder))|].
  split; [reflexivity|].
  exact (proj2 (Hing eq_refl) None).
Defined.

(** ** The likes of a user *)

Lemma likedTweetResponses_show req_user likedTweets db userId ls :
  incl ls (likesOfUser db userId) ->
  let rows := map (fun l => (l, findUser (Like.userId l) (users db),
                             findTweet (Like.tweetId l) (tweets db))) ls in
  Forall (showsLike db userId) (likedTweetResponses req_user likedTweets rows)
  /\ (length (likedTweetResponses req_user likedTweets rows) <= length ls)%nat
  /\ (Forall (fun l => findUser (Like.userId l) (users db) <> None /\
                       findTweet (Like.tweetId l) (tweets db) <> None) ls ->
      length (likedTweetResponses req_user likedTweets rows) = length ls).
Proof.
  induction ls as [|l r IH]; intros Hin; simpl.
  - split; [constructor|]. split; [lia | reflexivity].
  - assert (Hl : In l (likes db) /\ Like.userId l = userId).
    { specialize (Hin l (or_introl eq_refl)). unfold likesOfUser in Hin.
      apply filter_In in Hin. destruct Hin as [H1 H2].
      apply Z.eqb_eq in H2. tauto. }
    destruct Hl as [Hl1 Hl2].
    destruct (IH (fun x Hx => Hin x (or_intror Hx))) as (Hf & Hle & Heq).
    destruct (findUser (Like.userId l) (users db)) as [u|] eqn:Hu;
      [destruct (findTweet (Like.tweetId l) (tweets db)) as [t|] eqn:Ht|].
    + split; [|split].
      * constructor; [|exact Hf].
        split; [exact Hl2|]. exists l, t.
        repeat split; assumption.
      * simpl. lia.
      * intros Hall. inversion Hall; subst. simpl. f_equal. now apply Heq.
    + split; [exact Hf|]. split; [lia|].
      intros Hall. inversion Hall as [|? ? [_ Hbad] _]; subst. congruence.
    + split; [exact Hf|]. split; [lia|].
      intros Hall. inversion Hall as [|? ? [Hbad _] _]; subst. congruence.
Qed.

(** X20.  For a user id that is a value of the id column, [getUserLikes]
    answers 404 ["User not found"] for a user without a row, 404
    ["No liked tweets found for this user."] for a user without likes, and
    otherwise lists the user's likes whose tweet exists: each entry carries
    the Like row's id and time and the liked tweet's image and text.  With
    resolved references there is one entry per Like row.  For any other
    number in the path the lookup of the user fails (status 500). *)
Theorem getUserLikes_lists_the_likes
    (req_user : option JwtPayload.t) (userId : JsNumber) (db : DB) :
  (columnValue userId = None ->
   getUserLikes req_user userId db = (Throw (MessageOf QueryFailed), db) /\
   httpStatus None (fst (getUserLikes req_user userId db)) = 500) /\
  (forall id,
      columnValue userId = Some id ->
      (findUser id (users db) = None ->
       getUserLikes req_user userId db
       = (Respond 404 (js "User not found"), db)) /\
      (findUser id (users db) <> None -> likesOfUser db id = [] ->
       getUserLikes req_user userId db
       = (Respond 404 (js "No liked tweets found for this user."), db)) /\
      (findUser id (users db) <> None -> likesOfUser db id <> [] ->
       exists rs,
         getUserLikes req_user userId db = (Return None rs, db) /\
         Forall (showsLike db id) rs /\
         (length rs <= length (likesOfUser db id))%nat /\
         (referencesResolve db -> length rs = length (likesOfUser db id)))).
Proof.
  unfold getUserLikes. rewrite bind_column.
  split; [intros ->; split; reflexivity|].
  intros id ->.
  unfold bind, UserRepo.findOneBy_id,
    LikeRepo.find_byUser_withUserTweet, query, respond.
  cbv beta.
  pose proof (fun liked =>
                likedTweetResponses_show req_user liked db id
                  (likesOfUser db id) (incl_refl _)) as Hshow.
  unfold likesOfUser in *.
  destruct (findUser id (users db)) as [u|]; cbn [fst snd].
  - split; [discriminate|].
    split.
    + intros _ ->. reflexivity.
    + intros _ Hne. rewrite length_map.
      set (mine := filter (fun l => Like.userId l =? id) (likes db)) in *.
      destruct (Nat.eqb (length mine) 0) eqn:E.
      { apply Nat.eqb_eq, length_zero_iff_nil in E. congruence. }
      set (rows := map _ mine) in *.
      destruct (currentUserLikes_reads req_user
                  (map (fun t => Like.id (fst (fst t))) rows) db)
        as [liked ->].
      cbn [ret]. eexists. split; [reflexivity|].
      destruct (Hshow liked) as (Hf & Hle & Heq).
      split; [exact Hf|]. split; [exact Hle|].
      intros (_ & _ & Hl). apply Heq.
      apply Forall_forall. intros l Hin. unfold mine in Hin.
      apply filter_In in Hin. rewrite Forall_forall in Hl. now apply Hl.
  - split; [reflexivity|]. split; congruence.
Qed.

Lemma getUserLikes_lists_the_likes_witness :
  (columnValue 9 = Some 9 /\ findUser 9 (users sampleDB) = None /\
   getUserLikes None 9 sampleDB = (Respond 404 (js "User not found"), sampleDB))
  /\
  (columnValue 2 = Some 2 /\
   findUser 2 (users sampleDB) <> None /\ likesOfUser sampleDB 2 = [] /\
   getUserLikes None 2 sampleDB
   = (Respond 404 (js "No liked tweets found for this user."), sampleDB)) /\
  (columnValue 1 = Some 1 /\
   findUser 1 (users sampleDB) <> None /\ likesOfUser sampleDB 1 <> [] /\
   exists rs,
     getUserLikes None 1 sampleDB = (Return None rs, sampleDB) /\
     length rs = length (likesOfUser sampleDB 1)) /\
  (columnValue (-2147483649) = None /\
   getUserLikes None (-2147483649) sampleDB
   = (Throw (MessageOf QueryFailed), sampleDB)).
Proof.
  destruct (getUserLikes_lists_the_likes None 9 sampleDB) as (_ & Hnine).
  destruct (getUserLikes_lists_the_likes None 2 sampleDB) as (_ & Htwo).
  destruct (getUserLikes_lists_the_likes None 1 sampleDB) as (_ & Hone).
  destruct (getUserLikes_lists_the_likes None (-2147483649) sampleDB)
    as (Hfail & _).
  destruct (Hnine 9 eq_refl) as (Hnone & _).
  destruct (Htwo 2 eq_refl) as (_ & Hempty & _).
  destruct (Hone 1 eq_refl) as (_ & _ & Hsome).
  assert (H2 : findUser 2 (users sampleDB) <> None) by discriminate.
  assert (H1 : findUser 1 (users sampleDB) <> None) by discriminate.
  assert (Hl : likesOfUser sampleDB 1 <> []) by discriminate.
  split; [split; [reflexivity | split; [reflexivity | exact (Hnone eq_refl)]]|].
  split.
  { split; [reflexivity|]. split; [exact H2|].
    split; [reflexivity | exact (Hempty H2 eq_refl)]. }
  split.
  { split; [reflexivity|]. split; [exact H1|]. split; [exact Hl|].
    destruct (Hsome H1 Hl) as (rs & Hrun & _ & _ & Hlen).
    exists rs. split; [exact Hrun | exact (Hlen sampleDB_references)]. }
  split; [reflexivity | exact (proj1 (Hfail eq_refl))].
Defined.

(** ** Search and the feed *)

Section SearchResults.

Context {D : Database} {HD : Orderly D}.

(** X21.  Every tweet that [searchTweets] returns is a stored tweet whose
    text matches the search term; its [hasLiked] tells whether the requester
    has a Like row on it, and a tweet without an author row is listed with
    the name ["unknown"] (the feed leaves such a tweet out).  When every
    stored tweet matches and has its author row, the search answers exactly
    what the feed answers. *)
Theorem searchTweets_results_match
    (tsMatch : JsString -> option JsString -> bool)
    (req_user : option JwtPayload.t) (q : JsString)
    (limit offset : option nat) (db : DB) :
  blank q = false ->
  (exists rs,
      searchTweets tsMatch req_user q (option_map ofNat limit)
        (option_map ofNat offset) db = (Return None rs, db) /\
      Forall (fun r =>
                In (tweetOf r) (tweets db) /\
                tsMatch (searchTerm q) (TweetResponse.tweetText r) = true /\
                TweetResponse.hasLiked r
                = likedBy req_user db (TweetResponse.id r) /\
                (findUser (TweetResponse.userId r) (users db) = None ->
                 TweetResponse.username r = js "unknown")) rs) /\
  ((forall t, In t (tweets db) ->
              tsMatch (searchTerm q) (Tweet.tweetText t) = true /\
              hasUser db t = true) ->
   forall limit offset : option JsNumber,
     searchTweets tsMatch req_user q limit offset db
     = getFeedTweets req_user limit offset db).
Proof.
  intros Hb. split.
  - rewrite (searchTweets_views _ _ _ _ _ _ Hb).
    change (Integer 10) with (ofNat 10). change (Integer 0) with (ofNat 0).
    rewrite !defaultTo_ofNat.
    destruct (newestFirst_page Tweet.createdAt
                (match limit with Some n => n | None => 10%nat end)
                (match offset with Some n => n | None => 0%nat end)
                (filter (fun t => tsMatch (searchTerm q) (Tweet.tweetText t))
                        (tweets db)))
      as (page & ordered & Hq & _ & _ & _ & _ & Hincl).
    rewrite Hq. eexists. split; [reflexivity|].
    apply Forall_forall. intros r Hr. apply in_map_iff in Hr.
    destruct Hr as (t & <- & Ht). apply Hincl in Ht.
    apply filter_In in Ht. destruct Ht as [Hin Hm].
    split; [now destruct t|]. split; [exact Hm|]. split; [reflexivity|].
    unfold tweetView. cbn [TweetResponse.userId TweetResponse.username].
    now intros ->.
  - intros Hall anyLimit anyOffset.
    rewrite (searchTweets_views _ _ _ _ _ _ Hb), getFeedTweets_views.
    rewrite (filter_all _ (tweets db)) by (intros t Ht; apply (Hall t Ht)).
    destruct (newestFirst _ _ _ _) as [page|] eqn:Hq; [|reflexivity].
    rewrite filter_all; [reflexivity|].
    intros t Ht. apply (newestFirst_incl _ _ _ _ _ Hq) in Ht.
    apply (Hall t Ht).
Qed.

End SearchResults.

Lemma searchTweets_results_match_witness :
  blank (js "one") = false /\
  exists rs,
    searchTweets (D := tableOrder) sampleMatch (Some aliceJwt) (js "one") None
      None sampleDB
    = (Return None rs, sampleDB) /\
    Forall (fun r => In (tweetOf r) (tweets sampleDB) /\
                     sampleMatch (searchTerm (js "one"))
                       (TweetResponse.tweetText r) = true) rs.
Proof.
  split; [reflexivity|].
  destruct (searchTweets_results_match (HD := tableOrder_orderly) sampleMatch
              (Some aliceJwt) (js "one") None None sampleDB eq_refl)
    as ((rs & Hrun & Hall) & _).
  exists rs. split; [exact Hrun|].
  eapply Forall_impl; [|exact Hall]. intros r (H1 & H2 & _). now split.
Defined.
